(** * hw3/homework.py: the monthly trip-duration training flow

  A shallow embedding of [src/hw3/homework.py].  The flow's six functions
  ([get_paths], [read_data], [prepare_features], [train_model],
  [run_model], [main]) are embedded under their own names.  Inside the
  flow a call of a task gives a future: what the task raises stays in the
  future until [.result()] is called on it, and a task whose argument is
  the future of a run that did not complete is not run.  Library calls
  (datetime, dateutil, pandas, scikit-learn, joblib) are embedded by what
  they do to the values the flow hands them. *)

From Stdlib Require Import ZArith QArith Ascii String List Bool Lia.
From Stdlib Require Import DecimalString.
From Stdlib Require DecimalPos DecimalZ.
From stdpp Require Import base option list strings gmap sorting.

Close Scope Q_scope.
Local Open Scope string_scope.
Local Open Scope list_scope.
Local Open Scope Z_scope.

(** ** Python exceptions and results *)

Module Py.

(** The exception classes the flow can meet. *)
Inductive exn : Type :=
| ValueError
| KeyError
| AttributeError
| TypeError
| FileNotFoundError
| OverflowError.

(** The outcome of a call: a returned value or a raised exception. *)
Inductive result (A : Type) : Type :=
| Ok (a : A)
| Raise (e : exn).

Arguments Ok {A} a.
Arguments Raise {A} e.

Definition bind {A B : Type} (r : result A) (k : A -> result B) : result B :=
  match r with
  | Ok a => k a
  | Raise e => Raise e
  end.

Definition raised {A : Type} (r : result A) : Prop :=
  match r with
  | Ok _ => False
  | Raise _ => True
  end.

(** Run a fallible function over a list, left to right, stopping at the
    first exception. *)
Fixpoint traverse {A B : Type} (f : A -> result B) (l : list A)
  : result (list B) :=
  match l with
  | [] => Ok []
  | x :: l' =>
      bind (f x) (fun y => bind (traverse f l') (fun ys => Ok (y :: ys)))
  end.

(** Python's [str(n)] on an integer. *)
Definition str_int (n : Z) : string := NilZero.string_of_int (Z.to_int n).

(** Python's [f"{n:02d}"] on a non-negative integer: at least two digits,
    padded with a zero on the left. *)
Definition format_02d (n : Z) : string :=
  if n <? 10 then "0" +:+ str_int n else str_int n.

End Py.

Export Py.

(** [x ← e; k] runs [e] and, unless it raised, continues with [k]. *)
#[global] Instance result_bind : MBind result :=
fun A B k r => Py.bind r k.
#[global] Instance result_ret : MRet result := fun A a => Ok a.

(** ** Calendar dates, [strptime] and [relativedelta] *)

Module Dates.

(** [datetime.date]: a proleptic Gregorian calendar date. *)
Record date : Type := mk_date { year : Z; month : Z; day : Z }.

Definition MINYEAR : Z := 1.
Definition MAXYEAR : Z := 9999.

Definition isleap (y : Z) : bool :=
  (y mod 4 =? 0) && (negb (y mod 100 =? 0) || (y mod 400 =? 0)).

(** [calendar.monthrange(y, m)[1]]: the number of days of a month. *)
Definition days_in_month (y m : Z) : Z :=
  if m =? 2 then (if isleap y then 29 else 28)
  else if (m =? 4) || (m =? 6) || (m =? 9) || (m =? 11) then 30
  else 31.

(** The check [datetime.date(y, m, d)] performs on its arguments. *)
Definition valid_date (y m d : Z) : bool :=
  (MINYEAR <=? y) && (y <=? MAXYEAR) &&
  (1 <=? m) && (m <=? 12) &&
  (1 <=? d) && (d <=? days_in_month y m).

(** [datetime.date(y, m, d)]: raises [ValueError] out of range. *)
Definition make_date (y m d : Z) : result date :=
  if valid_date y m d then Ok (mk_date y m d) else Raise ValueError.

(** *** [strptime(s, "%Y-%m-%d")]

    The format compiles to the regular expression
    [(\d\d\d\d)-(1[0-2]|0[1-9]|[1-9])-(3[0-1]|[1-2]\d|0[1-9]|[1-9]| [1-9])],
    matched at the start of the string; the match must then cover the whole
    string.  Characters are code points below 256, where the only decimal
    digits are ['0'..'9']. *)

Definition code (c : ascii) : Z := Z.of_nat (nat_of_ascii c).

Definition in_range (lo hi : Z) (c : ascii) : bool :=
  (lo <=? code c) && (code c <=? hi).

Definition is_digit (c : ascii) : bool := in_range 48 57 c.

Definition digit_value (c : ascii) : Z := code c - 48.

(** group [Y]: exactly four digits *)
Definition match_Y (s : string) : option (Z * string) :=
  match s with
  | String a (String b (String c (String d rest))) =>
      if is_digit a && is_digit b && is_digit c && is_digit d
      then Some (1000 * digit_value a + 100 * digit_value b
                 + 10 * digit_value c + digit_value d, rest)
      else None
  | _ => None
  end.

(** one two-character alternative [[lo1-hi1][lo2-hi2]] *)
Definition two_chars (lo1 hi1 lo2 hi2 : Z) (s : string)
  : list (Z * string) :=
  match s with
  | String a (String b rest) =>
      if in_range lo1 hi1 a && in_range lo2 hi2 b
      then [(10 * digit_value a + digit_value b, rest)]
      else []
  | _ => []
  end.

(** the one-character alternative [[1-9]] *)
Definition one_char (s : string) : list (Z * string) :=
  match s with
  | String a rest =>
      if in_range 49 57 a then [(digit_value a, rest)] else []
  | _ => []
  end.

(** the alternative [ [1-9]]: a space, then a digit *)
Definition space_char (s : string) : list (Z * string) :=
  match s with
  | String a (String b rest) =>
      if (code a =? 32) && in_range 49 57 b
      then [(digit_value b, rest)]
      else []
  | _ => []
  end.

(** group [m]: its alternatives that match, in the order the regular
    expression tries them *)
Definition alts_m (s : string) : list (Z * string) :=
  two_chars 49 49 48 50 s ++ two_chars 48 48 49 57 s ++ one_char s.

(** group [d], likewise *)
Definition alts_d (s : string) : list (Z * string) :=
  two_chars 51 51 48 49 s ++ two_chars 49 50 48 57 s
  ++ two_chars 48 48 49 57 s ++ one_char s ++ space_char s.

Definition expect_dash (s : string) : option string :=
  match s with
  | String a rest => if code a =? 45 then Some rest else None
  | _ => None
  end.

(** the first alternative whose continuation succeeds (backtracking) *)
Fixpoint first_success {A B : Type} (k : A -> option B) (l : list A)
  : option B :=
  match l with
  | [] => None
  | x :: l' =>
      match k x with
      | Some b => Some b
      | None => first_success k l'
      end
  end.

(** [format_regex.match(s)]: the three groups and the unmatched rest *)
Definition regex_match (s : string) : option (Z * Z * Z * string) :=
  match match_Y s with
  | None => None
  | Some (y, s1) =>
      match expect_dash s1 with
      | None => None
      | Some s2 =>
          first_success
            (fun '(m, s3) =>
               match expect_dash s3 with
               | None => None
               | Some s4 =>
                   match alts_d s4 with
                   | [] => None
                   | (d, s5) :: _ => Some (y, m, d, s5)
                   end
               end)
            (alts_m s2)
      end
  end.

(** [datetime.datetime.strptime(s, "%Y-%m-%d").date()] *)
Definition strptime (s : string) : result date :=
  match regex_match s with
  | None => Raise ValueError
  | Some (y, m, d, rest) =>
      match rest with
      | EmptyString => make_date y m d
      | _ => Raise ValueError
      end
  end.

(** *** [d + relativedelta(months=k)], for [1 <= |k| <= 12]

    dateutil moves the month, carries into the year, clips the day to the
    length of the target month and rebuilds the date with [date.replace],
    which raises [ValueError] when the year leaves [MINYEAR..MAXYEAR]. *)
Definition add_months (d : date) (months : Z) : result date :=
  let y := year d in
  let m := month d + months in
  let '(y, m) :=
    if 12 <? m then (y + 1, m - 12)
    else if m <? 1 then (y - 1, m + 12)
    else (y, m) in
  let dd := Z.min (days_in_month y m) (day d) in
  make_date y m dd.

(** *** [d.strftime("%Y-%m-%d")]: four, two and two digits, zero-filled *)

Definition digit_char (n : Z) : ascii := ascii_of_nat (Z.to_nat (48 + n)).

Definition two_digits (n : Z) : string :=
  String (digit_char (n / 10)) (String (digit_char (n mod 10)) EmptyString).

Definition four_digits (n : Z) : string :=
  String (digit_char (n / 1000))
    (String (digit_char (n / 100 mod 10)) (two_digits (n mod 100))).

Definition strftime (d : date) : string :=
  four_digits (year d) +:+ "-" +:+ two_digits (month d) +:+ "-"
  +:+ two_digits (day d).

(** A reference date string is well formed when it is the [YYYY-MM-DD]
    rendering of a calendar date. *)
Definition well_formed (s : string) : Prop :=
  exists y m d, valid_date y m d = true /\ s = strftime (mk_date y m d).

(** The month [k] calendar months before month [m] of year [y], counting
    months on one line across years. *)
Definition months_before (k : Z) (y m : Z) : Z * Z :=
  let t := 12 * y + (m - 1) - k in (t / 12, t mod 12 + 1).

(** [./data/fhv_tripdata_<year>-<two-digit-month>.parquet] *)
Definition dataset_id (ym : Z * Z) : string :=
  "./data/fhv_tripdata_" +:+ str_int (fst ym) +:+ "-" +:+ two_digits (snd ym)
  +:+ ".parquet".

End Dates.

Import Dates.

(** ** [get_paths] *)

Definition parquet_path (d : date) : string :=
"./data/fhv_tripdata_" +:+ str_int (year d) +:+ "-"
+:+ format_02d (month d) +:+ ".parquet".

Definition get_paths (date : string) : result (string * string) :=
date_object ← strptime date;
train_date ← add_months date_object (-2);
val_date ← add_months date_object (-1);
let train_path := parquet_path train_date in
let val_path := parquet_path val_date in
Ok (train_path, val_path).


(** ** Tables (pandas) *)

Module Pandas.

(** A cell of a table.  [NA] is a missing value ([NaN], [NaT], [None]);
    [Float] is a finite float, written as the rational it denotes;
    [Timestamp] is a point in time and [Timedelta] a time difference, both
    in nanoseconds. *)
Inductive value : Type :=
| NA
| Int (z : Z)
| Float (q : Q)
| Timestamp (ns : Z)
| Timedelta (ns : Z)
| Str (s : string).

(** A [DataFrame]: its column labels and its rows, each row a map from
    column label to cell.  A column's dtype is read off its cells. *)
Record frame : Type :=
  mk_frame { columns : list string; rows : list (gmap string value) }.

Definition cell (r : gmap string value) (c : string) : value :=
  default NA (r !! c).

(** [df.c] and [df[c]]: the column as a series; [missing] is what a label
    that is not a column raises. *)
Definition get_column (missing : exn) (df : frame) (c : string)
  : result (list value) :=
  if decide (c ∈ columns df)
  then Ok (map (fun r => cell r c) (rows df))
  else Raise missing.

(** [df[c] = s], in place: a new label is appended. *)
Definition set_column (df : frame) (c : string) (s : list value) : frame :=
  {| columns := if decide (c ∈ columns df) then columns df
                else columns df ++ [c];
     rows := zip_with (fun r v => <[c := v]> r) (rows df) s |}.

(** Points in time, time differences and integers are held in 64 bits.  For
    the first two the least 64-bit integer stands for the missing value
    ([NaT]). *)
Definition i8min : Z := - 2 ^ 63.
Definition i8max : Z := 2 ^ 63 - 1.

(** The difference of two nanosecond counts, [d] as an exact integer:
    pandas computes it with a check and raises [OverflowError] when it does
    not fit 64 bits; when it is the least 64-bit integer, it reads as
    missing. *)
Definition checked (as_value : Z -> value) (d : Z) : result value :=
  if (d <? i8min) || (i8max <? d) then Raise OverflowError
  else if d =? i8min then Ok NA
  else Ok (as_value d).

(** The difference of two 64-bit integers, which wraps around. *)
Definition wrap64 (d : Z) : Z := (d - i8min) mod 2 ^ 64 + i8min.

(** [a - b] on two cells *)
Definition sub_value (a b : value) : result value :=
  match a, b with
  | Timestamp x, Timestamp y => checked Timedelta (x - y)
  | Timestamp x, Timedelta y => checked Timestamp (x - y)
  | Timedelta x, Timedelta y => checked Timedelta (x - y)
  | Timestamp _, NA | NA, Timestamp _ => Ok NA
  | Timedelta _, NA | NA, Timedelta _ | NA, NA => Ok NA
  | Int x, Int y => Ok (Int (wrap64 (x - y)))
  | Int x, Float y => Ok (Float (inject_Z x - y))
  | Float x, Int y => Ok (Float (x - inject_Z y))
  | Float x, Float y => Ok (Float (x - y))
  | Int _, NA | NA, Int _ | Float _, NA | NA, Float _ => Ok NA
  | _, _ => Raise TypeError
  end.

(** [a - b] on two series of one length *)
Fixpoint sub_series (a b : list value) : result (list value) :=
  match a, b with
  | x :: a', y :: b' =>
      v ← sub_value x y; vs ← sub_series a' b'; Ok (v :: vs)
  | _, _ => Ok []
  end.

(** [s.dt.total_seconds() / 60] on one cell: only time differences have
    [total_seconds]. *)
Definition total_minutes (v : value) : result value :=
  match v with
  | Timedelta ns => Ok (Float (inject_Z ns / 1000000000 / 60))
  | NA => Ok NA
  | _ => Raise AttributeError
  end.

(** [s >= k] and [s <= k] on one cell, [k] an integer: a comparison with a
    missing value is false. *)
Definition ge_scalar (v : value) (k : Z) : result bool :=
  match v with
  | Float q => Ok (Qle_bool (inject_Z k) q)
  | Int z => Ok (k <=? z)
  | NA => Ok false
  | _ => Raise TypeError
  end.

Definition le_scalar (v : value) (k : Z) : result bool :=
  match v with
  | Float q => Ok (Qle_bool q (inject_Z k))
  | Int z => Ok (z <=? k)
  | NA => Ok false
  | _ => Raise TypeError
  end.

(** [m1 & m2] *)
Definition and_series (m1 m2 : list bool) : list bool :=
  zip_with andb m1 m2.

(** [df[mask]]: the rows where the mask holds, in order *)
Fixpoint boolean_index {A : Type} (l : list A) (mask : list bool) : list A :=
  match l, mask with
  | x :: l', b :: mask' =>
      if b then x :: boolean_index l' mask' else boolean_index l' mask'
  | _, _ => []
  end.

Definition select_rows (df : frame) (mask : list bool) : frame :=
  {| columns := columns df; rows := boolean_index (rows df) mask |}.

(** [s.mean()]: the mean of the cells that are not missing, [None] (NaN)
    when there are none. *)
Definition as_number (v : value) : result (option Q) :=
  match v with
  | Float q => Ok (Some q)
  | Int z => Ok (Some (inject_Z z))
  | NA => Ok None
  | _ => Raise TypeError
  end.

Definition mean (s : list value) : result (option Q) :=
  xs ← traverse as_number s;
  let qs := omap id xs in
  Ok (match qs with
      | [] => None
      | _ => Some (fold_right Qplus 0%Q qs / inject_Z (Z.of_nat (length qs)))%Q
      end).

(** [s.fillna(-1)] on one cell *)
Definition fillna (v : value) : value :=
  match v with
  | NA => Int (-1)
  | _ => v
  end.

(** Truncation toward zero, as the cast of a float to an integer does. *)
Definition truncate (q : Q) : Z := Z.quot (Qnum q) (Zpos (Qden q)).

Definition in_int64 (z : Z) : bool :=
  (- 2 ^ 63 <=? z) && (z <? 2 ^ 63).

Section Casts.

(** Python's [int(s)] on a string, and the platform's cast of a float
    outside the 64-bit range: both are taken as given. *)
Variable int_of_str : string -> result Z.
Variable int_of_wide : Q -> result Z.

(** [s.astype("int")] on one cell *)
Definition astype_int (v : value) : result Z :=
  match v with
  | Int z => Ok z
  | Float q => if in_int64 (truncate q) then Ok (truncate q)
               else int_of_wide q
  | Str s => int_of_str s
  | NA => Raise ValueError
  | Timestamp _ | Timedelta _ => Raise TypeError
  end.

(** [.fillna(-1).astype("int").astype("str")] on one cell *)
Definition encode_cell (v : value) : result value :=
  z ← astype_int (fillna v); Ok (Str (str_int z)).

(** [df[cs].fillna(-1).astype("int").astype("str")]: one encoded series per
    label of [cs]; [KeyError] if a label is not a column. *)
Definition encode_columns (df : frame) (cs : list string)
  : result (list (list value)) :=
  sel ← traverse (get_column KeyError df) cs;
  traverse (traverse encode_cell) sel.

(** [df[cs] = series]: each label of [cs] receives its series. *)
Fixpoint assign_columns (df : frame) (cs : list string)
  (series : list (list value)) : frame :=
  match cs, series with
  | c :: cs', s :: series' => assign_columns (set_column df c s) cs' series'
  | _, _ => df
  end.

(** [df[cs].fillna(-1).astype("int").astype("str")], stored as [df[cs]] *)
Definition encode_categorical (df : frame) (cs : list string)
  : result frame :=
  enc ← encode_columns df cs;
  Ok (assign_columns df cs enc).

End Casts.

(** [df[cs].to_dict(orient="records")]: one dict per row, keyed by [cs] in
    order. *)
Definition to_dict_records (df : frame) (cs : list string)
  : result (list (list (string * value))) :=
  if decide (Forall (fun c => c ∈ columns df) cs)
  then Ok (map (fun r => map (fun c => (c, cell r c)) cs) (rows df))
  else Raise KeyError.

(** *** The table expressions of the feature preparer, line by line *)

(** [df.dropOff_datetime - df.pickup_datetime], stored as [df["duration"]] *)
Definition derive_duration (df : frame) : result frame :=
  a ← get_column AttributeError df "dropOff_datetime";
  b ← get_column AttributeError df "pickup_datetime";
  d ← sub_series a b;
  Ok (set_column df "duration" d).

(** [df.duration.dt.total_seconds() / 60], stored as [df["duration"]] *)
Definition to_minutes (df : frame) : result frame :=
  d ← get_column AttributeError df "duration";
  m ← traverse total_minutes d;
  Ok (set_column df "duration" m).

(** The outlier filter [df[(df.duration >= 1) & (df.duration <= 60)]] *)
Definition duration_filter (df : frame) : result frame :=
  d ← get_column AttributeError df "duration";
  lo ← traverse (fun v => ge_scalar v 1) d;
  hi ← traverse (fun v => le_scalar v 60) d;
  Ok (select_rows df (and_series lo hi)).

(** [df.duration.mean()] *)
Definition mean_duration (df : frame) : result (option Q) :=
  d ← get_column AttributeError df "duration";
  mean d.

End Pandas.

Import Pandas.

(** ** The program's objects and its effects *)

Module Runtime.

(** A fitted [DictVectorizer]: its sorted feature names and the column
    index of each. *)
Record vectorizer : Type :=
  mk_vectorizer { feature_names_ : list string;
                  vocabulary_ : gmap string nat }.

(** A fitted [LinearRegression]. *)
Record regression : Type :=
  mk_regression { coef_ : list Q; intercept_ : Q }.

(** The mutable objects the flow creates; an estimator that is not fitted
    yet holds [None]. *)
Inductive object : Type :=
| DataFrame (df : frame)
| DictVectorizer (st : option vectorizer)
| LinearRegression (st : option regression).

(** The lines the flow logs, one constructor per message. *)
Inductive log_record : Type :=
| MeanDurationTraining (mean_duration : option Q)
| MeanDurationValidation (mean_duration : option Q)
| ShapeXTrain (shape : nat * nat)
| FeatureCount (n : nat)
| MseTraining (mse : Q)
| MseValidation (mse : Q).

(** What a run does to the outside: dataset reads, log lines and artifact
    writes, in the order they happen. *)
Inductive event : Type :=
| ReadParquet (path : string)
| Log (r : log_record)
| Dump (o : object) (file : string).

(** The store of objects, addressed by reference, and the events so far. *)
Record world : Type :=
  mk_world { heap : gmap nat object; trace : list event }.

(** A computation: it may change the world, and returns or raises. *)
Definition M (A : Type) : Type := world -> result A * world.

Definition ret {A : Type} (a : A) : M A := fun w => (Ok a, w).

Definition bind {A B : Type} (m : M A) (k : A -> M B) : M B :=
  fun w =>
    match m w with
    | (Ok a, w') => k a w'
    | (Raise e, w') => (Raise e, w')
    end.

Definition lift {A : Type} (r : result A) : M A := fun w => (r, w).

(** the world after an event *)
Definition record (ev : event) (w : world) : world :=
  {| heap := heap w; trace := trace w ++ [ev] |}.

(** the world after the object behind a reference is set *)
Definition store (l : nat) (o : object) (w : world) : world :=
  {| heap := <[l := o]> (heap w); trace := trace w |}.

Definition emit (ev : event) : M unit := fun w => (Ok tt, record ev w).

(** a new object, at a reference not in use *)
Definition new (o : object) : M nat :=
  fun w => let l := fresh (dom (heap w)) in (Ok l, store l o w).

Definition get_object (l : nat) : M object :=
  fun w =>
    match heap w !! l with
    | Some o => (Ok o, w)
    | None => (Raise AttributeError, w)
    end.

(** in-place update of the object behind a reference *)
Definition put (l : nat) (o : object) : M unit :=
  fun w => (Ok tt, store l o w).

Definition get_frame (l : nat) : M frame :=
  fun w =>
    match heap w !! l with
    | Some (DataFrame df) => (Ok df, w)
    | _ => (Raise AttributeError, w)
    end.

End Runtime.

Import Runtime.

#[global] Instance M_bind : MBind M := fun A B k m => Runtime.bind m k.
#[global] Instance M_ret : MRet M := fun A a => Runtime.ret a.

(** ** Tasks and futures (Prefect)

    The functions of the flow other than [main] are tasks.  Called inside
    the flow, a task does not hand back its value and does not raise: the
    call gives a future for the task's run.  The runs are taken one at a
    time, in the order in which the flow submits them. *)

Module Prefect.

(** The future of a task run: the run returned [a], or raised [e], or was
    not started because a run it waits for did not complete. *)
Inductive future (A : Type) : Type :=
| Completed (a : A)
| Failed (e : exn)
| NotReady.

Arguments Completed {A} a.
Arguments Failed {A} e.
Arguments NotReady {A}.

Definition completed {A : Type} (fut : future A) : bool :=
  match fut with
  | Completed _ => true
  | _ => false
  end.

(** [task(args)], no argument a future: the task runs, and what it raises
    is kept in the future. *)
Definition submit {A : Type} (m : M A) : M (future A) :=
  fun w =>
    match m w with
    | (Ok a, w') => (Ok (Completed a), w')
    | (Raise e, w') => (Ok (Failed e), w')
    end.

(** [task(fut, args)]: the task runs on the value of [fut]; it is not run
    when the run behind [fut] did not complete. *)
Definition submit_after {A B : Type} (fut : future A) (task : A -> M B)
  : M (future B) :=
  match fut with
  | Completed a => submit (task a)
  | _ => ret NotReady
  end.

Section Results.

(** What asking a run that was not started for its result ends in is taken
    as given. *)
Variable not_ready : exn.

(** [fut.result()]: the value the run returned; what the run raised is
    raised here. *)
Definition get_result {A : Type} (fut : future A) : M A :=
  match fut with
  | Completed a => ret a
  | Failed e => lift (Raise e)
  | NotReady => lift (Raise not_ready)
  end.

(** How a run that did not complete counts against the flow. *)
Definition failure {A : Type} (fut : future A) : option exn :=
  match fut with
  | Completed _ => None
  | Failed e => Some e
  | NotReady => Some not_ready
  end.

End Results.

(** The end of a flow that returns nothing: its run fails, with the first
    failure among its task runs, unless all of them completed. *)
Fixpoint terminal (runs : list (option exn)) : M unit :=
  match runs with
  | [] => ret tt
  | None :: runs' => terminal runs'
  | Some e :: _ => lift (Raise e)
  end.

End Prefect.

Import Prefect.

(** ** Estimators (scikit-learn) *)

Module Sklearn.

(** The feature matrix: its shape and, per sample, the non-zero entries as
    (column, value); a value [None] is NaN. *)
Record matrix : Type :=
  mk_matrix { shape : nat * nat; entries : list (list (nat * option Q)) }.

(** The feature a [DictVectorizer] reads off one item of a dict: a string
    value is one-hot ([field=value] with 1), a number is the field itself
    with that number. *)
Definition feature_of (f : string) (v : value)
  : result (string * option Q) :=
  match v with
  | Str s => Ok (f +:+ "=" +:+ s, Some 1%Q)
  | Int z => Ok (f, Some (inject_Z z))
  | Float q => Ok (f, Some q)
  | NA => Ok (f, None)
  | Timestamp _ | Timedelta _ => Raise TypeError
  end.

Definition features_of (x : list (string * value))
  : result (list (string * option Q)) :=
  traverse (fun '(f, v) => feature_of f v) x.

(** The order of Python's [sorted] on strings: by code point. *)
Definition str_le (a b : string) : Prop := String.leb a b = true.

#[global] Instance str_le_dec (a b : string) : Decision (str_le a b) :=
  decide (String.leb a b = true).

(** The vocabulary [fit] learns: the distinct feature names, sorted, each
    mapped to its position. *)
Definition learn (X : list (list (string * option Q))) : vectorizer :=
  let names := merge_sort str_le (remove_dups (map fst (concat X))) in
  {| feature_names_ := names;
     vocabulary_ := list_to_map (zip names (seq 0 (length names))) |}.

(** One sample against a vocabulary: features outside it contribute
    nothing. *)
Definition encode_sample (vocab : gmap string nat)
  (x : list (string * option Q)) : list (nat * option Q) :=
  omap (fun '(name, v) => i ← vocab !! name; Some (i, v)) x.

Definition vectorize (dv : vectorizer) (X : list (list (string * option Q)))
  : result matrix :=
  match X with
  | [] => Raise ValueError
  | _ => Ok {| shape := (length X, length (feature_names_ dv));
               entries := map (encode_sample (vocabulary_ dv)) X |}
  end.

(** [dv.fit_transform(X)]: learns the vocabulary, stores it in [dv] and
    returns the matrix. *)
Definition fit_transform (dv : nat) (X : list (list (string * value)))
  : M matrix :=
  o ← get_object dv;
  match o with
  | DictVectorizer _ =>
      F ← lift (traverse features_of X);
      match F with
      | [] => lift (Raise ValueError)
      | _ =>
          let st := learn F in
          put dv (DictVectorizer (Some st));;
          lift (vectorize st F)
      end
  | _ => lift (Raise AttributeError)
  end.

(** [dv.transform(X)]: reads the learned vocabulary; [dv] is not updated. *)
Definition transform (dv : nat) (X : list (list (string * value)))
  : M matrix :=
  o ← get_object dv;
  match o with
  | DictVectorizer (Some st) =>
      F ← lift (traverse features_of X);
      lift (vectorize st F)
  | _ => lift (Raise AttributeError)
  end.

(** The input validation of the estimators: no NaN, and for targets only
    numbers. *)
Definition finite_row (x : list (nat * option Q)) : result (list (nat * Q)) :=
  traverse (fun '(i, v) =>
              match v with
              | Some q => Ok (i, q)
              | None => Raise ValueError
              end) x.

Definition check_array (X : matrix) : result (list (list (nat * Q))) :=
  match entries X with
  | [] => Raise ValueError
  | _ => traverse finite_row (entries X)
  end.

Definition as_float (v : value) : result Q :=
  match v with
  | Float q => Ok q
  | Int z => Ok (inject_Z z)
  | NA | Str _ => Raise ValueError
  | Timestamp _ | Timedelta _ => Raise TypeError
  end.

Definition check_target (y : list value) : result (list Q) :=
  match y with
  | [] => Raise ValueError
  | _ => traverse as_float y
  end.

Section Numerics.

(** The least-squares solver behind [LinearRegression.fit] and the root of
    the mean squared error are floating-point routines; they are taken as
    given, on exact numbers. *)
Variable lstsq : nat -> list (list (nat * Q)) -> list Q -> list Q * Q.
Variable rmse : list Q -> list Q -> Q.

(** [lr.fit(X, y)]: validates, solves and stores the parameters in [lr]. *)
Definition fit (lr : nat) (X : matrix) (y : list value) : M unit :=
  o ← get_object lr;
  match o with
  | LinearRegression _ =>
      A ← lift (check_array X);
      b ← lift (check_target y);
      if decide (length A = length b)
      then
        let '(coef, intercept) := lstsq (snd (shape X)) A b in
        put lr (LinearRegression
                  (Some {| coef_ := coef; intercept_ := intercept |}))
      else lift (Raise ValueError)
  | _ => lift (Raise AttributeError)
  end.

(** [X @ coef_ + intercept_] on one sample *)
Definition predict_sample (st : regression) (x : list (nat * Q)) : Q :=
  fold_right (fun '(i, v) acc => (v * nth i (coef_ st) 0 + acc)%Q)
    (intercept_ st) x.

(** [lr.predict(X)]: reads the parameters; [lr] is not updated. *)
Definition predict (lr : nat) (X : matrix) : M (list Q) :=
  o ← get_object lr;
  match o with
  | LinearRegression (Some st) =>
      A ← lift (check_array X);
      if decide (snd (shape X) = length (coef_ st))
      then ret (map (predict_sample st) A)
      else lift (Raise ValueError)
  | _ => lift (Raise AttributeError)
  end.

(** [mean_squared_error(y_true, y_pred, squared=False)] *)
Definition mean_squared_error (y_true : list value) (y_pred : list Q)
  : result Q :=
  t ← check_target y_true;
  match y_pred with
  | [] => Raise ValueError
  | _ => if decide (length t = length y_pred) then Ok (rmse t y_pred)
         else Raise ValueError
  end.

End Numerics.

End Sklearn.

Import Sklearn.

(** ** The flow *)

Section Flow.

(** What the flow takes from its environment: the calendar date of the run,
    the dataset files that can be read, what writing an artifact file ends
    in, what the result of a run that was not started ends in, and the given
    numeric routines. *)
Variable today : date.
Variable parquet : string -> option frame.
Variable storage : string -> result unit.
Variable not_ready : exn.
Variable int_of_str : string -> result Z.
Variable int_of_wide : Q -> result Z.
Variable lstsq : nat -> list (list (nat * Q)) -> list Q -> list Q * Q.
Variable rmse : list Q -> list Q -> Q.

(** [pd.read_parquet(path)]: a fresh table, or an error if the file cannot
    be read. *)
Definition read_data (path : string) : M nat :=
  emit (ReadParquet path);;
  match parquet path with
  | Some df => new (DataFrame df)
  | None => lift (Raise FileNotFoundError)
  end.

Definition prepare_features (df : nat) (categorical : list string)
  (train : bool) : M nat :=
  (* df["duration"] = df.dropOff_datetime - df.pickup_datetime *)
  f ← get_frame df;
  f ← lift (derive_duration f);
  put df (DataFrame f);;
  (* df["duration"] = df.duration.dt.total_seconds() / 60 *)
  f ← get_frame df;
  f ← lift (to_minutes f);
  put df (DataFrame f);;
  (* df = df[(df.duration >= 1) & (df.duration <= 60)].copy() *)
  f ← get_frame df;
  f ← lift (duration_filter f);
  df ← new (DataFrame f);
  (* mean_duration = df.duration.mean() *)
  f ← get_frame df;
  mean_duration ← lift (mean_duration f);
  (if train
   then emit (Log (MeanDurationTraining mean_duration))
   else emit (Log (MeanDurationValidation mean_duration)));;
  (* df[categorical] = df[categorical].fillna(-1).astype("int").astype("str") *)
  f ← get_frame df;
  f ← lift (encode_categorical int_of_str int_of_wide f categorical);
  put df (DataFrame f);;
  mret df.

Definition train_model (df : nat) (categorical : list string)
  : M (nat * nat) :=
  f ← get_frame df;
  train_dicts ← lift (to_dict_records f categorical);
  dv ← new (DictVectorizer None);
  X_train ← fit_transform dv train_dicts;
  f ← get_frame df;
  y_train ← lift (get_column AttributeError f "duration");
  emit (Log (ShapeXTrain (shape X_train)));;
  o ← get_object dv;
  match o with
  | DictVectorizer (Some st) =>
      emit (Log (FeatureCount (length (feature_names_ st))))
  | _ => lift (Raise AttributeError)
  end;;
  lr ← new (LinearRegression None);
  fit lstsq lr X_train y_train;;
  y_pred ← predict lr X_train;
  mse ← lift (mean_squared_error rmse y_train y_pred);
  emit (Log (MseTraining mse));;
  mret (lr, dv).

Definition run_model (df : nat) (categorical : list string) (dv lr : nat)
  : M unit :=
  f ← get_frame df;
  val_dicts ← lift (to_dict_records f categorical);
  X_val ← transform dv val_dicts;
  y_pred ← predict lr X_val;
  f ← get_frame df;
  y_val ← lift (get_column AttributeError f "duration");
  mse ← lift (mean_squared_error rmse y_val y_pred);
  emit (Log (MseValidation mse));;
  mret tt.

(** [joblib.dump(obj, file)]: the object as it is now goes to the file,
    unless the file cannot be written; then the call raises and there is no
    artifact. *)
Definition dump (obj : nat) (file : string) : M unit :=
  o ← get_object obj;
  lift (storage file);;
  emit (Dump o file).

(** The flow.  Of its task calls only [get_paths] and [train_model] are
    asked for their result (lines 92 and 103); [dump] is no task.  The flow
    returns nothing, so its run ends as its task runs did. *)
Definition main (date : option string) : M unit :=
  let date := match date with
              | None => strftime today
              | Some d => d
              end in
  paths ← submit (lift (get_paths date));
  '(train_path, val_path) ← get_result not_ready paths;
  let categorical := ["PUlocationID"; "DOlocationID"] in
  df_train ← submit (read_data train_path);
  df_train_processed ←
    submit_after df_train (fun df => prepare_features df categorical true);
  df_val ← submit (read_data val_path);
  df_val_processed ←
    submit_after df_val (fun df => prepare_features df categorical false);
  (* train the model *)
  trained ←
    submit_after df_train_processed (fun df => train_model df categorical);
  '(lr, dv) ← get_result not_ready trained;
  dump lr ("model-" +:+ date +:+ ".bin");;
  dump dv ("dv-" +:+ date +:+ ".b");;
  evaluated ←
    submit_after df_val_processed
      (fun df => run_model df categorical dv lr);
  terminal [failure not_ready paths; failure not_ready df_train;
            failure not_ready df_train_processed; failure not_ready df_val;
            failure not_ready df_val_processed; failure not_ready trained;
            failure not_ready evaluated].

End Flow.

(** ** The vocabulary of the properties *)

(** The duration, in minutes, the preparer derives for one row. *)
Definition row_minutes (r : gmap string value) : result value :=
  d ← sub_value (cell r "dropOff_datetime") (cell r "pickup_datetime");
  total_minutes d.

(** The row with its derived duration. *)
Definition with_minutes (r : gmap string value) : gmap string value :=
  match row_minutes r with
  | Ok m => <["duration" := m]> r
  | Raise _ => r
  end.

(** [1 <= duration <= 60] on a cell *)
Definition in_window (v : value) : bool :=
  match v with
  | Float q => Qle_bool 1 q && Qle_bool q 60
  | Int z => (1 <=? z) && (z <=? 60)
  | _ => false
  end.

(** The input rows whose derived duration lies in the window, in order. *)
Definition retained (df : frame) : list (gmap string value) :=
  List.filter (fun r => in_window (cell (with_minutes r) "duration"))
    (rows df).

(** [r'] is [r] with the cells under the labels [cs] filled, cast to
    integers and written as strings, and every other cell as in [r]. *)
Definition encoded (int_of_str : string -> result Z)
  (int_of_wide : Q -> result Z) (cs : list string)
  (r r' : gmap string value) : Prop :=
  (forall c, c ∉ cs -> r' !! c = r !! c) /\
  (forall c, c ∈ cs ->
     exists z, astype_int int_of_str int_of_wide (fillna (cell r c)) = Ok z
               /\ r' !! c = Some (Str (str_int z))).

(** [df'] is [df] up to the column [c]: the same rows in the same order with
    the same cells under every other label, and the same other labels. *)
Definition unchanged_but (c : string) (df df' : frame) : Prop :=
  (forall c', c' ≠ c -> c' ∈ columns df' <-> c' ∈ columns df) /\
  Forall2 (fun r r' => forall c', c' ≠ c -> r' !! c' = r !! c')
    (rows df) (rows df').

(** The validation-phase form of an event: the mean-duration line of the
    training phase becomes that of the validation phase. *)
Definition as_validation (ev : event) : event :=
  match ev with
  | Log (MeanDurationTraining m) => Log (MeanDurationValidation m)
  | _ => ev
  end.

(** The stages of the driver, as they show in the events of a run. *)
Inductive stage : Type :=
| LoadData (path : string)
| PrepareTrain
| PrepareValidation
| Train
| Persist (file : string)
| Evaluate.

Definition stage_of (ev : event) : stage :=
  match ev with
  | ReadParquet path => LoadData path
  | Log (MeanDurationTraining _) => PrepareTrain
  | Log (MeanDurationValidation _) => PrepareValidation
  | Log (ShapeXTrain _) | Log (FeatureCount _) | Log (MseTraining _) => Train
  | Dump _ file => Persist file
  | Log (MseValidation _) => Evaluate
  end.

(** The stages of a complete run on the reference date string [date], whose
    datasets are [train_path] and [val_path]; training shows as its three
    log lines. *)
Definition run_stages (train_path val_path date : string) : list stage :=
  [LoadData train_path; PrepareTrain; LoadData val_path; PrepareValidation;
   Train; Train; Train;
   Persist ("model-" +:+ date +:+ ".bin"); Persist ("dv-" +:+ date +:+ ".b");
   Evaluate].

Definition phase (train : bool) : stage :=
  if train then PrepareTrain else PrepareValidation.

(** [post m w Q]: running [m] from [w] ends in an outcome and a world that
    satisfy [Q]. *)
Definition post {A : Type} (m : M A) (w : world)
  (Q : result A -> world -> Prop) : Prop :=
  Q (fst (m w)) (snd (m w)).

(** [w'] has the events of [w] and every object of [w]. *)
Definition keeps (w w' : world) : Prop :=
  trace w' = trace w /\
  forall l, is_Some (heap w !! l) -> is_Some (heap w' !! l).

(** ** More vocabulary *)

(** A month or a day written as Python's [str] writes it: without a leading
    zero. *)
Definition short_digits (n : Z) : string :=
  if n <? 10 then String (digit_char n) EmptyString else two_digits n.

(** The ways [strptime] lets the month and the day of a date be written:
    with two digits, without the leading zero, and a day below ten also as a
    space and its digit. *)
Definition month_spellings (m : Z) : list string :=
  [two_digits m; short_digits m].

Definition day_spellings (d : Z) : list string :=
  two_digits d :: short_digits d
  :: (if d <? 10 then [" " +:+ short_digits d] else []).

(** [D] writes the date [y]-[m]-[d]: the four digits of the year, the month
    and the day in one of their spellings, and a dash before each of the
    two. *)
Definition spells (y m d : Z) (D : string) : Prop :=
  exists sm sd,
    sm ∈ month_spellings m /\ sd ∈ day_spellings d /\
    D = four_digits y +:+ "-" +:+ sm +:+ "-" +:+ sd.

(** [D] writes a calendar date. *)
Definition date_string (D : string) : Prop :=
  exists y m d, valid_date y m d = true /\ spells y m d D.

(** The integer [z] is the number [q] without its fractional part: of the
    integers next to [q], the one on the side of zero. *)
Definition toward_zero (q : Q) (z : Z) : Prop :=
  ((0 <= q)%Q -> (inject_Z z <= q)%Q /\ (q < inject_Z z + 1)%Q) /\
  ((q <= 0)%Q -> (inject_Z z - 1 < q)%Q /\ (q <= inject_Z z)%Q).

(** A cell of a timestamp column: a timestamp or missing. *)
Definition is_time (v : value) : bool :=
  match v with
  | NA | Timestamp _ => true
  | _ => false
  end.

(** A cell of a location-id column: missing, an integer, or a float whose
    integer part fits 64 bits. *)
Definition is_code (v : value) : bool :=
  match v with
  | NA | Int _ => true
  | Float q => in_int64 (truncate q)
  | _ => false
  end.

(** The two timestamps of the row are timestamps or missing, and when both
    are there the nanoseconds from pickup to drop-off fit 64 bits. *)
Definition elapses (r : gmap string value) : bool :=
  match cell r "dropOff_datetime", cell r "pickup_datetime" with
  | Timestamp a, Timestamp b => (i8min <=? a - b) && (a - b <=? i8max)
  | Timestamp _, NA | NA, Timestamp _ | NA, NA => true
  | _, _ => false
  end.

(** The table has the schema the flow expects: the two timestamp columns and
    the categorical columns [cs] are there, and their cells are timestamps
    and location ids. *)
Definition conforms (cs : list string) (df : frame) : Prop :=
  "dropOff_datetime" ∈ columns df /\
  "pickup_datetime" ∈ columns df /\
  (forall c, c ∈ cs -> c ∈ columns df) /\
  Forall (fun r =>
            elapses r = true /\
            forall c, c ∈ cs -> is_code (cell r c) = true)
    (rows df).

(** The window of the outlier filter on the raw timestamps, in nanoseconds:
    drop-off at least one minute and at most sixty minutes after pickup. *)
Definition within_ns (r : gmap string value) : bool :=
  match cell r "dropOff_datetime", cell r "pickup_datetime" with
  | Timestamp a, Timestamp b =>
      (60000000000 <=? a - b) && (a - b <=? 3600000000000)
  | _, _ => false
  end.

(** The mean of a list of numbers, [None] (NaN) for the empty list. *)
Definition average (qs : list Q) : option Q :=
  match qs with
  | [] => None
  | _ => Some (fold_right Qplus 0%Q qs / inject_Z (Z.of_nat (length qs)))%Q
  end.

(** The dicts the trainer and the evaluator read off a table, as features. *)
Definition table_features (df : frame) (cs : list string)
  : result (list (list (string * option Q))) :=
  X ← to_dict_records df cs; traverse features_of X.

(** [w'] still has every object of [w], as it was. *)
Definition preserves (w w' : world) : Prop :=
  forall l o, heap w !! l = Some o -> heap w' !! l = Some o.

(** The stages a failed run shows: the two loads, and of the stages that
    follow what the run reached: [pt] and [pv] of the two mean-duration
    lines, [tr] of the three training lines, [ps] of the two artifacts. *)
Definition stages_shown (train_path val_path date : string)
  (pt pv tr ps : nat) : list stage :=
  [LoadData train_path] ++ take pt [PrepareTrain]
  ++ [LoadData val_path] ++ take pv [PrepareValidation]
  ++ take tr [Train; Train; Train]
  ++ take ps [Persist ("model-" +:+ date +:+ ".bin");
              Persist ("dv-" +:+ date +:+ ".b")].

(** ** A small world to run the flow in *)

Module Sample.

Definition minute : Z := 60000000000.

Definition trip (pickup dropoff : Z) (pu do : value) : gmap string value :=
  {[ "pickup_datetime" := Timestamp pickup;
     "dropOff_datetime" := Timestamp dropoff;
     "PUlocationID" := pu;
     "DOlocationID" := do ]}.

Definition trip_columns : list string :=
  ["pickup_datetime"; "dropOff_datetime"; "PUlocationID"; "DOlocationID"].

Definition location_ids : list string := ["PUlocationID"; "DOlocationID"].

(** trips of 10 minutes, 90 minutes, just under one minute and 60 minutes *)
Definition june : frame :=
  {| columns := trip_columns;
     rows := [ trip 0 (10 * minute) (Float 7) NA;
               trip 0 (90 * minute) (Float 7) (Float 3);
               trip 0 (minute - 1) (Float 8) (Float 3);
               trip 0 (60 * minute) (Float (79 # 10)) (Float 3) ] |}.

(** one trip of one minute *)
Definition july : frame :=
  {| columns := trip_columns;
     rows := [ trip 0 minute (Float 7) (Float 5) ] |}.

(** one trip of 90 minutes: nothing is left after the outlier filter *)
Definition july_outliers : frame :=
  {| columns := trip_columns;
     rows := [ trip 0 (90 * minute) (Float 7) (Float 5) ] |}.

Definition june_path : string := "./data/fhv_tripdata_2021-06.parquet".
Definition july_path : string := "./data/fhv_tripdata_2021-07.parquet".

Definition files (p : string) : option frame :=
  if decide (p = june_path) then Some june
  else if decide (p = july_path) then Some july
  else None.

Definition files_outliers (p : string) : option frame :=
  if decide (p = june_path) then Some june
  else if decide (p = july_path) then Some july_outliers
  else None.

Definition no_files (p : string) : option frame := None.

Definition clock : date := mk_date 2021 8 15.

(** every artifact file can be written *)
Definition disk (file : string) : result unit := Ok tt.

(** the vectorizer's file cannot be written *)
Definition disk_without_dv (file : string) : result unit :=
  if decide (file = "dv-2021-08-15.b") then Raise FileNotFoundError
  else Ok tt.

(** what the result of a run that was not started ends in *)
Definition unstarted : exn := TypeError.

Definition no_int (s : string) : result Z := Raise ValueError.
Definition no_wide (q : Q) : result Z := Raise ValueError.

Definition zero_fit (n : nat) (A : list (list (nat * Q))) (b : list Q)
  : list Q * Q :=
  (repeat 0%Q n, 0%Q).

Definition zero_rmse (a b : list Q) : Q := 0%Q.

Definition empty_world : world := {| heap := ∅; trace := [] |}.

(** the world once the June table is loaded, at reference 0 *)
Definition loaded : world :=
  {| heap := {[ 0%nat := DataFrame june ]}; trace := [] |}.

(** the feature preparer on the loaded June table *)
Definition prepared : result nat * world :=
  prepare_features no_int no_wide 0 location_ids true loaded.

(** a whole run for the reference date 2021-08-15 *)
Definition full_run : result unit * world :=
  main clock files disk unstarted no_int no_wide zero_fit zero_rmse
    (Some "2021-08-15") empty_world.

(** the same run when no validation trip survives the outlier filter *)
Definition run_without_validation_rows : result unit * world :=
  main clock files_outliers disk unstarted no_int no_wide zero_fit
    zero_rmse (Some "2021-08-15") empty_world.

(** the same run when the vectorizer's file cannot be written *)
Definition run_without_dv_file : result unit * world :=
  main clock files disk_without_dv unstarted no_int no_wide zero_fit
    zero_rmse (Some "2021-08-15") empty_world.

(** the June dataset alone *)
Definition files_without_july (p : string) : option frame :=
  if decide (p = june_path) then Some june else None.

(** the same run when the validation dataset is not there *)
Definition run_without_validation_file : result unit * world :=
  main clock files_without_july disk unstarted no_int no_wide zero_fit
    zero_rmse (Some "2021-08-15") empty_world.

(** a run for a date written with one-digit month and day, no file there *)
Definition run_short_date : result unit * world :=
  main clock no_files disk unstarted no_int no_wide zero_fit zero_rmse
    (Some "2022-1-5") empty_world.

(** a table with the drop-off column only *)
Definition no_pickup : frame :=
  {| columns := ["dropOff_datetime"]; rows := [] |}.

(** the timestamps of a ten-minute trip, and no location id *)
Definition timed : frame :=
  {| columns := ["pickup_datetime"; "dropOff_datetime"];
     rows := [ {[ "pickup_datetime" := Timestamp 0;
                  "dropOff_datetime" := Timestamp (10 * minute) ]} ] |}.

(** durations of 5 and of 90 minutes, and the first of them *)
Definition durations : frame :=
  {| columns := ["duration"];
     rows := [ {[ "duration" := Float 5 ]}; {[ "duration" := Float 90 ]} ] |}.

Definition short_durations : frame :=
  {| columns := ["duration"]; rows := [ {[ "duration" := Float 5 ]} ] |}.

(** a trip that ends more than 2^63 nanoseconds after it began *)
Definition far_apart : frame :=
  {| columns := trip_columns;
     rows := [ trip (- 2 ^ 62 - 1) (2 ^ 62) (Float 7) (Float 3) ] |}.

(** a prepared table without trips *)
Definition no_trips : frame :=
  {| columns := trip_columns ++ ["duration"]; rows := [] |}.

(** the world with the table [f], at reference 0, and nothing else *)
Definition holding (f : frame) : world :=
  {| heap := {[ 0%nat := DataFrame f ]}; trace := [] |}.

(** the table without trips and a vectorizer fitted on one trip *)
Definition fitted_elsewhere : world :=
  {| heap := {[ 0%nat := DataFrame no_trips;
                1%nat := DictVectorizer
                           (Some (learn [[("PUlocationID=7", Some 1%Q)]])) ]};
     trace := [] |}.

(** the June table as the feature preparer leaves it with the caller *)
Definition june_minutes : frame :=
  {| columns := trip_columns ++ ["duration"];
     rows := map with_minutes (rows june) |}.

(** the trainer on the prepared June table *)
Definition trained : result (nat * nat) * world :=
  train_model zero_fit zero_rmse 1 location_ids (snd prepared).

(** the run of the fifteenth of August 2021 when no date is given *)
Definition scheduled_run : result unit * world :=
  main clock files disk unstarted no_int no_wide zero_fit zero_rmse None
    empty_world.

End Sample.

(** * Properties *)

(** ** Reference dates and dataset identifiers *)

(** A property of every integer of a short range, from its instances. *)
Lemma Z_range_ind (P : Z -> Prop) (lo len : Z) :
  Forall P (seqZ lo len) -> forall m, lo <= m < lo + len -> P m.
Proof.
  intros HF m Hm. rewrite Forall_forall in HF. apply HF.
  apply elem_of_seqZ. lia.
Qed.

Ltac by_cases_on lo len :=
  apply (Z_range_ind _ lo len);
  let l := eval vm_compute in (seqZ lo len) in
  change (seqZ lo len) with l;
  repeat (apply Forall_cons; split); try apply Forall_nil; cbv beta.

Lemma code_digit_char (n : Z) : 0 <= n <= 9 -> code (digit_char n) = 48 + n.
Proof.
  intros Hn. unfold code, digit_char.
  rewrite nat_ascii_embedding by lia. lia.
Qed.

Lemma in_range_digit_char (lo hi n : Z) :
  0 <= n <= 9 ->
  in_range lo hi (digit_char n) = (lo <=? 48 + n) && (48 + n <=? hi).
Proof. intros Hn. unfold in_range. now rewrite code_digit_char. Qed.

Lemma digit_value_digit_char (n : Z) :
  0 <= n <= 9 -> digit_value (digit_char n) = n.
Proof. intros Hn. unfold digit_value. rewrite code_digit_char by lia. lia. Qed.

Lemma match_Y_four_digits (y : Z) (rest : string) :
  0 <= y <= 9999 -> match_Y (four_digits y +:+ rest) = Some (y, rest).
Proof.
  intros Hy. unfold four_digits, two_digits.
  cbv beta iota delta [String.append].
  unfold match_Y, is_digit.
  rewrite !in_range_digit_char, !digit_value_digit_char
    by (Z.div_mod_to_equations; lia).
  replace (_ && _ && _ && _) with true.
  2:{ symmetry. rewrite !andb_true_iff, !Z.leb_le.
      Z.div_mod_to_equations. lia. }
  f_equal. f_equal. Z.div_mod_to_equations. lia.
Qed.

Lemma alts_m_two_digits (m : Z) (rest : string) :
  1 <= m < 1 + 12 ->
  exists tl, alts_m (two_digits m +:+ rest) = (m, rest) :: tl.
Proof.
  revert m. by_cases_on 1 12; eexists; vm_compute; reflexivity.
Qed.

Lemma alts_d_two_digits (d : Z) :
  1 <= d < 1 + 31 ->
  exists tl, alts_d (two_digits d) = (d, EmptyString) :: tl.
Proof.
  revert d. by_cases_on 1 31; eexists; vm_compute; reflexivity.
Qed.

Lemma valid_date_bounds (y m d : Z) :
  valid_date y m d = true ->
  1 <= y <= 9999 /\ 1 <= m <= 12 /\ 1 <= d <= days_in_month y m.
Proof.
  unfold valid_date, MINYEAR, MAXYEAR.
  rewrite !andb_true_iff, !Z.leb_le. lia.
Qed.

Lemma days_in_month_bounds (y m : Z) : 28 <= days_in_month y m <= 31.
Proof.
  unfold days_in_month.
  repeat match goal with |- context [if ?b then _ else _] => destruct b end;
    lia.
Qed.

Lemma expect_dash_dash (s : string) : expect_dash ("-" +:+ s) = Some s.
Proof. reflexivity. Qed.

(** Every [YYYY-MM-DD] rendering of a calendar date is parsed back to that
    date. *)
Lemma regex_match_strftime (y m d : Z) :
  valid_date y m d = true ->
  regex_match (strftime (mk_date y m d)) = Some (y, m, d, EmptyString).
Proof.
  intros Hv. apply valid_date_bounds in Hv as (Hy & Hm & Hd).
  pose proof (days_in_month_bounds y m) as Hdim.
  unfold strftime, regex_match. cbn [year month day].
  rewrite match_Y_four_digits by lia.
  rewrite expect_dash_dash.
  destruct (alts_m_two_digits m ("-" +:+ two_digits d)) as [tl ->]; [lia|].
  cbn [first_success]. rewrite expect_dash_dash.
  destruct (alts_d_two_digits d) as [tl' ->]; [lia|]. reflexivity.
Qed.

Lemma strptime_strftime (y m d : Z) :
  valid_date y m d = true ->
  strptime (strftime (mk_date y m d)) = Ok (mk_date y m d).
Proof.
  intros Hv. unfold strptime. rewrite regex_match_strftime by exact Hv.
  unfold make_date. now rewrite Hv.
Qed.

Lemma format_02d_two_digits (m : Z) :
  1 <= m < 1 + 12 -> format_02d m = two_digits m.
Proof. revert m. by_cases_on 1 12; vm_compute; reflexivity. Qed.

(** [relativedelta(months=-k)] lands in the month [k] calendar months
    before, unless that month precedes year 1. *)
Lemma add_months_back (y m d k : Z) :
  valid_date y m d = true ->
  1 <= k <= 2 ->
  1 + k <= 12 * (y - 1) + m ->
  exists dd,
    add_months (mk_date y m d) (- k)
    = Ok (mk_date (fst (months_before k y m)) (snd (months_before k y m)) dd).
Proof.
  intros Hv Hk Hlo. apply valid_date_bounds in Hv as (Hy & Hm & Hd).
  unfold add_months, months_before. cbn [year month day fst snd].
  assert ((12 <? m + - k) = false) as -> by (apply Z.ltb_ge; lia).
  destruct (Z.ltb_spec (m + - k) 1) as [Hlt | Hge].
  - replace ((12 * y + (m - 1) - k) / 12) with (y - 1)
      by (Z.div_mod_to_equations; lia).
    replace ((12 * y + (m - 1) - k) mod 12 + 1) with (m + - k + 12)
      by (Z.div_mod_to_equations; lia).
    eexists. unfold make_date.
    pose proof (days_in_month_bounds (y - 1) (m + - k + 12)).
    replace (valid_date _ _ _) with true; [reflexivity|].
    symmetry. unfold valid_date, MINYEAR, MAXYEAR.
    rewrite !andb_true_iff, !Z.leb_le. lia.
  - replace ((12 * y + (m - 1) - k) / 12) with y
      by (Z.div_mod_to_equations; lia).
    replace ((12 * y + (m - 1) - k) mod 12 + 1) with (m + - k)
      by (Z.div_mod_to_equations; lia).
    eexists. unfold make_date.
    pose proof (days_in_month_bounds y (m + - k)).
    replace (valid_date _ _ _) with true; [reflexivity|].
    symmetry. unfold valid_date, MINYEAR, MAXYEAR.
    rewrite !andb_true_iff, !Z.leb_le. lia.
Qed.

Lemma months_before_month (k y m : Z) :
  1 <= snd (months_before k y m) < 1 + 12.
Proof. unfold months_before. cbn [snd]. Z.div_mod_to_equations. lia. Qed.

(** C2, as the code has it: for every well-formed reference date string
    [YYYY-MM-DD] whose month is March of year 1 or later, [get_paths] returns
    the pair of identifiers
    [./data/fhv_tripdata_<year>-<two-digit-month>.parquet] of the month two
    calendar months before (training) and of the month one calendar month
    before (validation), the year rolling over at January and February. *)
Theorem get_paths_months_before (y m d : Z) :
  valid_date y m d = true ->
  3 <= 12 * (y - 1) + m ->
  get_paths (strftime (mk_date y m d))
  = Ok (dataset_id (months_before 2 y m), dataset_id (months_before 1 y m)).
Proof.
  intros Hv Hlo. unfold get_paths.
  rewrite strptime_strftime by exact Hv. cbn [mbind result_bind Py.bind].
  destruct (add_months_back y m d 2 Hv) as [d2 H2]; [lia | lia |].
  change (- (2)) with (-2) in H2. rewrite H2.
  cbn [mbind result_bind Py.bind].
  destruct (add_months_back y m d 1 Hv) as [d1 H1]; [lia | lia |].
  change (- (1)) with (-1) in H1. rewrite H1.
  cbn [mbind result_bind Py.bind].
  unfold parquet_path, dataset_id. cbn [year month].
  rewrite !format_02d_two_digits by apply months_before_month.
  reflexivity.
Qed.

(** ** Running computations *)

Lemma bind_eq {A B : Type} (m : M A) (k : A -> M B) (w : world) :
  (m ≫= k) w
  = match m w with
    | (Ok a, w1) => k a w1
    | (Raise e, w1) => (Raise e, w1)
    end.
Proof. reflexivity. Qed.

Lemma lift_bind {A B : Type} (r : result A) (k : A -> M B) (w : world) :
  (lift r ≫= k) w
  = match r with
    | Ok a => k a w
    | Raise e => (Raise e, w)
    end.
Proof. rewrite bind_eq. unfold lift. now destruct r. Qed.

Lemma get_frame_bind {B : Type} (l : nat) (k : frame -> M B) (w : world)
  (f : frame) :
  heap w !! l = Some (DataFrame f) -> (get_frame l ≫= k) w = k f w.
Proof. intros H. rewrite bind_eq. unfold get_frame. now rewrite H. Qed.

Lemma put_bind {B : Type} (l : nat) (o : object) (k : unit -> M B)
  (w : world) :
  (put l o ≫= k) w = k tt (store l o w).
Proof. reflexivity. Qed.

Lemma new_bind {B : Type} (o : object) (k : nat -> M B) (w : world) :
  (new o ≫= k) w
  = k (fresh (dom (heap w))) (store (fresh (dom (heap w))) o w).
Proof. reflexivity. Qed.

Lemma emit_bind {B : Type} (ev : event) (k : unit -> M B) (w : world) :
  (emit ev ≫= k) w = k tt (record ev w).
Proof. reflexivity. Qed.

Lemma heap_store_eq (l : nat) (o : object) (w : world) :
  heap (store l o w) !! l = Some o.
Proof. apply lookup_insert_eq. Qed.

Lemma fresh_ne (h : gmap nat object) (l : nat) :
  is_Some (h !! l) -> fresh (dom h) ≠ l.
Proof.
  intros Hl Heq. apply elem_of_dom in Hl. rewrite <- Heq in Hl.
  by apply is_fresh in Hl.
Qed.

Lemma post_bind {A B : Type} (m : M A) (k : A -> M B) (w : world)
  (Q : result B -> world -> Prop) :
  post m w (fun r w1 => match r with
                        | Ok a => post (k a) w1 Q
                        | Raise e => Q (Raise e) w1
                        end) ->
  post (m ≫= k) w Q.
Proof.
  unfold post. rewrite bind_eq. by destruct (m w) as [[a|e] w1].
Qed.

Lemma post_ret {A : Type} (a : A) (w : world)
  (Q : result A -> world -> Prop) :
  Q (Ok a) w -> post (mret a) w Q.
Proof. done. Qed.

Lemma post_lift {A : Type} (r : result A) (w : world)
  (Q : result A -> world -> Prop) :
  Q r w -> post (lift r) w Q.
Proof. done. Qed.

Lemma post_emit (ev : event) (w : world) (Q : result unit -> world -> Prop) :
  Q (Ok tt) (record ev w) -> post (emit ev) w Q.
Proof. done. Qed.

Lemma post_put (l : nat) (o : object) (w : world)
  (Q : result unit -> world -> Prop) :
  Q (Ok tt) (store l o w) -> post (put l o) w Q.
Proof. done. Qed.

Lemma post_new (o : object) (w : world) (Q : result nat -> world -> Prop) :
  Q (Ok (fresh (dom (heap w)))) (store (fresh (dom (heap w))) o w) ->
  post (new o) w Q.
Proof. done. Qed.

Lemma post_get_frame (l : nat) (w : world)
  (Q : result frame -> world -> Prop) :
  match heap w !! l with
  | Some (DataFrame f) => Q (Ok f) w
  | _ => Q (Raise AttributeError) w
  end ->
  post (get_frame l) w Q.
Proof.
  unfold post, get_frame. by destruct (heap w !! l) as [[]|].
Qed.

Lemma post_get_object (l : nat) (w : world)
  (Q : result object -> world -> Prop) :
  match heap w !! l with
  | Some o => Q (Ok o) w
  | None => Q (Raise AttributeError) w
  end ->
  post (get_object l) w Q.
Proof.
  unfold post, get_object. by destruct (heap w !! l).
Qed.

Lemma post_mono {A : Type} (m : M A) (w : world)
  (Q Q' : result A -> world -> Prop) :
  post m w Q -> (forall r w', Q r w' -> Q' r w') -> post m w Q'.
Proof. unfold post. auto. Qed.

(** one step of symbolic execution *)
Ltac wp_step :=
  lazymatch goal with
  | |- post (_ ≫= _) _ _ => apply post_bind
  | |- post (mret _) _ _ => apply post_ret
  | |- post (lift ?r) _ _ =>
      apply post_lift;
      lazymatch r with
      | Raise _ => idtac
      | Ok _ => idtac
      | _ => destruct r eqn:?
      end
  | |- post (emit _) _ _ => apply post_emit
  | |- post (put _ _) _ _ => apply post_put
  | |- post (new _) _ _ => apply post_new
  | |- post (get_frame ?l) ?w _ =>
      apply post_get_frame; destruct (heap w !! l) as [[]|] eqn:?
  | |- post (get_object ?l) ?w _ =>
      apply post_get_object; destruct (heap w !! l) as [[| [] | []]|] eqn:?
  | |- post (if decide ?P then _ else _) _ _ => destruct (decide P)
  | |- post (if ?b then _ else _) _ _ => destruct b eqn:?
  | |- post (match ?x with _ => _ end) _ _ => destruct x eqn:?
  end.

Ltac wp := repeat wp_step.

Lemma keeps_refl (w : world) : keeps w w.
Proof. by split. Qed.

Lemma keeps_store (l : nat) (o : object) (w : world) :
  keeps w (store l o w).
Proof.
  split; [done|]. intros l' Hl'. cbn.
  destruct (decide (l = l')) as [-> | Hne].
  - rewrite lookup_insert_eq. eauto.
  - by rewrite lookup_insert_ne.
Qed.

Ltac trace_facts :=
  repeat (cbn [trace heap record store];
          match goal with
          | H : trace ?w1 = _ |- context [trace ?w1] => rewrite H
          end);
  cbn [trace heap record store].

Ltac count_upto k :=
  first [ exists 0%nat; split; [lia | reflexivity]
        | exists 1%nat; split; [lia | reflexivity]
        | exists 2%nat; split; [lia | reflexivity]
        | exists 3%nat; split; [lia | reflexivity] ].

Ltac halt :=
  trace_facts; eexists;
  split; [ first [ symmetry; apply app_nil_r
                 | rewrite <- ?app_assoc; reflexivity ] | ];
  try count_upto 3.

(** ** Series and tables *)

Lemma result_bind_Ok {A B : Type} (r : result A) (k : A -> result B) (b : B) :
  r ≫= k = Ok b <-> exists a, r = Ok a /\ k a = Ok b.
Proof.
  destruct r as [a|e]; cbn.
  - split; [eauto | intros (? & [= <-] & ?); done].
  - split; [done | intros (? & [=] & _)].
Qed.

Lemma traverse_Ok {A B : Type} (f : A -> result B) (l : list A)
  (l' : list B) :
  traverse f l = Ok l' <-> Forall2 (fun x y => f x = Ok y) l l'.
Proof.
  revert l'. induction l as [|x l IH]; intros l'; cbn.
  - split; [intros [= <-]; constructor | inversion 1; done].
  - split.
    + destruct (f x) as [y|] eqn:Ex; cbn; [|done].
      destruct (traverse f l) as [ys|] eqn:El; cbn; [|done].
      intros [= <-]. constructor; [done | by apply IH].
    + inversion 1 as [|? y ? ys Hy Hys]; subst.
      rewrite Hy. cbn. apply IH in Hys. rewrite Hys. done.
Qed.

Lemma traverse_total {A B : Type} (f : A -> result B) (g : A -> B)
  (l : list A) :
  Forall (fun x => f x = Ok (g x)) l -> traverse f l = Ok (map g l).
Proof.
  intros H. apply traverse_Ok. induction H; cbn; constructor; done.
Qed.

Lemma sub_series_Ok {A : Type} (fa fb : A -> value) (l : list A)
  (ds : list value) :
  sub_series (map fa l) (map fb l) = Ok ds ->
  Forall2 (fun r d => sub_value (fa r) (fb r) = Ok d) l ds.
Proof.
  revert ds. induction l as [|x l IH]; intros ds; cbn.
  - intros [= <-]. constructor.
  - destruct (sub_value (fa x) (fb x)) as [d|] eqn:Ex; cbn; [|done].
    destruct (sub_series (map fa l) (map fb l)) as [ds'|] eqn:El; cbn;
      [|done].
    intros [= <-]. constructor; [done | by apply IH].
Qed.

Lemma Forall2_zip_with_l {A B C : Type} (P : A -> B -> Prop)
  (g : A -> B -> C) (l : list A) (s : list B) :
  Forall2 P l s ->
  Forall2 (fun x z => exists y, P x y /\ z = g x y) l (zip_with g l s).
Proof. induction 1; cbn; constructor; eauto. Qed.

Lemma Forall2_compose {A B C : Type} (P : A -> B -> Prop)
  (Q : B -> C -> Prop) (l1 : list A) (l2 : list B) (l3 : list C) :
  Forall2 P l1 l2 -> Forall2 Q l2 l3 ->
  Forall2 (fun x z => exists y, P x y /\ Q y z) l1 l3.
Proof.
  intros H. revert l3. induction H; intros l3; inversion 1; subst;
    constructor; eauto.
Qed.

Lemma Forall2_map_eq {A B : Type} (g : A -> B) (l : list A) (l' : list B) :
  Forall2 (fun x y => y = g x) l l' -> l' = map g l.
Proof. induction 1; cbn; congruence. Qed.

Lemma Forall2_In_l {A B : Type} (P : A -> B -> Prop) (l : list A)
  (k : list B) :
  Forall2 P l k -> Forall2 (fun x y => In x l /\ P x y) l k.
Proof.
  induction 1 as [|x y l k Hxy Hlk IH]; constructor.
  - split; [by left | done].
  - eapply Forall2_impl; [exact IH|]. cbn. intros ? ? [? ?].
    split; [by right | done].
Qed.

Lemma get_column_Ok (e : exn) (df : frame) (c : string) (s : list value) :
  get_column e df c = Ok s <->
  c ∈ columns df /\ s = map (fun r => cell r c) (rows df).
Proof.
  unfold get_column. case_decide; split.
  - intros [= <-]. done.
  - intros [_ ->]. done.
  - done.
  - intros [? _]. done.
Qed.

Lemma cell_insert_eq (r : gmap string value) (c : string) (v : value) :
  cell (<[c := v]> r) c = v.
Proof. unfold cell. by rewrite lookup_insert_eq. Qed.

Lemma cell_insert_ne (r : gmap string value) (c c' : string) (v : value) :
  c ≠ c' -> cell (<[c := v]> r) c' = cell r c'.
Proof. intros. unfold cell. by rewrite lookup_insert_ne. Qed.

Lemma columns_set_column (df : frame) (c c' : string) (s : list value) :
  c' ∈ columns (set_column df c s) <-> c' ∈ columns df \/ c' = c.
Proof.
  cbn. case_decide as Hc.
  - split; [auto | intros [?| ->]; done].
  - rewrite elem_of_app, list_elem_of_singleton. done.
Qed.

(** line 40 *)
Lemma derive_duration_Ok (f f1 : frame) :
  derive_duration f = Ok f1 ->
  (forall c, c ∈ columns f1 <-> c ∈ columns f \/ c = "duration") /\
  Forall2 (fun r r1 =>
             exists d, sub_value (cell r "dropOff_datetime")
                                 (cell r "pickup_datetime") = Ok d
                       /\ r1 = <["duration" := d]> r)
    (rows f) (rows f1).
Proof.
  unfold derive_duration. intros H.
  apply result_bind_Ok in H as (a & Ha & H).
  apply result_bind_Ok in H as (b & Hb & H).
  apply result_bind_Ok in H as (d & Hd & [= <-]).
  apply get_column_Ok in Ha as [_ ->]. apply get_column_Ok in Hb as [_ ->].
  apply sub_series_Ok in Hd. split.
  - intros c. apply columns_set_column.
  - cbn [rows set_column]. by apply Forall2_zip_with_l.
Qed.

(** line 41 *)
Lemma to_minutes_Ok (f1 f2 : frame) :
  to_minutes f1 = Ok f2 ->
  (forall c, c ∈ columns f2 <-> c ∈ columns f1) /\
  "duration" ∈ columns f2 /\
  Forall2 (fun r1 r2 =>
             exists m, total_minutes (cell r1 "duration") = Ok m
                       /\ r2 = <["duration" := m]> r1)
    (rows f1) (rows f2).
Proof.
  unfold to_minutes. intros H.
  apply result_bind_Ok in H as (d & Hd & H).
  apply result_bind_Ok in H as (m & Hm & [= <-]).
  apply get_column_Ok in Hd as [Hin ->].
  apply traverse_Ok in Hm. rewrite Forall2_fmap_l in Hm.
  split; [|split].
  - intros c. rewrite columns_set_column. split; [intros [?| ->]|]; auto.
  - apply columns_set_column. auto.
  - cbn [rows set_column]. by apply Forall2_zip_with_l.
Qed.

Lemma with_minutes_rows (f f1 f2 : frame) :
  derive_duration f = Ok f1 -> to_minutes f1 = Ok f2 ->
  Forall (fun r => exists m, row_minutes r = Ok m) (rows f) /\
  rows f2 = map with_minutes (rows f).
Proof.
  intros H1 H2. apply derive_duration_Ok in H1 as [_ H1].
  apply to_minutes_Ok in H2 as (_ & _ & H2).
  pose proof (Forall2_compose _ _ _ _ _ H1 H2) as H.
  assert (Forall2 (fun r r2 => (exists m, row_minutes r = Ok m)
                               /\ r2 = with_minutes r) (rows f) (rows f2))
    as H'.
  { eapply Forall2_impl; [exact H|]. cbn.
    intros r r2 (r1 & (d & Hd & ->) & (m & Hm & ->)).
    rewrite cell_insert_eq in Hm.
    assert (row_minutes r = Ok m) as Hr.
    { unfold row_minutes. rewrite Hd. exact Hm. }
    split; [eauto|]. unfold with_minutes. rewrite Hr.
    by rewrite insert_insert_eq. }
  split.
  - eapply Forall2_Forall_l; [exact H'|].
    apply Forall_forall. intros; tauto.
  - apply Forall2_map_eq. eapply Forall2_impl; [exact H'|]. cbn. tauto.
Qed.

Lemma row_minutes_shape (r : gmap string value) (m : value) :
  row_minutes r = Ok m -> m = NA \/ exists q, m = Float q.
Proof.
  unfold row_minutes. intros H. apply result_bind_Ok in H as (d & _ & H).
  destruct d; cbn in H; try discriminate; injection H as <-; eauto.
Qed.

(** A difference that fits 64 bits and is not the one that reads as
    missing is the value of the checked subtraction. *)
Lemma checked_fits (as_value : Z -> value) (d : Z) :
  i8min < d <= i8max -> checked as_value d = Ok (as_value d).
Proof.
  intros Hd. unfold checked.
  assert ((d <? i8min) = false) as -> by (apply Z.ltb_ge; lia).
  assert ((i8max <? d) = false) as -> by (apply Z.ltb_ge; lia).
  assert ((d =? i8min) = false) as -> by (apply Z.eqb_neq; lia).
  done.
Qed.

Lemma checked_Ok (as_value : Z -> value) (d : Z) (v : value) :
  checked as_value d = Ok v ->
  i8min <= d <= i8max /\ v = (if d =? i8min then NA else as_value d).
Proof.
  unfold checked.
  destruct (Z.ltb_spec d i8min), (Z.ltb_spec i8max d); cbn; try done.
  intros Hv. split; [lia|]. destruct (d =? i8min); by injection Hv.
Qed.

Lemma row_minutes_timestamps (r : gmap string value) (a b : Z) :
  r !! "dropOff_datetime" = Some (Timestamp a) ->
  r !! "pickup_datetime" = Some (Timestamp b) ->
  i8min < a - b <= i8max ->
  row_minutes r = Ok (Float (inject_Z (a - b) / 1000000000 / 60)).
Proof.
  intros Ha Hb Hd. unfold row_minutes, cell. rewrite Ha, Hb. cbn.
  by rewrite checked_fits.
Qed.

Lemma cell_with_minutes (r : gmap string value) (m : value) :
  row_minutes r = Ok m -> cell (with_minutes r) "duration" = m.
Proof. intros H. unfold with_minutes. rewrite H. apply cell_insert_eq. Qed.

Lemma boolean_index_map_filter {A B : Type} (g : A -> B) (p : A -> bool)
  (l : list A) :
  boolean_index (map g l) (map p l) = map g (List.filter p l).
Proof.
  induction l as [|x l IH]; cbn; [done|].
  destruct (p x); cbn; by rewrite IH.
Qed.

Lemma and_series_map {A : Type} (p1 p2 : A -> bool) (l : list A) :
  and_series (map p1 l) (map p2 l) = map (fun x => p1 x && p2 x) l.
Proof. unfold and_series. induction l; cbn; congruence. Qed.

Lemma boolean_index_all {A : Type} (l : list A) :
  boolean_index l (map (fun _ => true) l) = l.
Proof. induction l; cbn; congruence. Qed.

(** line 42, on the table lines 40 and 41 leave *)
Lemma duration_filter_with_minutes (f2 : frame)
  (rs : list (gmap string value)) :
  Forall (fun r => exists m, row_minutes r = Ok m) rs ->
  rows f2 = map with_minutes rs ->
  "duration" ∈ columns f2 ->
  duration_filter f2
  = Ok {| columns := columns f2;
          rows := map with_minutes
                    (List.filter
                       (fun r => in_window (cell (with_minutes r) "duration"))
                       rs) |}.
Proof.
  intros Hrs Hrows Hin. unfold duration_filter.
  assert (get_column AttributeError f2 "duration"
          = Ok (map (fun r => cell (with_minutes r) "duration") rs)) as ->.
  { apply get_column_Ok. split; [done|]. rewrite Hrows, map_map. done. }
  cbn [mbind result_bind Py.bind].
  set (ge := fun r : gmap string value =>
               match cell (with_minutes r) "duration" with
               | Float q => Qle_bool 1 q
               | _ => false
               end).
  set (le := fun r : gmap string value =>
               match cell (with_minutes r) "duration" with
               | Float q => Qle_bool q 60
               | _ => false
               end).
  rewrite (traverse_total (fun v => ge_scalar v 1)
             (fun v => match v with
                                      | Float q => Qle_bool 1 q
                                      | _ => false
                                      end)).
  2:{ apply Forall_map. eapply Forall_impl; [exact Hrs|]. cbn.
      intros r [m Hm]. rewrite (cell_with_minutes _ _ Hm).
      apply row_minutes_shape in Hm as [-> | [q ->]]; done. }
  cbn [mbind result_bind Py.bind].
  rewrite (traverse_total (fun v => le_scalar v 60)
             (fun v => match v with
                                      | Float q => Qle_bool q 60
                                      | _ => false
                                      end)).
  2:{ apply Forall_map. eapply Forall_impl; [exact Hrs|]. cbn.
      intros r [m Hm]. rewrite (cell_with_minutes _ _ Hm).
      apply row_minutes_shape in Hm as [-> | [q ->]]; done. }
  cbn [mbind result_bind Py.bind]. unfold select_rows. f_equal. f_equal.
  rewrite Hrows, !map_map, (and_series_map ge le).
  rewrite boolean_index_map_filter. f_equal.
  apply List.filter_ext_in. intros r Hr.
  rewrite Forall_forall in Hrs.
  destruct (Hrs r) as [m Hm]; [by apply list_elem_of_In|].
  unfold ge, le. rewrite (cell_with_minutes _ _ Hm).
  apply row_minutes_shape in Hm as [-> | [q ->]]; done.
Qed.

(** the filter keeps a table whose durations all lie in the window *)
Lemma duration_filter_fixpoint (g : frame) :
  "duration" ∈ columns g ->
  Forall (fun r => exists q, r !! "duration" = Some (Float q)
                             /\ (1 <= q <= 60)%Q) (rows g) ->
  duration_filter g = Ok g.
Proof.
  intros Hin Hrows. unfold duration_filter.
  assert (get_column AttributeError g "duration"
          = Ok (map (fun r => cell r "duration") (rows g))) as ->
    by (by apply get_column_Ok).
  cbn [mbind result_bind Py.bind].
  rewrite (traverse_total (fun v => ge_scalar v 1) (fun _ => true)).
  2:{ apply Forall_map. eapply Forall_impl; [exact Hrows|]. cbn.
      intros r (q & Hq & Hw). unfold cell. rewrite Hq. cbn.
      f_equal. apply Qle_bool_iff. apply Hw. }
  cbn [mbind result_bind Py.bind].
  rewrite (traverse_total (fun v => le_scalar v 60) (fun _ => true)).
  2:{ apply Forall_map. eapply Forall_impl; [exact Hrows|]. cbn.
      intros r (q & Hq & Hw). unfold cell. rewrite Hq. cbn.
      f_equal. apply Qle_bool_iff. apply Hw. }
  cbn [mbind result_bind Py.bind]. rewrite !map_map.
  rewrite (and_series_map (fun _ => true) (fun _ => true)).
  cbn [andb]. unfold select_rows.
  rewrite (boolean_index_all (rows g)). by destruct g.
Qed.

Lemma in_window_Float (q : Q) :
  in_window (Float q) = true <-> (1 <= q <= 60)%Q.
Proof.
  cbn. rewrite andb_true_iff, !Qle_bool_iff. done.
Qed.

Lemma retained_spec (f : frame) (r : gmap string value) :
  Forall (fun r => exists m, row_minutes r = Ok m) (rows f) ->
  In r (retained f) <->
  In r (rows f) /\ exists q, row_minutes r = Ok (Float q) /\ (1 <= q <= 60)%Q.
Proof.
  intros Hms. unfold retained. rewrite List.filter_In.
  split; intros [Hin H]; (split; [done|]).
  - rewrite Forall_forall in Hms.
    destruct (Hms r) as [m Hm]; [by apply list_elem_of_In|].
    rewrite (cell_with_minutes _ _ Hm) in H.
    destruct (row_minutes_shape _ _ Hm) as [-> | [q ->]]; [done|].
    exists q. split; [done | by apply in_window_Float].
  - destruct H as (q & Hq & Hw). rewrite (cell_with_minutes _ _ Hq).
    by apply in_window_Float.
Qed.

Lemma unchanged_but_refl (c : string) (f : frame) : unchanged_but c f f.
Proof.
  split; [done|]. apply Forall_Forall2_diag. by apply Forall_forall.
Qed.

Lemma unchanged_but_derive (f f1 : frame) :
  derive_duration f = Ok f1 -> unchanged_but "duration" f f1.
Proof.
  intros H. apply derive_duration_Ok in H as [Hc Hr]. split.
  - intros c Hne. rewrite Hc. tauto.
  - eapply Forall2_impl; [exact Hr|]. cbn.
    intros r r1 (d & _ & ->) c Hne. by rewrite lookup_insert_ne.
Qed.

Lemma unchanged_but_minutes (f f1 f2 : frame) :
  derive_duration f = Ok f1 -> to_minutes f1 = Ok f2 ->
  unchanged_but "duration" f f2.
Proof.
  intros H1 H2.
  destruct (with_minutes_rows _ _ _ H1 H2) as [Hms Hrows].
  apply derive_duration_Ok in H1 as [Hc1 _].
  apply to_minutes_Ok in H2 as (Hc2 & _ & _). split.
  - intros c Hne. rewrite Hc2, Hc1. tauto.
  - rewrite Hrows. apply Forall2_fmap_r, Forall_Forall2_diag.
    eapply Forall_impl; [exact Hms|]. cbn.
    intros r [m Hm] c Hne. unfold with_minutes. rewrite Hm.
    by rewrite lookup_insert_ne.
Qed.

(** ** The integer cast *)

Lemma truncate_toward_zero (q : Q) : toward_zero q (truncate q).
Proof.
  destruct q as [n d]. unfold toward_zero, truncate.
  unfold Qle, Qlt, Qminus. unfold Qplus, Qopp, inject_Z. cbn [Qnum Qden].
  pose proof (Z.quot_rem' n (Z.pos d)) as Hqr.
  assert (0 < Z.pos d) as Hd by lia.
  revert Hqr Hd. generalize (Z.quot n (Z.pos d)) as x.
  generalize (Z.pos d) as D. intros D x Hqr Hd.
  split; intros Hn.
  - pose proof (Z.rem_bound_pos n D) as Hr. nia.
  - pose proof (Z.rem_bound_pos_neg n D) as Hr. nia.
Qed.

Lemma truncate_in_int64 (q : Q) :
  (inject_Z (- 2 ^ 63) <= q)%Q -> (q < inject_Z (2 ^ 63))%Q ->
  in_int64 (truncate q) = true.
Proof.
  intros Hlo Hhi. destruct (truncate_toward_zero q) as [Hpos Hneg].
  unfold in_int64. apply andb_true_iff. rewrite Z.leb_le, Z.ltb_lt.
  revert Hlo Hhi Hpos Hneg. generalize (truncate q) as z.
  destruct q as [n d]. intros z.
  unfold Qle, Qlt, Qminus. unfold Qplus, Qopp, inject_Z. cbn [Qnum Qden].
  intros Hlo Hhi Hpos Hneg.
  destruct (Z.le_ge_cases 0 n) as [Hn | Hn].
  - destruct Hpos as [H1 H2]; [lia|]. nia.
  - destruct Hneg as [H1 H2]; [lia|]. nia.
Qed.

Lemma toward_zero_whole (n z : Z) : toward_zero (inject_Z n) z -> z = n.
Proof.
  unfold toward_zero, Qle, Qlt, Qminus. unfold Qplus, Qopp, inject_Z.
  cbn [Qnum Qden]. intros [Hpos Hneg].
  destruct (Z.le_ge_cases 0 n) as [Hn | Hn].
  - destruct Hpos as [H1 H2]; lia.
  - destruct Hneg as [H1 H2]; lia.
Qed.

(** ** The feature preparer *)

Section FeaturePreparer.

Variable int_of_str : string -> result Z.
Variable int_of_wide : Q -> result Z.

Lemma encode_cell_Ok (v y : value) :
  encode_cell int_of_str int_of_wide v = Ok y <->
  exists z, astype_int int_of_str int_of_wide (fillna v) = Ok z
            /\ y = Str (str_int z).
Proof.
  unfold encode_cell. rewrite result_bind_Ok.
  split; intros (z & Hz & H); exists z; split; congruence.
Qed.

Lemma columns_assign_columns (cs : list string) (enc : list (list value))
  (g : frame) (c : string) :
  c ∈ columns g -> c ∈ columns (assign_columns g cs enc).
Proof.
  revert enc g. induction cs as [|c0 cs IH]; intros [|e enc] g Hc; cbn;
    try done.
  apply IH. apply columns_set_column. auto.
Qed.

Lemma assign_columns_rows (rows0 : list (gmap string value))
  (cs : list string) :
  forall (enc : list (list value)) (g : frame) (done : list string),
    Forall2 (fun c e =>
               Forall2 (fun r y =>
                          encode_cell int_of_str int_of_wide (cell r c) = Ok y)
                 rows0 e)
      cs enc ->
    Forall2 (encoded int_of_str int_of_wide done) rows0 (rows g) ->
    Forall2 (encoded int_of_str int_of_wide (cs ++ done)) rows0
      (rows (assign_columns g cs enc)).
Proof.
  induction cs as [|c cs IH]; intros enc g done Henc Hg.
  - inversion Henc; subst. exact Hg.
  - inversion Henc as [|? e ? enc' He Henc']; subst. cbn [assign_columns].
    eapply Forall2_impl.
    + apply (IH enc' (set_column g c e) (c :: done) Henc').
      cbn [rows set_column].
      clear -He Hg. revert e He.
      induction Hg as [|r0 r rows0 rs Hr Hrs IHg]; intros e He;
        inversion He as [|? y ? e' Hy He']; subst; cbn; constructor.
      * destruct Hr as [Hout Hin]. split.
        -- intros c' Hc'. rewrite not_elem_of_cons in Hc'.
           destruct Hc' as [Hne Hc']. rewrite lookup_insert_ne by done.
           by apply Hout.
        -- intros c' Hc'. destruct (decide (c' = c)) as [-> | Hne].
           ++ apply encode_cell_Ok in Hy as (z & Hz & ->). exists z.
              by rewrite lookup_insert_eq.
           ++ rewrite lookup_insert_ne by done. apply Hin.
              apply elem_of_cons in Hc' as [? | ?]; done.
      * by apply IHg.
    + cbn. intros r0 r [Hout Hin]. split.
      * intros c' Hc'. apply Hout. intros Hc''. apply Hc'.
        rewrite elem_of_app in Hc''. rewrite elem_of_cons, elem_of_app.
        rewrite elem_of_cons in Hc''. tauto.
      * intros c' Hc'. apply Hin.
        rewrite elem_of_cons, elem_of_app in Hc'. rewrite elem_of_app.
        rewrite elem_of_cons. tauto.
Qed.

(** line 50 *)
Lemma encode_categorical_Ok (f3 f4 : frame) (cs : list string) :
  encode_categorical int_of_str int_of_wide f3 cs = Ok f4 ->
  (forall c, c ∈ columns f3 -> c ∈ columns f4) /\
  Forall2 (encoded int_of_str int_of_wide cs) (rows f3) (rows f4).
Proof.
  unfold encode_categorical, encode_columns. intros H.
  apply result_bind_Ok in H as (enc & H & [= <-]).
  apply result_bind_Ok in H as (sel & Hsel & Henc).
  split; [intros c; apply columns_assign_columns|].
  eapply Forall2_impl.
  - apply (assign_columns_rows (rows f3) cs enc f3 []).
    + apply traverse_Ok in Hsel. apply traverse_Ok in Henc.
      pose proof (Forall2_compose _ _ _ _ _ Hsel Henc) as H.
      eapply Forall2_impl; [exact H|]. cbn.
      intros c e (s & Hs & He). apply get_column_Ok in Hs as [_ ->].
      apply traverse_Ok in He. by rewrite Forall2_fmap_l in He.
    + apply Forall_Forall2_diag. apply Forall_forall. intros r _.
      split; [done | intros c Hc; by apply elem_of_nil in Hc].
  - cbn. intros r r'. by rewrite app_nil_r.
Qed.

(** The feature preparer on a reference that holds a table, as one
    expression: the table passed in is updated in place twice, the filtered
    copy is a new object, and the mean is logged before the categorical
    columns are encoded. *)
Lemma prepare_features_eq (df : nat) (categorical : list string)
  (train : bool) (w : world) (f : frame) :
  heap w !! df = Some (DataFrame f) ->
  prepare_features int_of_str int_of_wide df categorical train w
  = match derive_duration f with
    | Raise e => (Raise e, w)
    | Ok f1 =>
    match to_minutes f1 with
    | Raise e => (Raise e, store df (DataFrame f1) w)
    | Ok f2 =>
    let w2 := store df (DataFrame f2) (store df (DataFrame f1) w) in
    match duration_filter f2 with
    | Raise e => (Raise e, w2)
    | Ok f3 =>
    let l := fresh (dom (heap w2)) in
    let w3 := store l (DataFrame f3) w2 in
    match mean_duration f3 with
    | Raise e => (Raise e, w3)
    | Ok mu =>
    let w4 := record (Log (if train then MeanDurationTraining mu
                           else MeanDurationValidation mu)) w3 in
    match encode_categorical int_of_str int_of_wide f3 categorical with
    | Raise e => (Raise e, w4)
    | Ok f4 => (Ok l, store l (DataFrame f4) w4)
    end end end end end.
Proof.
  intros Hdf. unfold prepare_features.
  rewrite (get_frame_bind _ _ _ _ Hdf), lift_bind.
  destruct (derive_duration f) as [f1|e]; [|reflexivity].
  rewrite put_bind, (get_frame_bind _ _ _ f1) by apply heap_store_eq.
  rewrite lift_bind.
  destruct (to_minutes f1) as [f2|e]; [|reflexivity].
  rewrite put_bind, (get_frame_bind _ _ _ f2) by apply heap_store_eq.
  rewrite lift_bind.
  destruct (duration_filter f2) as [f3|e]; [|reflexivity].
  rewrite new_bind, (get_frame_bind _ _ _ f3) by apply heap_store_eq.
  rewrite lift_bind.
  destruct (mean_duration f3) as [mu|e]; [|reflexivity].
  cbv zeta.
  assert (forall (k : unit -> M nat) w0,
    ((if train then emit (Log (MeanDurationTraining mu))
      else emit (Log (MeanDurationValidation mu))) ≫= k) w0
    = k tt (record (Log (if train then MeanDurationTraining mu
                         else MeanDurationValidation mu)) w0)) as ->
    by (intros; now destruct train).
  rewrite (get_frame_bind _ _ _ f3) by apply heap_store_eq.
  rewrite lift_bind.
  destruct (encode_categorical int_of_str int_of_wide f3 categorical)
    as [f4|e]; reflexivity.
Qed.

(** what a returning call of the feature preparer has done *)
Lemma prepare_features_Ok (df : nat) (categorical : list string)
  (train : bool) (w w' : world) (f : frame) (l : nat) :
  heap w !! df = Some (DataFrame f) ->
  prepare_features int_of_str int_of_wide df categorical train w = (Ok l, w') ->
  exists f2 f4 mu,
    Forall (fun r => exists m, row_minutes r = Ok m) (rows f) /\
    rows f2 = map with_minutes (rows f) /\
    (forall c, c ∈ columns f2 <-> c ∈ columns f \/ c = "duration") /\
    Forall2 (encoded int_of_str int_of_wide categorical)
      (map with_minutes (retained f)) (rows f4) /\
    "duration" ∈ columns f4 /\
    l ≠ df /\
    heap w' = <[l := DataFrame f4]> (<[df := DataFrame f2]> (heap w)) /\
    trace w' = trace w ++ [Log (if train then MeanDurationTraining mu
                                else MeanDurationValidation mu)].
Proof.
  intros Hdf H. rewrite (prepare_features_eq _ _ _ _ _ Hdf) in H.
  destruct (derive_duration f) as [f1|] eqn:H1; [|done].
  destruct (to_minutes f1) as [f2|] eqn:H2; [|done].
  destruct (with_minutes_rows _ _ _ H1 H2) as [Hms Hrows].
  pose proof (to_minutes_Ok _ _ H2) as (Hc2 & Hdur & _).
  pose proof (derive_duration_Ok _ _ H1) as (Hc1 & _).
  cbv zeta in H.
  rewrite (duration_filter_with_minutes f2 (rows f) Hms Hrows Hdur) in H.
  destruct (mean_duration _) as [mu|]; [|done].
  destruct (encode_categorical _ _ _ _) as [f4|] eqn:H4; [|done].
  injection H as <- <-.
  apply encode_categorical_Ok in H4 as [Hc4 Hr4]. cbn [rows columns] in *.
  exists f2, f4, mu. split_and!; try done.
  - intros c. rewrite Hc2. apply Hc1.
  - by apply Hc4.
  - apply fresh_ne. cbn [heap store]. rewrite lookup_insert_eq. eauto.
  - cbn [heap store record]. by rewrite !insert_insert_eq.
Qed.

(** the rows a returning call hands back, against the retained input rows *)
Lemma prepare_features_rows (df : nat) (categorical : list string)
  (train : bool) (w w' : world) (f : frame) (l : nat) :
  heap w !! df = Some (DataFrame f) ->
  prepare_features int_of_str int_of_wide df categorical train w = (Ok l, w') ->
  exists out,
    heap w' !! l = Some (DataFrame out) /\
    "duration" ∈ columns out /\
    Forall2 (fun r r' =>
               exists q, row_minutes r = Ok (Float q) /\ (1 <= q <= 60)%Q /\
                         encoded int_of_str int_of_wide categorical
                           (<["duration" := Float q]> r) r')
      (retained f) (rows out).
Proof.
  intros Hdf H.
  destruct (prepare_features_Ok _ _ _ _ _ _ _ Hdf H)
    as (f2 & f4 & mu & Hms & _ & _ & Henc & Hdur & _ & Hheap & _).
  exists f4. split; [rewrite Hheap; apply lookup_insert_eq|].
  split; [done|].
  rewrite Forall2_fmap_l in Henc. apply Forall2_In_l in Henc.
  eapply Forall2_impl; [exact Henc|]. cbn. intros r r' [Hin Hr].
  apply (retained_spec f r Hms) in Hin as (_ & q & Hq & Hw).
  exists q. split; [done|]. split; [done|].
  unfold with_minutes in Hr. by rewrite Hq in Hr.
Qed.

(** C3: the feature preparer derives the duration of a row as drop-off
    minus pickup, in minutes (the difference as pandas can hold it: within
    64 bits of nanoseconds), and the table it returns holds exactly the
    input rows whose duration [q] satisfies [1 <= q <= 60], in their order:
    each returned row is such a row with its duration (its cells outside the
    categorical columns unchanged), and an input row whose duration is
    outside the window, or missing, is not among them. *)
Theorem prepare_features_window (df : nat) (categorical : list string)
  (train : bool) (w w' : world) (f : frame) (l : nat) :
  heap w !! df = Some (DataFrame f) ->
  prepare_features int_of_str int_of_wide df categorical train w = (Ok l, w') ->
  (forall r a b,
     r !! "dropOff_datetime" = Some (Timestamp a) ->
     r !! "pickup_datetime" = Some (Timestamp b) ->
     i8min < a - b <= i8max ->
     row_minutes r
     = Ok (Float (inject_Z (a - b) / 1000000000 / 60))) /\
  (forall r, In r (retained f) <->
             In r (rows f) /\
             exists q, row_minutes r = Ok (Float q) /\ (1 <= q <= 60)%Q) /\
  exists out,
    heap w' !! l = Some (DataFrame out) /\
    Forall2 (fun r r' =>
               exists q, row_minutes r = Ok (Float q) /\ (1 <= q <= 60)%Q /\
                 forall c, c ∉ categorical ->
                           r' !! c = <["duration" := Float q]> r !! c)
      (retained f) (rows out).
Proof.
  intros Hdf H. split; [|split].
  - intros r a b Ha Hb Hd. by apply row_minutes_timestamps.
  - destruct (prepare_features_Ok _ _ _ _ _ _ _ Hdf H)
      as (_ & _ & _ & Hms & _).
    intros r. by apply retained_spec.
  - destruct (prepare_features_rows _ _ _ _ _ _ _ Hdf H)
      as (out & Hout & _ & Hrows).
    exists out. split; [done|].
    eapply Forall2_impl; [exact Hrows|]. cbn.
    intros r r' (q & Hq & Hw & Hout' & _). eauto.
Qed.

(** C4: in the table the feature preparer returns, every cell under a
    categorical label is a string, and a cell that was missing in the input
    row is the string ["-1"]. *)
Theorem prepare_features_categorical_strings (df : nat)
  (categorical : list string) (train : bool) (w w' : world) (f : frame)
  (l : nat) :
  heap w !! df = Some (DataFrame f) ->
  prepare_features int_of_str int_of_wide df categorical train w = (Ok l, w') ->
  exists out,
    heap w' !! l = Some (DataFrame out) /\
    Forall2 (fun r r' =>
               forall c, c ∈ categorical ->
                 (exists s, r' !! c = Some (Str s)) /\
                 (c ≠ "duration" -> cell r c = NA ->
                  r' !! c = Some (Str "-1")))
      (retained f) (rows out).
Proof.
  intros Hdf H.
  destruct (prepare_features_rows _ _ _ _ _ _ _ Hdf H)
    as (out & Hout & _ & Hrows).
  exists out. split; [done|].
  eapply Forall2_impl; [exact Hrows|]. cbn.
  intros r r' (q & _ & _ & _ & Hin) c Hc.
  destruct (Hin c Hc) as (z & Hz & Hr'). split; [eauto|].
  intros Hne Hna. rewrite cell_insert_ne, Hna in Hz by done.
  cbn in Hz. injection Hz as <-. exact Hr'.
Qed.

(** C10: every categorical cell goes through the integer cast before it is
    written as a string: the returned cell is the decimal numeral of an
    integer [z], which is -1 for a missing cell, the integer itself for an
    integer cell and, for a float in the 64-bit range, the float without
    its fractional part: the integer next to it on the side of zero, and
    the number itself when the float is whole ([7.0] gives ["7"], and so
    does [7.9]). *)
Theorem prepare_features_integer_cast (df : nat)
  (categorical : list string) (train : bool) (w w' : world) (f : frame)
  (l : nat) :
  heap w !! df = Some (DataFrame f) ->
  prepare_features int_of_str int_of_wide df categorical train w = (Ok l, w') ->
  exists out,
    heap w' !! l = Some (DataFrame out) /\
    Forall2 (fun r r' =>
               forall c, c ∈ categorical -> c ≠ "duration" ->
                 exists z,
                   r' !! c
                   = Some (Str (NilZero.string_of_int (Z.to_int z))) /\
                   (cell r c = NA -> z = -1) /\
                   (forall n, cell r c = Int n -> z = n) /\
                   (forall q, cell r c = Float q ->
                              (inject_Z (- 2 ^ 63) <= q)%Q ->
                              (q < inject_Z (2 ^ 63))%Q ->
                              toward_zero q z /\
                              forall n, q = inject_Z n -> z = n))
      (retained f) (rows out).
Proof.
  intros Hdf H.
  destruct (prepare_features_rows _ _ _ _ _ _ _ Hdf H)
    as (out & Hout & _ & Hrows).
  exists out. split; [done|].
  eapply Forall2_impl; [exact Hrows|]. cbn.
  intros r r' (q & _ & _ & _ & Hin) c Hc Hne.
  destruct (Hin c Hc) as (z & Hz & Hr').
  rewrite cell_insert_ne in Hz by done.
  exists z. split; [exact Hr'|]. split_and!.
  - intros Hna. rewrite Hna in Hz. by injection Hz.
  - intros n Hn. rewrite Hn in Hz. by injection Hz.
  - intros q' Hq' Hlo Hhi. rewrite Hq' in Hz. cbn in Hz.
    rewrite (truncate_in_int64 q' Hlo Hhi) in Hz. injection Hz as <-.
    split; [apply truncate_toward_zero|].
    intros n ->. apply toward_zero_whole, truncate_toward_zero.
Qed.

(** C6: the outlier filter is idempotent on the feature preparer's output:
    every duration of the returned table lies in the window and the filter
    returns that table unchanged. *)
Theorem duration_filter_idempotent (df : nat) (categorical : list string)
  (train : bool) (w w' : world) (f : frame) (l : nat) :
  heap w !! df = Some (DataFrame f) ->
  "duration" ∉ categorical ->
  prepare_features int_of_str int_of_wide df categorical train w = (Ok l, w') ->
  exists out,
    heap w' !! l = Some (DataFrame out) /\
    Forall (fun r' => exists q, r' !! "duration" = Some (Float q)
                                /\ (1 <= q <= 60)%Q) (rows out) /\
    duration_filter out = Ok out.
Proof.
  intros Hdf Hcat H.
  destruct (prepare_features_rows _ _ _ _ _ _ _ Hdf H)
    as (out & Hout & Hdur & Hrows).
  exists out. split; [done|].
  assert (Forall (fun r' => exists q, r' !! "duration" = Some (Float q)
                                      /\ (1 <= q <= 60)%Q) (rows out)) as Hw.
  { eapply Forall2_Forall_r; [exact Hrows|].
    apply Forall_forall. intros r _ r' (q & _ & Hw & Hother & _).
    exists q. split; [|done].
    rewrite (Hother _ Hcat). apply lookup_insert_eq. }
  split; [done|]. by apply duration_filter_fixpoint.
Qed.

(** C5, as the code has it: the feature preparer writes the derived
    duration into the table passed to it and changes nothing else there:
    afterwards the caller's table has the same rows in the same order with
    the same cells under every label other than [duration], and the same
    labels other than [duration]; when the call returns, the returned table
    is another object and the caller's table carries the duration, in
    minutes, of each row. *)
Theorem prepare_features_input_after (df : nat) (categorical : list string)
  (train : bool) (w : world) (f : frame) :
  heap w !! df = Some (DataFrame f) ->
  exists f',
    heap (snd (prepare_features int_of_str int_of_wide df categorical train w)) !! df
    = Some (DataFrame f') /\
    unchanged_but "duration" f f' /\
    match fst (prepare_features int_of_str int_of_wide df categorical train w) with
    | Ok l =>
        l ≠ df /\ "duration" ∈ columns f' /\
        rows f' = map with_minutes (rows f)
    | Raise _ => True
    end.
Proof.
  intros Hdf. rewrite (prepare_features_eq _ _ _ _ _ Hdf).
  destruct (derive_duration f) as [f1|] eqn:H1.
  2:{ exists f. cbn. split; [done|]. split; [apply unchanged_but_refl|done]. }
  destruct (to_minutes f1) as [f2|] eqn:H2.
  2:{ exists f1. cbn. rewrite lookup_insert_eq.
      split; [done|]. split; [by apply unchanged_but_derive|done]. }
  pose proof (unchanged_but_minutes _ _ _ H1 H2) as Hun.
  destruct (with_minutes_rows _ _ _ H1 H2) as [Hms Hrows].
  pose proof (to_minutes_Ok _ _ H2) as (_ & Hdur & _).
  exists f2. cbv zeta.
  set (h2 := <[df := DataFrame f2]> (<[df := DataFrame f1]> (heap w))).
  assert (h2 !! df = Some (DataFrame f2)) as Hh2
    by apply lookup_insert_eq.
  assert (fresh (dom h2) ≠ df) as Hfresh by (apply fresh_ne; eauto).
  destruct (duration_filter f2) as [f3|]; [|by cbn].
  destruct (mean_duration f3) as [mu|].
  2:{ cbn. fold h2. by rewrite lookup_insert_ne. }
  destruct (encode_categorical _ _ _ _) as [f4|]; cbn; fold h2;
    rewrite !lookup_insert_ne by done; done.
Qed.

(** C9: the [train] flag decides only which mean-duration line is logged:
    with the flag set and with it cleared the call has the same outcome and
    leaves the same objects, so the returned table is the same, and the
    events differ only in the phase of that line. *)
Theorem prepare_features_flag (df : nat) (categorical : list string)
  (w : world) :
  fst (prepare_features int_of_str int_of_wide df categorical true w)
  = fst (prepare_features int_of_str int_of_wide df categorical false w) /\
  heap (snd (prepare_features int_of_str int_of_wide df categorical true w))
  = heap (snd (prepare_features int_of_str int_of_wide df categorical false w)) /\
  exists evs,
    trace (snd (prepare_features int_of_str int_of_wide df categorical true w))
    = trace w ++ evs /\
    trace (snd (prepare_features int_of_str int_of_wide df categorical false w))
    = trace w ++ map as_validation evs.
Proof.
  destruct (heap w !! df) as [o|] eqn:Hdf.
  2:{ unfold prepare_features. rewrite !bind_eq. unfold get_frame.
      rewrite Hdf. cbn. split; [done|]. split; [done|].
      exists []; cbn; by rewrite !app_nil_r. }
  destruct o as [f| |].
  2,3: unfold prepare_features; rewrite !bind_eq; unfold get_frame;
       rewrite Hdf; cbn; (split; [done|]); (split; [done|]);
       exists []; cbn; by rewrite !app_nil_r.
  rewrite !(prepare_features_eq _ _ _ _ _ Hdf).
  destruct (derive_duration f) as [f1|];
    [|cbn; split_and!; try done; exists []; cbn; by rewrite !app_nil_r].
  destruct (to_minutes f1) as [f2|];
    [|cbn; split_and!; try done; exists []; cbn; by rewrite !app_nil_r].
  cbv zeta.
  destruct (duration_filter f2) as [f3|];
    [|cbn; split_and!; try done; exists []; cbn; by rewrite !app_nil_r].
  destruct (mean_duration f3) as [mu|];
    [|cbn; split_and!; try done; exists []; cbn; by rewrite !app_nil_r].
  destruct (encode_categorical _ _ _ _) as [f4|]; cbn;
    (split_and!; try done; by eexists [_]).
Qed.

Lemma prepare_features_post (df : nat) (categorical : list string)
  (train : bool) (w : world) :
  post (prepare_features int_of_str int_of_wide df categorical train) w
    (fun r w' =>
       exists evs, trace w' = trace w ++ evs /\
         match r with
         | Ok _ => map stage_of evs = [phase train]
         | Raise _ => exists n, (n <= 1)%nat /\
                                map stage_of evs = take n [phase train]
         end).
Proof.
  unfold prepare_features.
  wp; cbn;
    try (exists []; split; [by rewrite app_nil_r|];
         exists 0%nat; split; [lia | done]);
    try (eexists [_]; split; [reflexivity|];
         first [reflexivity | exists 1%nat; split; [lia | reflexivity]]).
Qed.

End FeaturePreparer.

(** ** The trainer and the evaluator *)

Section Estimators.

Variable lstsq : nat -> list (list (nat * Q)) -> list Q -> list Q * Q.
Variable rmse : list Q -> list Q -> Q.

(** the evaluator reads: it leaves every object as it was *)
Lemma transform_post (dv : nat) (X : list (list (string * value)))
  (w : world) :
  post (transform dv X) w (fun _ w' => w' = w).
Proof. unfold transform. wp; done. Qed.

Lemma predict_post (lr : nat) (X : matrix) (w : world) :
  post (predict lr X) w (fun _ w' => w' = w).
Proof. unfold predict. wp; done. Qed.

Lemma fit_transform_post (dv : nat) (X : list (list (string * value)))
  (w : world) :
  post (fit_transform dv X) w (fun _ w' => keeps w w').
Proof.
  unfold fit_transform. wp; auto using keeps_refl, keeps_store.
Qed.

Lemma fit_post (lr : nat) (X : matrix) (y : list value) (w : world) :
  post (fit lstsq lr X y) w (fun _ w' => keeps w w').
Proof.
  unfold fit. wp; auto using keeps_refl, keeps_store.
Qed.

Lemma run_model_post (df : nat) (categorical : list string)
  (dv lr : nat) (w : world) :
  post (run_model rmse df categorical dv lr) w
    (fun r w' =>
       heap w' = heap w /\
       match r with
       | Ok u => u = tt /\ exists mse,
                   trace w' = trace w ++ [Log (MseValidation mse)]
       | Raise _ => trace w' = trace w
       end).
Proof.
  unfold run_model.
  wp_step. wp_step; [|done|done|done].
  wp_step. wp_step; [|done].
  wp_step. eapply post_mono; [apply transform_post|]. cbn.
  intros [X|e] w' ->; [|done].
  wp_step. eapply post_mono; [apply predict_post|]. cbn.
  intros [y|e] w' ->; [|done].
  wp; try done. cbn. eauto.
Qed.

(** C7: the evaluator leaves the vectorizer and the model, like every
    object, as they were, and returns nothing: its only effect is the log
    line with the validation error, and on failure not even that. *)
Theorem run_model_observes (df : nat) (categorical : list string)
  (dv lr : nat) (w : world) :
  heap (snd (run_model rmse df categorical dv lr w)) = heap w /\
  match fst (run_model rmse df categorical dv lr w) with
  | Ok u =>
      u = tt /\
      exists mse,
        trace (snd (run_model rmse df categorical dv lr w))
        = trace w ++ [Log (MseValidation mse)]
  | Raise _ => trace (snd (run_model rmse df categorical dv lr w)) = trace w
  end.
Proof. exact (run_model_post df categorical dv lr w). Qed.

Lemma train_model_post (df : nat) (categorical : list string) (w : world) :
  post (train_model lstsq rmse df categorical) w
    (fun r w' =>
       exists evs, trace w' = trace w ++ evs /\
         match r with
         | Ok (lr, dv) =>
             map stage_of evs = [Train; Train; Train] /\
             is_Some (heap w' !! lr) /\ is_Some (heap w' !! dv)
         | Raise _ => exists n, (n <= 2)%nat /\
                                map stage_of evs = take n [Train; Train; Train]
         end).
Proof.
  unfold train_model. wp; try halt.
  set (dv := fresh (dom (heap w))).
  eapply post_mono; [apply fit_transform_post|]. cbn beta.
  intros [X|e] w1 [Ht1 Hk1]; [|halt].
  assert (is_Some (heap w1 !! dv)) as Hdv.
  { apply Hk1. cbn. rewrite lookup_insert_eq. eauto. }
  wp; try halt.
  set (lr := fresh _).
  eapply post_mono; [apply fit_post|]. cbn beta.
  intros [[]|e] w2 [Ht2 Hk2]; [|halt].
  wp. eapply post_mono; [apply predict_post|]. cbn beta.
  intros [y|e] w3 ->; [|halt].
  wp; try halt.
  split; [reflexivity|]. split; apply Hk2; cbn.
  - rewrite lookup_insert_eq. eauto.
  - destruct (decide (lr = dv)) as [-> | Hne].
    + rewrite lookup_insert_eq. eauto.
    + by rewrite lookup_insert_ne.
Qed.

End Estimators.

(** ** The path resolver, outcome by outcome *)

Lemma strptime_Ok_valid (D : string) (dt : date) :
  strptime D = Ok dt -> valid_date (year dt) (month dt) (day dt) = true.
Proof.
  unfold strptime.
  destruct (regex_match D) as [[[[y m] d] rest]|]; [|done].
  destruct rest; [|done]. unfold make_date.
  destruct (valid_date y m d) eqn:Hv; [|done]. by intros [= <-].
Qed.

Lemma strptime_Raise (D : string) (e : exn) :
  strptime D = Raise e -> e = ValueError.
Proof.
  unfold strptime.
  destruct (regex_match D) as [[[[y m] d] rest]|]; [|by intros [= <-]].
  destruct rest; [|by intros [= <-]]. unfold make_date.
  destruct (valid_date y m d); [done | by intros [= <-]].
Qed.

Lemma add_months_before_year_one (y m d k : Z) :
  valid_date y m d = true ->
  1 <= k <= 2 ->
  12 * (y - 1) + m < 1 + k ->
  add_months (mk_date y m d) (- k) = Raise ValueError.
Proof.
  intros Hv Hk Hlo. apply valid_date_bounds in Hv as (Hy & Hm & Hd).
  unfold add_months. cbn [year month day].
  assert ((12 <? m + - k) = false) as -> by (apply Z.ltb_ge; lia).
  assert ((m + - k <? 1) = true) as -> by (apply Z.ltb_lt; lia).
  unfold make_date. replace (valid_date _ _ _) with false; [done|].
  symmetry. unfold valid_date, MINYEAR.
  assert ((1 <=? y - 1) = false) as -> by (apply Z.leb_gt; lia). done.
Qed.

Lemma get_paths_parsed (D : string) (dt : date) :
  strptime D = Ok dt ->
  get_paths D
  = if 3 <=? 12 * (year dt - 1) + month dt
    then Ok (dataset_id (months_before 2 (year dt) (month dt)),
             dataset_id (months_before 1 (year dt) (month dt)))
    else Raise ValueError.
Proof.
  intros HD. pose proof (strptime_Ok_valid _ _ HD) as Hv.
  unfold get_paths. rewrite HD. cbn [mbind result_bind Py.bind].
  destruct dt as [y m d]. cbn [year month day] in *.
  destruct (Z.leb_spec 3 (12 * (y - 1) + m)) as [Hlo | Hlo].
  - destruct (add_months_back y m d 2 Hv) as [d2 H2]; [lia | lia |].
    change (- (2)) with (-2) in H2. rewrite H2.
    cbn [mbind result_bind Py.bind].
    destruct (add_months_back y m d 1 Hv) as [d1 H1]; [lia | lia |].
    change (- (1)) with (-1) in H1. rewrite H1.
    cbn [mbind result_bind Py.bind].
    unfold parquet_path, dataset_id. cbn [year month].
    rewrite !format_02d_two_digits by apply months_before_month.
    reflexivity.
  - pose proof (add_months_before_year_one y m d 2 Hv) as H2.
    change (- (2)) with (-2) in H2. rewrite H2 by lia. done.
Qed.

(** X1: the path resolver has three outcomes, decided by the date that
    [strptime] reads off the string: a string that is no date raises
    [ValueError]; a date before March of year 1 raises [ValueError] as well,
    its training month lying before [MINYEAR]; every other date gives the
    datasets of two months and of one month before it. *)
Theorem get_paths_outcome (D : string) :
  match strptime D with
  | Raise _ => get_paths D = Raise ValueError
  | Ok dt =>
      if 3 <=? 12 * (year dt - 1) + month dt
      then get_paths D
           = Ok (dataset_id (months_before 2 (year dt) (month dt)),
                 dataset_id (months_before 1 (year dt) (month dt)))
      else get_paths D = Raise ValueError
  end.
Proof.
  destruct (strptime D) as [dt|e] eqn:HD.
  - rewrite (get_paths_parsed _ _ HD). by destruct (3 <=? _).
  - pose proof (strptime_Raise _ _ HD) as ->. unfold get_paths.
    by rewrite HD.
Qed.

(** X2: the day of the month does not matter to the path resolver: two
    reference date strings that parse to dates of the same year and month
    get the same outcome, the same pair of paths or the same error. *)
Theorem get_paths_ignores_day (D1 D2 : string) (d1 d2 : date) :
  strptime D1 = Ok d1 -> strptime D2 = Ok d2 ->
  year d1 = year d2 -> month d1 = month d2 ->
  get_paths D1 = get_paths D2.
Proof.
  intros H1 H2 Hy Hm.
  rewrite (get_paths_parsed _ _ H1), (get_paths_parsed _ _ H2).
  by rewrite Hy, Hm.
Qed.

Lemma match_Y_length (s rest : string) (y : Z) :
  match_Y s = Some (y, rest) ->
  String.length s = (4 + String.length rest)%nat.
Proof.
  unfold match_Y.
  destruct s as [|a [|b [|c [|d s]]]]; try done.
  destruct (_ && _); [|done]. by intros [= _ <-].
Qed.

Lemma expect_dash_length (s rest : string) :
  expect_dash s = Some rest -> String.length s = S (String.length rest).
Proof.
  unfold expect_dash. destruct s as [|a s]; [done|].
  destruct (_ =? _); [|done]. by intros [= <-].
Qed.

Lemma two_chars_length (lo1 hi1 lo2 hi2 v : Z) (s rest : string) :
  (v, rest) ∈ two_chars lo1 hi1 lo2 hi2 s ->
  String.length s = (2 + String.length rest)%nat.
Proof.
  unfold two_chars. destruct s as [|a [|b s]]; try (by intros ?%elem_of_nil).
  destruct (_ && _); [|by intros ?%elem_of_nil].
  intros Hin%list_elem_of_singleton. by injection Hin as _ <-.
Qed.

Lemma one_char_length (v : Z) (s rest : string) :
  (v, rest) ∈ one_char s -> String.length s = (1 + String.length rest)%nat.
Proof.
  unfold one_char. destruct s as [|a s]; [by intros ?%elem_of_nil|].
  destruct (in_range _ _ _); [|by intros ?%elem_of_nil].
  intros Hin%list_elem_of_singleton. by injection Hin as _ <-.
Qed.

Lemma space_char_length (v : Z) (s rest : string) :
  (v, rest) ∈ space_char s ->
  String.length s = (2 + String.length rest)%nat.
Proof.
  unfold space_char. destruct s as [|a [|b s]]; try (by intros ?%elem_of_nil).
  destruct (_ && _); [|by intros ?%elem_of_nil].
  intros Hin%list_elem_of_singleton. by injection Hin as _ <-.
Qed.

Lemma alts_m_length (v : Z) (s rest : string) :
  (v, rest) ∈ alts_m s ->
  (1 + String.length rest <= String.length s <= 2 + String.length rest)%nat.
Proof.
  unfold alts_m. rewrite !elem_of_app.
  intros [H | [H | H]];
    [apply two_chars_length in H | apply two_chars_length in H
    | apply one_char_length in H]; lia.
Qed.

Lemma alts_d_length (v : Z) (s rest : string) :
  (v, rest) ∈ alts_d s ->
  (1 + String.length rest <= String.length s <= 2 + String.length rest)%nat.
Proof.
  unfold alts_d. rewrite !elem_of_app.
  intros [H | [H | [H | [H | H]]]];
    [apply two_chars_length in H | apply two_chars_length in H
    | apply two_chars_length in H | apply one_char_length in H
    | apply space_char_length in H]; lia.
Qed.

Lemma first_success_Some {A B : Type} (k : A -> option B) (l : list A)
  (b : B) :
  first_success k l = Some b -> exists x, x ∈ l /\ k x = Some b.
Proof.
  induction l as [|x l IH]; cbn; [done|].
  destruct (k x) as [b'|] eqn:Hx.
  - intros [= <-]. exists x. split; [by left | done].
  - intros H. destruct (IH H) as (x' & Hin & Hk). exists x'.
    split; [by right | done].
Qed.

Lemma regex_match_length (D rest : string) (y m d : Z) :
  regex_match D = Some (y, m, d, rest) ->
  (8 + String.length rest <= String.length D <= 10 + String.length rest)%nat.
Proof.
  unfold regex_match.
  destruct (match_Y D) as [[y' s1]|] eqn:HY; [|done].
  destruct (expect_dash s1) as [s2|] eqn:H1; [|done].
  intros H. apply first_success_Some in H as ([m' s3] & Hm & H).
  destruct (expect_dash s3) as [s4|] eqn:H2; [|done].
  destruct (alts_d s4) as [|[d' s5] tl] eqn:Hd; [done|].
  injection H as _ _ _ <-.
  assert ((d', s5) ∈ alts_d s4) as Hd' by (rewrite Hd; by left).
  apply match_Y_length in HY. apply expect_dash_length in H1, H2.
  apply alts_m_length in Hm. apply alts_d_length in Hd'. lia.
Qed.

(** X3: a string the path resolver accepts has eight to ten characters:
    four year digits, two dashes, and one or two characters each for the
    month and the day. *)
Theorem get_paths_accepts_length (D train_path val_path : string) :
  get_paths D = Ok (train_path, val_path) ->
  (8 <= String.length D <= 10)%nat.
Proof.
  unfold get_paths, strptime.
  destruct (regex_match D) as [[[[y m] d] rest]|] eqn:HD; [|done].
  destruct rest; [|done]. intros _.
  apply regex_match_length in HD. cbn in HD. lia.
Qed.

Lemma alts_m_short_digits (m : Z) (rest : string) :
  1 <= m < 1 + 12 ->
  exists tl,
    alts_m (short_digits m +:+ "-" +:+ rest) = (m, "-" +:+ rest) :: tl.
Proof.
  revert m. by_cases_on 1 12; eexists; vm_compute; reflexivity.
Qed.

Lemma alts_d_short_digits (d : Z) :
  1 <= d < 1 + 31 ->
  exists tl, alts_d (short_digits d) = (d, EmptyString) :: tl.
Proof.
  revert d. by_cases_on 1 31; eexists; vm_compute; reflexivity.
Qed.

(** X4: the month and the day of a reference date may be written without
    their leading zero: each of the four spellings of a valid date parses to
    that date, and the path resolver gives for it what it gives for the
    zero-filled spelling. *)
Theorem strptime_short_fields (y m d : Z) (sm sd : string) :
  valid_date y m d = true ->
  sm = two_digits m \/ sm = short_digits m ->
  sd = two_digits d \/ sd = short_digits d ->
  strptime (four_digits y +:+ "-" +:+ sm +:+ "-" +:+ sd) = Ok (mk_date y m d)
  /\ get_paths (four_digits y +:+ "-" +:+ sm +:+ "-" +:+ sd)
     = get_paths (strftime (mk_date y m d)).
Proof.
  intros Hv Hsm Hsd.
  assert (strptime (four_digits y +:+ "-" +:+ sm +:+ "-" +:+ sd)
          = Ok (mk_date y m d)) as Hparse.
  { pose proof (valid_date_bounds _ _ _ Hv) as (Hy & Hm & Hd).
    pose proof (days_in_month_bounds y m) as Hdim.
    unfold strptime, regex_match.
    rewrite match_Y_four_digits by lia. rewrite expect_dash_dash.
    assert (exists tl, alts_m (sm +:+ "-" +:+ sd) = (m, "-" +:+ sd) :: tl)
      as [tl ->].
    { destruct Hsm as [-> | ->];
        [apply alts_m_two_digits | apply alts_m_short_digits]; lia. }
    cbn [first_success]. rewrite expect_dash_dash.
    assert (exists tl, alts_d sd = (d, EmptyString) :: tl) as [tl' ->].
    { destruct Hsd as [-> | ->];
        [apply alts_d_two_digits | apply alts_d_short_digits]; lia. }
    unfold make_date. by rewrite Hv. }
  split; [exact Hparse|].
  rewrite (get_paths_parsed _ _ Hparse).
  by rewrite (get_paths_parsed _ _ (strptime_strftime y m d Hv)).
Qed.

(** ** The strings [strptime] accepts *)

Lemma digit_char_digit_value (a : ascii) : digit_char (digit_value a) = a.
Proof.
  unfold digit_char, digit_value, code.
  replace (48 + (Z.of_nat (nat_of_ascii a) - 48))
    with (Z.of_nat (nat_of_ascii a)) by lia.
  rewrite Nat2Z.id. apply ascii_nat_embedding.
Qed.

Lemma in_range_digit (lo hi : Z) (a : ascii) :
  in_range lo hi a = true -> lo - 48 <= digit_value a <= hi - 48.
Proof.
  unfold in_range, digit_value.
  intros [? ?]%andb_true_iff. rewrite Z.leb_le in *. lia.
Qed.

Lemma code_inj (a : ascii) (n : nat) :
  code a = Z.of_nat n -> a = ascii_of_nat n.
Proof.
  unfold code. intros H%Nat2Z.inj. rewrite <- H.
  symmetry. apply ascii_nat_embedding.
Qed.

Lemma two_digits_chars (a b : ascii) :
  0 <= digit_value a -> 0 <= digit_value b <= 9 ->
  two_digits (10 * digit_value a + digit_value b)
  = String a (String b EmptyString).
Proof.
  intros Ha Hb. unfold two_digits.
  replace ((10 * digit_value a + digit_value b) / 10) with (digit_value a)
    by (Z.div_mod_to_equations; lia).
  replace ((10 * digit_value a + digit_value b) mod 10) with (digit_value b)
    by (Z.div_mod_to_equations; lia).
  by rewrite !digit_char_digit_value.
Qed.

Lemma short_digits_char (a : ascii) :
  digit_value a <= 9 -> short_digits (digit_value a) = String a EmptyString.
Proof.
  intros Ha. unfold short_digits.
  assert ((digit_value a <? 10) = true) as -> by (apply Z.ltb_lt; lia).
  by rewrite digit_char_digit_value.
Qed.

Lemma short_digits_two (n : Z) : 10 <= n -> short_digits n = two_digits n.
Proof.
  intros Hn. unfold short_digits.
  by assert ((n <? 10) = false) as -> by (apply Z.ltb_ge; lia).
Qed.

Lemma match_Y_inv (s rest : string) (y : Z) :
  match_Y s = Some (y, rest) -> s = four_digits y +:+ rest.
Proof.
  unfold match_Y. destruct s as [|a [|b [|c [|e s]]]]; try done.
  destruct (is_digit a && is_digit b && is_digit c && is_digit e) eqn:Hdig;
    [|done].
  intros [= <- <-]. apply andb_true_iff in Hdig as [Hdig He].
  apply andb_true_iff in Hdig as [Hdig Hc].
  apply andb_true_iff in Hdig as [Ha Hb].
  apply in_range_digit in Ha, Hb, Hc, He.
  unfold four_digits, two_digits. cbv beta iota delta [String.append].
  set (va := digit_value a) in *. set (vb := digit_value b) in *.
  set (vc := digit_value c) in *. set (ve := digit_value e) in *.
  replace ((1000 * va + 100 * vb + 10 * vc + ve) / 1000) with va
    by (Z.div_mod_to_equations; lia).
  replace ((1000 * va + 100 * vb + 10 * vc + ve) / 100 mod 10) with vb
    by (Z.div_mod_to_equations; lia).
  replace ((1000 * va + 100 * vb + 10 * vc + ve) mod 100 / 10) with vc
    by (Z.div_mod_to_equations; lia).
  replace ((1000 * va + 100 * vb + 10 * vc + ve) mod 100 mod 10) with ve
    by (Z.div_mod_to_equations; lia).
  unfold va, vb, vc, ve. by rewrite !digit_char_digit_value.
Qed.

Lemma expect_dash_inv (s rest : string) :
  expect_dash s = Some rest -> s = "-" +:+ rest.
Proof.
  unfold expect_dash. destruct s as [|a s]; [done|].
  destruct (Z.eqb_spec (code a) 45) as [Ha|]; [|done].
  intros [= <-]. by rewrite (code_inj a 45 Ha).
Qed.

Lemma two_chars_inv (lo1 hi1 lo2 hi2 v : Z) (s rest : string) :
  48 <= lo1 -> 48 <= lo2 -> hi2 <= 57 ->
  (v, rest) ∈ two_chars lo1 hi1 lo2 hi2 s ->
  s = two_digits v +:+ rest /\ 10 * (lo1 - 48) <= v.
Proof.
  intros Hlo1 Hlo2 Hhi2. unfold two_chars.
  destruct s as [|a [|b s]]; try (by intros ?%elem_of_nil).
  destruct (in_range lo1 hi1 a && in_range lo2 hi2 b) eqn:Hab;
    [|by intros ?%elem_of_nil].
  apply andb_true_iff in Hab as [Ha Hb]. apply in_range_digit in Ha, Hb.
  intros [= -> ->]%list_elem_of_singleton.
  rewrite two_digits_chars by lia. split; [done | lia].
Qed.

Lemma one_char_inv (v : Z) (s rest : string) :
  (v, rest) ∈ one_char s -> s = short_digits v +:+ rest /\ v < 10.
Proof.
  unfold one_char. destruct s as [|a s]; [by intros ?%elem_of_nil|].
  destruct (in_range 49 57 a) eqn:Ha; [|by intros ?%elem_of_nil].
  apply in_range_digit in Ha.
  intros [= -> ->]%list_elem_of_singleton.
  rewrite short_digits_char by lia. split; [done | lia].
Qed.

Lemma space_char_inv (v : Z) (s rest : string) :
  (v, rest) ∈ space_char s ->
  s = (" " +:+ short_digits v) +:+ rest /\ v < 10.
Proof.
  unfold space_char.
  destruct s as [|a [|b s]]; try (by intros ?%elem_of_nil).
  destruct (Z.eqb_spec (code a) 32) as [Ha|]; [|by intros ?%elem_of_nil].
  destruct (in_range 49 57 b) eqn:Hb; [|by intros ?%elem_of_nil].
  apply in_range_digit in Hb. cbn [andb].
  intros [= -> ->]%list_elem_of_singleton.
  rewrite short_digits_char by lia. rewrite (code_inj a 32 Ha).
  split; [done | lia].
Qed.

Lemma alts_m_inv (m : Z) (s rest : string) :
  (m, rest) ∈ alts_m s ->
  exists sm, sm ∈ month_spellings m /\ s = sm +:+ rest.
Proof.
  unfold alts_m, month_spellings. rewrite !elem_of_app.
  intros [H | [H | H]].
  - apply two_chars_inv in H as [-> _]; [|lia..].
    exists (two_digits m). split; [apply list_elem_of_here | done].
  - apply two_chars_inv in H as [-> _]; [|lia..].
    exists (two_digits m). split; [apply list_elem_of_here | done].
  - apply one_char_inv in H as [-> _].
    exists (short_digits m).
    split; [apply list_elem_of_further, list_elem_of_here | done].
Qed.

Lemma alts_d_inv (d : Z) (s rest : string) :
  (d, rest) ∈ alts_d s ->
  exists sd, sd ∈ day_spellings d /\ s = sd +:+ rest.
Proof.
  unfold alts_d, day_spellings. rewrite !elem_of_app.
  intros [H | [H | [H | [H | H]]]].
  1,2,3: apply two_chars_inv in H as [-> _]; [|lia..];
         exists (two_digits d); split; [apply list_elem_of_here | done].
  - apply one_char_inv in H as [-> _].
    exists (short_digits d).
    split; [apply list_elem_of_further, list_elem_of_here | done].
  - apply space_char_inv in H as [-> Hd].
    exists (" " +:+ short_digits d). split; [|done].
    assert ((d <? 10) = true) as -> by (apply Z.ltb_lt; lia).
    do 2 apply list_elem_of_further. apply list_elem_of_here.
Qed.

Lemma append_empty (s : string) : s +:+ EmptyString = s.
Proof.
  induction s as [|a s IH]; [done|].
  change (String a (s +:+ EmptyString) = String a s). by rewrite IH.
Qed.

(** What [strptime] accepts is a spelling of the date it returns. *)
Lemma strptime_spells (D : string) (dt : date) :
  strptime D = Ok dt -> spells (year dt) (month dt) (day dt) D.
Proof.
  unfold strptime, regex_match.
  destruct (match_Y D) as [[y s1]|] eqn:HY; [|done].
  destruct (expect_dash s1) as [s2|] eqn:H1; [|done].
  destruct (first_success _ (alts_m s2)) as [[[[y' m] d] rest]|] eqn:Hm;
    [|done].
  destruct rest; [|done]. unfold make_date.
  destruct (valid_date y' m d); [|done]. intros [= <-]. cbn [year month day].
  apply first_success_Some in Hm as ([m' s3] & Hin & Hm).
  destruct (expect_dash s3) as [s4|] eqn:H2; [|done].
  destruct (alts_d s4) as [|[d' s5] tl] eqn:Hd; [done|].
  injection Hm as <- <- <- ->.
  assert ((d', EmptyString) ∈ alts_d s4) as Hin'
    by (rewrite Hd; apply list_elem_of_here).
  apply match_Y_inv in HY as ->. apply expect_dash_inv in H1 as ->.
  apply alts_m_inv in Hin as (sm & Hsm & ->).
  apply expect_dash_inv in H2 as ->.
  apply alts_d_inv in Hin' as (sd & Hsd & ->).
  exists sm, sd. by rewrite append_empty.
Qed.

Lemma alts_d_space_digit (d : Z) :
  1 <= d < 1 + 9 ->
  exists tl, alts_d (" " +:+ short_digits d) = (d, EmptyString) :: tl.
Proof.
  revert d. by_cases_on 1 9; eexists; vm_compute; reflexivity.
Qed.

(** Every spelling of a calendar date is parsed to that date. *)
Lemma spells_strptime (y m d : Z) (D : string) :
  valid_date y m d = true -> spells y m d D ->
  strptime D = Ok (mk_date y m d).
Proof.
  intros Hv (sm & sd & Hsm & Hsd & ->).
  pose proof (valid_date_bounds _ _ _ Hv) as (Hy & Hm & Hd).
  pose proof (days_in_month_bounds y m) as Hdim.
  unfold strptime, regex_match.
  rewrite match_Y_four_digits by lia. rewrite expect_dash_dash.
  assert (exists tl, alts_m (sm +:+ "-" +:+ sd) = (m, "-" +:+ sd) :: tl)
    as [tl ->].
  { unfold month_spellings in Hsm.
    rewrite !elem_of_cons, elem_of_nil in Hsm.
    destruct Hsm as [-> | [-> | []]];
      [apply alts_m_two_digits | apply alts_m_short_digits]; lia. }
  cbn [first_success]. rewrite expect_dash_dash.
  assert (exists tl, alts_d sd = (d, EmptyString) :: tl) as [tl' ->].
  { unfold day_spellings in Hsd.
    rewrite !elem_of_cons in Hsd.
    destruct Hsd as [-> | [-> | Hsd]];
      [apply alts_d_two_digits | apply alts_d_short_digits |]; try lia.
    destruct (Z.ltb_spec d 10); [|by apply elem_of_nil in Hsd].
    apply list_elem_of_singleton in Hsd as ->.
    apply alts_d_space_digit. lia. }
  unfold make_date. by rewrite Hv.
Qed.

(** The strings [strptime] accepts are the spellings of calendar dates. *)
Lemma date_string_strptime (D : string) :
  date_string D <-> exists dt, strptime D = Ok dt.
Proof.
  split.
  - intros (y & m & d & Hv & HD). exists (mk_date y m d).
    by apply spells_strptime.
  - intros [dt HD]. exists (year dt), (month dt), (day dt).
    split; [by eapply strptime_Ok_valid | by apply strptime_spells].
Qed.

(** ** More on series and tables *)

Lemma traverse_Raise {A B : Type} (f : A -> result B) (E : exn)
  (l : list A) :
  (forall x e, f x = Raise e -> e = E) ->
  Exists (fun x => raised (f x)) l ->
  traverse f l = Raise E.
Proof.
  intros HE. induction 1 as [x l Hx | x l _ IH]; cbn.
  - destruct (f x) as [y|e] eqn:Hfx; [done|].
    by rewrite (HE _ _ Hfx).
  - destruct (f x) as [y|e] eqn:Hfx; cbn.
    + by rewrite IH.
    + by rewrite (HE _ _ Hfx).
Qed.

Lemma sub_series_total {A : Type} (fa fb : A -> value) (g : A -> value)
  (l : list A) :
  Forall (fun r => sub_value (fa r) (fb r) = Ok (g r)) l ->
  sub_series (map fa l) (map fb l) = Ok (map g l).
Proof.
  induction 1 as [|x l Hx _ IH]; cbn; [done|]. by rewrite Hx, IH.
Qed.

Lemma zip_with_map_r {A B C : Type} (h : A -> B -> C) (g : A -> B)
  (l : list A) :
  zip_with h l (map g l) = map (fun x => h x (g x)) l.
Proof. induction l; cbn; congruence. Qed.

Lemma Forall_exists_Forall2 {A B : Type} (P : A -> B -> Prop) (l : list A) :
  Forall (fun x => exists y, P x y) l -> exists l', Forall2 P l l'.
Proof.
  induction 1 as [|x l [y Hy] _ [l' IH]].
  - exists []. constructor.
  - exists (y :: l'). by constructor.
Qed.

Lemma get_column_in (e : exn) (df : frame) (c : string) :
  c ∈ columns df ->
  get_column e df c = Ok (map (fun r => cell r c) (rows df)).
Proof. intros H. by apply get_column_Ok. Qed.

(** Lines 40 and 41 succeed on a table that has the two timestamp columns
    and a duration for every row. *)
Lemma minutes_total (f : frame) :
  "dropOff_datetime" ∈ columns f ->
  "pickup_datetime" ∈ columns f ->
  Forall (fun r => exists m, row_minutes r = Ok m) (rows f) ->
  exists f1 f2, derive_duration f = Ok f1 /\ to_minutes f1 = Ok f2.
Proof.
  intros Hd Hp Hrows.
  set (sub := fun r : gmap string value =>
                match sub_value (cell r "dropOff_datetime")
                        (cell r "pickup_datetime") with
                | Ok d => d
                | Raise _ => NA
                end).
  assert (Forall (fun r =>
                    sub_value (cell r "dropOff_datetime")
                      (cell r "pickup_datetime") = Ok (sub r)
                    /\ exists m, total_minutes (sub r) = Ok m) (rows f))
    as Hsub.
  { eapply Forall_impl; [exact Hrows|]. cbn. intros r [m Hm].
    unfold row_minutes in Hm. apply result_bind_Ok in Hm as (d & Hd' & Hm).
    unfold sub. rewrite Hd'. eauto. }
  exists (set_column f "duration" (map sub (rows f))).
  assert (derive_duration f
          = Ok (set_column f "duration" (map sub (rows f)))) as H1.
  { unfold derive_duration.
    rewrite !get_column_in by done.
    cbn [mbind result_bind Py.bind].
    rewrite (sub_series_total _ _ sub); [done|].
    eapply Forall_impl; [exact Hsub|]. cbn. tauto. }
  destruct (to_minutes _) as [f2|e] eqn:H2; [eauto|]. exfalso.
  unfold to_minutes in H2.
  rewrite get_column_in in H2 by (apply columns_set_column; auto).
  cbn [mbind result_bind Py.bind] in H2.
  destruct (traverse total_minutes _) as [ms|e'] eqn:Hms; [done|].
  assert (exists ms, traverse total_minutes
            (map (fun r => cell r "duration")
               (rows (set_column f "duration" (map sub (rows f))))) = Ok ms)
    as [ms Hms']; [|congruence].
  cbn [rows set_column]. rewrite zip_with_map_r, map_map.
  destruct (Forall_exists_Forall2
              (fun r m => total_minutes (sub r) = Ok m) (rows f))
    as [ms Hms'].
  { eapply Forall_impl; [exact Hsub|]. cbn. tauto. }
  exists ms. apply traverse_Ok. rewrite Forall2_fmap_l.
  eapply Forall2_impl; [exact Hms'|]. cbn. intros r m Hm.
  by rewrite cell_insert_eq.
Qed.

Lemma row_minutes_elapses (r : gmap string value) :
  elapses r = true -> exists m, row_minutes r = Ok m.
Proof.
  unfold row_minutes, elapses.
  destruct (cell r "dropOff_datetime") as [| | |a| |],
           (cell r "pickup_datetime") as [| | |b| |];
    try done; cbn; eauto.
  intros [Hlo Hhi]%andb_true_iff. apply Z.leb_le in Hlo, Hhi.
  unfold checked.
  assert ((a - b <? i8min) = false) as -> by (apply Z.ltb_ge; lia).
  assert ((i8max <? a - b) = false) as -> by (apply Z.ltb_ge; lia).
  cbn. destruct (a - b =? i8min); cbn; eauto.
Qed.

Lemma mean_Floats (s : list value) (qs : list Q) :
  Forall2 (fun v q => v = Float q) s qs -> mean s = Ok (average qs).
Proof.
  intros H. unfold mean.
  assert (traverse as_number s = Ok (map Some qs)) as ->.
  { apply traverse_Ok. rewrite Forall2_fmap_r.
    eapply Forall2_impl; [exact H|]. cbn. by intros v q ->. }
  cbn [mbind result_bind Py.bind].
  assert (omap id (map Some qs) = qs) as ->
    by (clear; induction qs; cbn; congruence).
  done.
Qed.

Lemma traverse_is_Ok {A B : Type} (f : A -> result B) (l : list A) :
  Forall (fun x => exists y, f x = Ok y) l -> exists l', traverse f l = Ok l'.
Proof.
  intros H. apply Forall_exists_Forall2 in H as [l' H].
  exists l'. by apply traverse_Ok.
Qed.

Lemma cell_with_minutes_ne (r : gmap string value) (c : string) :
  c ≠ "duration" -> cell (with_minutes r) c = cell r c.
Proof.
  intros Hne. unfold with_minutes. destruct (row_minutes r); [|done].
  by apply cell_insert_ne.
Qed.

Lemma retained_Floats (f : frame) :
  Forall (fun r => exists m, row_minutes r = Ok m) (rows f) ->
  exists qs,
    Forall2 (fun r q => row_minutes r = Ok (Float q) /\ (1 <= q <= 60)%Q)
      (retained f) qs.
Proof.
  intros Hms. apply Forall_exists_Forall2. apply Forall_forall.
  intros r Hr. apply list_elem_of_In in Hr.
  apply (retained_spec f r Hms) in Hr as (_ & q & Hq & Hw). eauto.
Qed.

Lemma elapses_minutes (f : frame) :
  Forall (fun r => elapses r = true) (rows f) ->
  Forall (fun r => exists m, row_minutes r = Ok m) (rows f).
Proof.
  intros H. eapply Forall_impl; [exact H|]. cbn.
  intros r Hr. by apply row_minutes_elapses.
Qed.

Lemma minutes_window (z : Z) :
  in_window (Float (inject_Z z / 1000000000 / 60))
  = (60000000000 <=? z) && (z <=? 3600000000000).
Proof.
  unfold in_window, Qle_bool, Qdiv, Qmult, Qinv, inject_Z.
  cbn [Qnum Qden Z.mul Pos.mul].
  apply eq_true_iff_eq. rewrite !andb_true_iff, !Z.leb_le. lia.
Qed.

Lemma in_window_with_minutes (r : gmap string value) (m : value) :
  is_time (cell r "dropOff_datetime") = true ->
  is_time (cell r "pickup_datetime") = true ->
  row_minutes r = Ok m ->
  in_window (cell (with_minutes r) "duration") = within_ns r.
Proof.
  intros Hd Hp Hm. rewrite (cell_with_minutes _ _ Hm).
  unfold row_minutes, within_ns in *.
  destruct (cell r "dropOff_datetime") as [| | |a| |] eqn:Ed; try done;
    destruct (cell r "pickup_datetime") as [| | |b| |] eqn:Ep; try done;
    cbn in Hm; try (by injection Hm as <-).
  apply result_bind_Ok in Hm as (v & Hv & Hm).
  apply checked_Ok in Hv as [Hfit ->].
  destruct (Z.eqb_spec (a - b) i8min) as [Heq | Hne]; cbn in Hm;
    injection Hm as <-.
  - cbn. symmetry. apply andb_false_iff. left. apply Z.leb_gt.
    rewrite Heq. done.
  - apply minutes_window.
Qed.

(** On timestamps, the rows the feature preparer retains are those whose
    drop-off is one to sixty minutes after the pickup, to the nanosecond. *)
Lemma retained_within_ns (f : frame) :
  Forall (fun r => is_time (cell r "dropOff_datetime") = true /\
                   is_time (cell r "pickup_datetime") = true) (rows f) ->
  Forall (fun r => exists m, row_minutes r = Ok m) (rows f) ->
  retained f = List.filter within_ns (rows f).
Proof.
  intros Htime Hms. unfold retained.
  apply List.filter_ext_in. intros r Hr. apply list_elem_of_In in Hr.
  rewrite Forall_forall in Htime, Hms. destruct (Htime r Hr) as [Hd Hp].
  destruct (Hms r Hr) as [m Hm]. by eapply in_window_with_minutes.
Qed.

Lemma scalar_window (v : value) (a b : bool) :
  ge_scalar v 1 = Ok a -> le_scalar v 60 = Ok b -> a && b = in_window v.
Proof. destruct v; cbn; try done; by intros [= <-] [= <-]. Qed.

Lemma in_window_scalars (v : value) :
  in_window v = true -> ge_scalar v 1 = Ok true /\ le_scalar v 60 = Ok true.
Proof.
  destruct v; try done; unfold in_window, ge_scalar, le_scalar;
    intros [H1 H2]%andb_true_iff; split; f_equal; assumption.
Qed.

Lemma boolean_index_filter {A : Type} (p : A -> bool) (l : list A) :
  boolean_index l (map p l) = List.filter p l.
Proof. induction l as [|x l IH]; cbn; [done|]. by rewrite IH. Qed.

(** The outlier filter on any table: it needs the [duration] column, with
    numbers or missing values, and keeps the rows in the window. *)
Lemma duration_filter_Ok (f g : frame) :
  duration_filter f = Ok g ->
  "duration" ∈ columns f /\
  g = {| columns := columns f;
         rows := List.filter (fun r => in_window (cell r "duration"))
                   (rows f) |}.
Proof.
  unfold duration_filter. intros H.
  apply result_bind_Ok in H as (d & Hd & H).
  apply result_bind_Ok in H as (lo & Hlo & H).
  apply result_bind_Ok in H as (hi & Hhi & [= <-]).
  apply get_column_Ok in Hd as [Hin ->]. split; [done|].
  unfold select_rows. f_equal.
  apply traverse_Ok in Hlo, Hhi. rewrite Forall2_fmap_l in Hlo, Hhi.
  rewrite <- (boolean_index_filter _ (rows f)). f_equal.
  unfold and_series. clear Hin. revert lo hi Hlo Hhi.
  induction (rows f) as [|r rs IH]; intros lo hi Hlo Hhi;
    inversion Hlo; inversion Hhi; subst; cbn; [done|].
  f_equal; [by eapply scalar_window | by apply IH].
Qed.

(** X10: the outlier filter of line 42 is idempotent on every table it
    accepts, whatever the table holds besides: filtering its result again
    gives that result. *)
Theorem duration_filter_twice (f g : frame) :
  duration_filter f = Ok g -> duration_filter g = Ok g.
Proof.
  intros H. apply duration_filter_Ok in H as [Hin ->].
  unfold duration_filter. rewrite get_column_in by done.
  cbn [mbind result_bind Py.bind rows].
  set (kept := List.filter _ (rows f)).
  assert (Forall (fun r => in_window (cell r "duration") = true) kept)
    as Hkept.
  { apply Forall_forall. intros r Hr. apply list_elem_of_In in Hr.
    by apply List.filter_In in Hr as [_ Hr]. }
  rewrite (traverse_total (fun v => ge_scalar v 1) (fun _ => true)).
  2:{ apply Forall_map. eapply Forall_impl; [exact Hkept|]. cbn.
      intros r Hr. by apply in_window_scalars in Hr as [-> _]. }
  cbn [mbind result_bind Py.bind].
  rewrite (traverse_total (fun v => le_scalar v 60) (fun _ => true)).
  2:{ apply Forall_map. eapply Forall_impl; [exact Hkept|]. cbn.
      intros r Hr. by apply in_window_scalars in Hr as [_ ->]. }
  cbn [mbind result_bind Py.bind]. rewrite !map_map.
  rewrite (and_series_map (fun _ => true) (fun _ => true)).
  cbn [andb]. unfold select_rows. cbn [rows columns].
  by rewrite (boolean_index_all kept).
Qed.

Lemma to_int_nonnil (z : Z) :
  Z.to_int z <> Decimal.Pos Decimal.Nil /\
  Z.to_int z <> Decimal.Neg Decimal.Nil.
Proof.
  destruct z as [|p|p]; cbn; split; try discriminate;
    intros [= H]; by apply DecimalPos.Unsigned.to_uint_nonnil in H.
Qed.

(** [str] on integers can be read back. *)
Lemma str_int_inj (z1 z2 : Z) : str_int z1 = str_int z2 -> z1 = z2.
Proof.
  unfold str_int. intros H.
  apply (f_equal NilZero.int_of_string) in H.
  destruct (to_int_nonnil z1), (to_int_nonnil z2).
  rewrite !NilZero.isi in H by done. injection H as H.
  rewrite <- (DecimalZ.of_to z1), <- (DecimalZ.of_to z2). by rewrite H.
Qed.

(** ** More on the feature preparer *)

Lemma sub_value_times (a b : value) :
  is_time a = true -> is_time b = true ->
  (exists v, sub_value a b = Ok v) \/ sub_value a b = Raise OverflowError.
Proof.
  destruct a as [| | |x| |], b as [| | |y| |]; try done; cbn; eauto.
  intros _ _. unfold checked.
  destruct ((x - y <? i8min) || (i8max <? x - y)); [by right|].
  left. destruct (x - y =? i8min); eauto.
Qed.

Lemma sub_series_overflow {A : Type} (fa fb : A -> value) (l : list A) :
  Forall (fun r => is_time (fa r) = true /\ is_time (fb r) = true) l ->
  Exists (fun r => sub_value (fa r) (fb r) = Raise OverflowError) l ->
  sub_series (map fa l) (map fb l) = Raise OverflowError.
Proof.
  induction 1 as [|r l [Ha Hb] _ IH]; [by intros ?%Exists_nil|].
  intros Hex. cbn [map sub_series].
  destruct (sub_value_times _ _ Ha Hb) as [[v Hv] | Hv]; rewrite Hv; [|done].
  cbn [mbind result_bind Py.bind].
  apply Exists_cons in Hex as [Hex | Hex]; [congruence|].
  by rewrite (IH Hex).
Qed.

Lemma elapses_false (r : gmap string value) :
  is_time (cell r "dropOff_datetime") = true ->
  is_time (cell r "pickup_datetime") = true ->
  elapses r = false ->
  sub_value (cell r "dropOff_datetime") (cell r "pickup_datetime")
  = Raise OverflowError.
Proof.
  unfold elapses.
  destruct (cell r "dropOff_datetime") as [| | |a| |],
           (cell r "pickup_datetime") as [| | |b| |]; try done.
  intros _ _ H. cbn. unfold checked.
  apply andb_false_iff in H. rewrite !Z.leb_gt in H.
  assert ((a - b <? i8min) || (i8max <? a - b) = true) as ->; [|done].
  apply orb_true_iff. rewrite !Z.ltb_lt. lia.
Qed.

Section FeaturePreparerMore.

Variable int_of_str : string -> result Z.
Variable int_of_wide : Q -> result Z.

(** The feature preparer once lines 40 and 41 have succeeded: the filter
    and the mean cannot fail, only the encoding of line 50 can. *)
Lemma prepare_features_steps (df : nat) (categorical : list string)
  (train : bool) (w : world) (f f1 f2 : frame) :
  heap w !! df = Some (DataFrame f) ->
  derive_duration f = Ok f1 ->
  to_minutes f1 = Ok f2 ->
  exists qs,
    Forall2 (fun r q => row_minutes r = Ok (Float q) /\ (1 <= q <= 60)%Q)
      (retained f) qs /\
    let f3 := {| columns := columns f2;
                 rows := map with_minutes (retained f) |} in
    let w2 := store df (DataFrame f2) (store df (DataFrame f1) w) in
    let l := fresh (dom (heap w2)) in
    let w4 := record (Log (if train
                           then MeanDurationTraining (average qs)
                           else MeanDurationValidation (average qs)))
                (store l (DataFrame f3) w2) in
    prepare_features int_of_str int_of_wide df categorical train w
    = match encode_categorical int_of_str int_of_wide f3 categorical with
      | Raise e => (Raise e, w4)
      | Ok f4 => (Ok l, store l (DataFrame f4) w4)
      end.
Proof.
  intros Hdf H1 H2.
  destruct (with_minutes_rows _ _ _ H1 H2) as [Hms Hrows].
  pose proof (to_minutes_Ok _ _ H2) as (_ & Hdur & _).
  destruct (retained_Floats f Hms) as [qs Hqs]. exists qs.
  split; [exact Hqs|]. cbv zeta.
  rewrite (prepare_features_eq _ _ _ _ _ _ _ Hdf), H1, H2. cbv zeta.
  rewrite (duration_filter_with_minutes f2 (rows f) Hms Hrows Hdur).
  fold (retained f).
  assert (mean_duration {| columns := columns f2;
                           rows := map with_minutes (retained f) |}
          = Ok (average qs)) as ->; [|done].
  unfold mean_duration. rewrite get_column_in by done.
  cbn [mbind result_bind Py.bind rows]. apply mean_Floats.
  rewrite map_map, Forall2_fmap_l.
  eapply Forall2_impl; [exact Hqs|]. cbn. intros r q [Hq _].
  by apply cell_with_minutes.
Qed.

(** X8: the mean the feature preparer logs is the mean of the durations of
    the rows it retains, those within the window, and [NaN] when none is
    retained; the log line is the only event of a successful call. *)
Theorem prepare_features_logs_mean (df : nat) (categorical : list string)
  (train : bool) (w w' : world) (f : frame) (l : nat) :
  heap w !! df = Some (DataFrame f) ->
  prepare_features int_of_str int_of_wide df categorical train w = (Ok l, w') ->
  exists qs,
    Forall2 (fun r q => row_minutes r = Ok (Float q) /\ (1 <= q <= 60)%Q)
      (retained f) qs /\
    trace w'
    = trace w ++ [Log (if train then MeanDurationTraining (average qs)
                       else MeanDurationValidation (average qs))].
Proof.
  intros Hdf H.
  destruct (derive_duration f) as [f1|e] eqn:H1.
  2:{ rewrite (prepare_features_eq _ _ _ _ _ _ _ Hdf), H1 in H. done. }
  destruct (to_minutes f1) as [f2|e] eqn:H2.
  2:{ rewrite (prepare_features_eq _ _ _ _ _ _ _ Hdf), H1, H2 in H. done. }
  destruct (prepare_features_steps df categorical train w f f1 f2 Hdf H1 H2)
    as (qs & Hqs & Heq).
  exists qs. split; [exact Hqs|]. cbv zeta in Heq. rewrite Heq in H.
  destruct (encode_categorical _ _ _ _); [|done]. by injection H as _ <-.
Qed.

(** X5: on a table without the pickup or the drop-off column the feature
    preparer raises [AttributeError] on line 40, before it has changed or
    logged anything. *)
Theorem prepare_features_missing_timestamps (df : nat)
  (categorical : list string) (train : bool) (w : world) (f : frame) :
  heap w !! df = Some (DataFrame f) ->
  "dropOff_datetime" ∉ columns f \/ "pickup_datetime" ∉ columns f ->
  prepare_features int_of_str int_of_wide df categorical train w
  = (Raise AttributeError, w).
Proof.
  intros Hdf Hmiss. rewrite (prepare_features_eq _ _ _ _ _ _ _ Hdf).
  assert (derive_duration f = Raise AttributeError) as ->; [|done].
  unfold derive_duration, get_column.
  destruct (decide ("dropOff_datetime" ∈ columns f)); [|done].
  cbn [mbind result_bind Py.bind].
  destruct (decide ("pickup_datetime" ∈ columns f)); [|done].
  by destruct Hmiss.
Qed.

(** X21: on a table of timestamps with a row whose drop-off is so far from
    its pickup that the difference does not fit 64 bits of nanoseconds, the
    feature preparer raises [OverflowError] on line 40, before it has
    changed the table or logged anything. *)
Theorem prepare_features_overflow (df : nat) (categorical : list string)
  (train : bool) (w : world) (f : frame) :
  heap w !! df = Some (DataFrame f) ->
  "dropOff_datetime" ∈ columns f ->
  "pickup_datetime" ∈ columns f ->
  Forall (fun r => is_time (cell r "dropOff_datetime") = true /\
                   is_time (cell r "pickup_datetime") = true) (rows f) ->
  Exists (fun r => elapses r = false) (rows f) ->
  prepare_features int_of_str int_of_wide df categorical train w
  = (Raise OverflowError, w).
Proof.
  intros Hdf Hd Hp Htime Hex. rewrite (prepare_features_eq _ _ _ _ _ _ _ Hdf).
  assert (derive_duration f = Raise OverflowError) as ->; [|done].
  unfold derive_duration. rewrite !get_column_in by done.
  cbn [mbind result_bind Py.bind].
  rewrite sub_series_overflow; [done | exact Htime |].
  rewrite Exists_exists in *. destruct Hex as (r & Hr & Hover).
  exists r. split; [done|]. rewrite Forall_forall in Htime.
  destruct (Htime r Hr) as [Ha Hb]. by apply elapses_false.
Qed.

Lemma encode_categorical_missing (g : frame) (cs : list string)
  (c : string) :
  c ∈ cs -> c ∉ columns g ->
  encode_categorical int_of_str int_of_wide g cs = Raise KeyError.
Proof.
  intros Hc Hmiss. unfold encode_categorical, encode_columns.
  rewrite (traverse_Raise (get_column KeyError g) KeyError); [done| |].
  - intros x e. unfold get_column. case_decide; [done|]. by intros [= <-].
  - apply Exists_exists. exists c. split; [done|].
    unfold get_column. by case_decide.
Qed.

(** X6: on a table with the two timestamp columns, holding timestamps (or
    missing values) whose differences fit 64 bits of nanoseconds, that lacks
    one of the categorical columns the feature preparer raises [KeyError],
    on line 50: by then the caller's table has its [duration] column and
    the mean duration is logged. *)
Theorem prepare_features_missing_category (df : nat)
  (categorical : list string) (train : bool) (w : world) (f : frame)
  (c : string) :
  heap w !! df = Some (DataFrame f) ->
  "dropOff_datetime" ∈ columns f ->
  "pickup_datetime" ∈ columns f ->
  Forall (fun r => elapses r = true) (rows f) ->
  c ∈ categorical -> c ∉ columns f -> c ≠ "duration" ->
  fst (prepare_features int_of_str int_of_wide df categorical train w)
  = Raise KeyError /\
  exists f' mu,
    heap (snd (prepare_features int_of_str int_of_wide df categorical train w))
    !! df = Some (DataFrame f') /\
    "duration" ∈ columns f' /\
    rows f' = map with_minutes (rows f) /\
    trace (snd (prepare_features int_of_str int_of_wide df categorical
                  train w))
    = trace w ++ [Log (if train then MeanDurationTraining mu
                       else MeanDurationValidation mu)].
Proof.
  intros Hdf Hd Hp Htime Hc Hmiss Hne.
  destruct (minutes_total f Hd Hp (elapses_minutes f Htime))
    as (f1 & f2 & H1 & H2).
  destruct (prepare_features_steps df categorical train w f f1 f2 Hdf H1 H2)
    as (qs & _ & Heq).
  cbv zeta in Heq. rewrite Heq.
  rewrite (encode_categorical_missing _ _ c Hc).
  2:{ cbn [columns]. intros Hin.
      apply (proj1 (to_minutes_Ok _ _ H2)) in Hin.
      apply (proj1 (derive_duration_Ok _ _ H1)) in Hin as [?|?]; done. }
  split; [done|]. exists f2, (average qs). cbn [fst snd].
  destruct (with_minutes_rows _ _ _ H1 H2) as [_ Hrows].
  pose proof (to_minutes_Ok _ _ H2) as (_ & Hdur & _).
  split_and!; try done.
  cbn [heap record store]. rewrite lookup_insert_ne.
  - apply lookup_insert_eq.
  - apply fresh_ne. rewrite lookup_insert_eq. eauto.
Qed.

Lemma encode_cell_is_code (v : value) :
  is_code v = true -> exists y, encode_cell int_of_str int_of_wide v = Ok y.
Proof.
  unfold encode_cell. destruct v; try done; cbn; eauto.
  intros ->. eauto.
Qed.

Lemma encode_categorical_total (g : frame) (cs : list string) :
  (forall c, c ∈ cs -> c ∈ columns g) ->
  Forall (fun r => forall c, c ∈ cs -> is_code (cell r c) = true) (rows g) ->
  exists g', encode_categorical int_of_str int_of_wide g cs = Ok g'.
Proof.
  intros Hcols Hrows. unfold encode_categorical, encode_columns.
  rewrite (traverse_total (get_column KeyError g)
             (fun c => map (fun r => cell r c) (rows g))).
  2:{ apply Forall_forall. intros c Hc. apply get_column_in. auto. }
  cbn [mbind result_bind Py.bind].
  destruct (traverse_is_Ok (traverse (encode_cell int_of_str int_of_wide))
              (map (fun c => map (fun r => cell r c) (rows g)) cs))
    as [enc ->]; [|cbn; eauto].
  apply Forall_map, Forall_forall. intros c Hc. cbn.
  apply traverse_is_Ok, Forall_map.
  eapply Forall_impl; [exact Hrows|]. cbn. intros r Hr.
  apply encode_cell_is_code. auto.
Qed.

(** X7: on a table of the expected schema (the two timestamp columns,
    holding timestamps or missing values whose differences fit 64 bits of
    nanoseconds, and the categorical columns, holding integers, missing
    values or floats within 64 bits) the feature preparer does not raise: it
    returns a table at a reference that was not in use, whose rows are, in
    order, the input rows within the window, each with its duration and
    with its categorical cells filled, cast and written as strings. *)
Theorem prepare_features_returns (df : nat) (categorical : list string)
  (train : bool) (w : world) (f : frame) :
  heap w !! df = Some (DataFrame f) ->
  conforms categorical f ->
  "duration" ∉ categorical ->
  exists l out,
    fst (prepare_features int_of_str int_of_wide df categorical train w)
    = Ok l /\
    heap w !! l = None /\
    heap (snd (prepare_features int_of_str int_of_wide df categorical
                 train w)) !! l = Some (DataFrame out) /\
    "duration" ∈ columns out /\
    Forall2 (fun r r' =>
               exists q, row_minutes r = Ok (Float q) /\ (1 <= q <= 60)%Q /\
                         encoded int_of_str int_of_wide categorical
                           (<["duration" := Float q]> r) r')
      (retained f) (rows out).
Proof.
  intros Hdf (Hd & Hp & Hcols & Hrows) Hdur.
  assert (Forall (fun r => elapses r = true) (rows f)) as Htime.
  { eapply Forall_impl; [exact Hrows|]. cbn. tauto. }
  destruct (minutes_total f Hd Hp (elapses_minutes f Htime))
    as (f1 & f2 & H1 & H2).
  destruct (prepare_features_steps df categorical train w f f1 f2 Hdf H1 H2)
    as (qs & _ & Heq).
  cbv zeta in Heq.
  destruct (encode_categorical_total
              {| columns := columns f2;
                 rows := map with_minutes (retained f) |} categorical)
    as [f4 H4].
  - cbn [columns]. intros c Hc.
    apply (proj1 (to_minutes_Ok _ _ H2)),
          (proj1 (derive_duration_Ok _ _ H1)). auto.
  - cbn [rows]. apply Forall_map. unfold retained.
    apply Forall_forall. intros r Hr. apply list_elem_of_In in Hr.
    apply List.filter_In in Hr as [Hr _]. apply list_elem_of_In in Hr.
    rewrite Forall_forall in Hrows. destruct (Hrows r Hr) as (_ & Hcode).
    cbn. intros c Hc. rewrite cell_with_minutes_ne; [auto|].
    intros ->. done.
  - rewrite H4 in Heq.
    destruct (prepare_features_rows _ _ _ _ _ _ _ _ _ Hdf Heq)
      as (out & Hout & Hcol & Hout_rows).
    rewrite Heq. eexists _, out. cbn [fst snd].
    split_and!; try done.
    apply eq_None_not_Some. intros Hl.
    eapply fresh_ne; [|reflexivity]. cbn [heap store].
    match goal with
    | |- is_Some (_ !! ?l) =>
        destruct (decide (df = l)) as [Heq' | Hne]
    end.
    + rewrite <- Heq'. rewrite lookup_insert_eq. eauto.
    + rewrite lookup_insert_ne by exact Hne.
      rewrite lookup_insert_ne by exact Hne. exact Hl.
Qed.

(** X12: the feature preparer touches no object but the table passed to
    it: every other object of the store is after the call what it was
    before, whether the call returns or raises. *)
Theorem prepare_features_frame (df : nat) (categorical : list string)
  (train : bool) (w : world) (l' : nat) :
  l' ≠ df -> is_Some (heap w !! l') ->
  heap (snd (prepare_features int_of_str int_of_wide df categorical train w))
  !! l' = heap w !! l'.
Proof.
  intros Hne Hl'.
  destruct (heap w !! df) as [[f| |]|] eqn:Hdf.
  2,3,4: unfold prepare_features; rewrite bind_eq; unfold get_frame;
         by rewrite Hdf.
  rewrite (prepare_features_eq _ _ _ _ _ _ _ Hdf).
  destruct (derive_duration f) as [f1|]; [|done].
  destruct (to_minutes f1) as [f2|];
    [|cbn; by rewrite lookup_insert_ne].
  cbv zeta.
  set (h2 := heap (store df (DataFrame f2) (store df (DataFrame f1) w))).
  assert (h2 !! l' = heap w !! l') as Hh2
    by (unfold h2; cbn; by rewrite !lookup_insert_ne).
  assert (fresh (dom h2) ≠ l') as Hfresh
    by (apply fresh_ne; by rewrite Hh2).
  destruct (duration_filter f2) as [f3|]; [|done].
  destruct (mean_duration f3) as [mu|];
    [|cbn; fold h2; by rewrite lookup_insert_ne].
  destruct (encode_categorical _ _ _ _) as [f4|]; cbn; fold h2;
    by rewrite !lookup_insert_ne.
Qed.

(** X9: on timestamps the window is exact to the nanosecond: the rows of
    the table returned are the input rows whose drop-off is at least
    60 000 000 000 ns and at most 3 600 000 000 000 ns after the pickup, in
    their order, with the cells other than the duration and the categorical
    columns as they were; a row with a missing timestamp is dropped. *)
Theorem prepare_features_nanoseconds (df : nat) (categorical : list string)
  (train : bool) (w w' : world) (f : frame) (l : nat) :
  heap w !! df = Some (DataFrame f) ->
  Forall (fun r => is_time (cell r "dropOff_datetime") = true /\
                   is_time (cell r "pickup_datetime") = true) (rows f) ->
  prepare_features int_of_str int_of_wide df categorical train w = (Ok l, w') ->
  exists out,
    heap w' !! l = Some (DataFrame out) /\
    Forall2 (fun r r' =>
               forall c, c ∉ categorical -> c ≠ "duration" ->
                         r' !! c = r !! c)
      (List.filter within_ns (rows f)) (rows out).
Proof.
  intros Hdf Htime H.
  destruct (prepare_features_rows _ _ _ _ _ _ _ _ _ Hdf H)
    as (out & Hout & _ & Hrows).
  destruct (prepare_features_Ok _ _ _ _ _ _ _ _ _ Hdf H)
    as (_ & _ & _ & Hms & _).
  exists out. split; [done|]. rewrite <- (retained_within_ns f Htime Hms).
  eapply Forall2_impl; [exact Hrows|]. cbn.
  intros r r' (q & _ & _ & Hother & _) c Hc Hne.
  rewrite (Hother c Hc). by apply lookup_insert_ne.
Qed.

(** X11: line 50 writes two cells as the same string exactly when they
    hold the same integer once filled and cast: a missing location id reads
    as the id -1, and a float as the integer it truncates to. *)
Theorem encode_cell_collision (v1 v2 y1 y2 : value) :
  encode_cell int_of_str int_of_wide v1 = Ok y1 ->
  encode_cell int_of_str int_of_wide v2 = Ok y2 ->
  (y1 = y2 <->
   astype_int int_of_str int_of_wide (fillna v1)
   = astype_int int_of_str int_of_wide (fillna v2)).
Proof.
  intros H1 H2.
  apply encode_cell_Ok in H1 as (z1 & Hz1 & ->).
  apply encode_cell_Ok in H2 as (z2 & Hz2 & ->).
  rewrite Hz1, Hz2. split.
  - intros [= H]. f_equal. by apply str_int_inj.
  - by intros [= ->].
Qed.

End FeaturePreparerMore.

(** ** More on the trainer and the evaluator *)

Lemma traverse_length {A B : Type} (f : A -> result B) (l : list A)
  (l' : list B) :
  traverse f l = Ok l' -> length l' = length l.
Proof. intros H%traverse_Ok. symmetry. by eapply Forall2_length. Qed.

Lemma vectorize_Ok (st : vectorizer) (F : list (list (string * option Q))) :
  F ≠ [] ->
  exists Mx, vectorize st F = Ok Mx /\
             shape Mx = (length F, length (feature_names_ st)).
Proof. intros HF. destruct F; [done|]. cbn. eauto. Qed.

(** [fit_transform] on a vectorizer: it stores the vocabulary learned from
    the samples, or raises and stores nothing. *)
Lemma fit_transform_spec (dv : nat) (X : list (list (string * value)))
  (w : world) (o : option vectorizer) :
  heap w !! dv = Some (DictVectorizer o) ->
  post (fit_transform dv X) w
    (fun r w' =>
       match r with
       | Ok Mx =>
           exists F, traverse features_of X = Ok F /\ F ≠ [] /\
                     w' = store dv (DictVectorizer (Some (learn F))) w /\
                     shape Mx = (length X, length (feature_names_ (learn F)))
       | Raise _ => w' = w
       end).
Proof.
  intros Hdv. unfold fit_transform. wp_step. apply post_get_object.
  rewrite Hdv. wp_step. wp_step; [|done].
  destruct a as [|x F']; [by wp_step|].
  wp_step. wp_step.
  destruct (vectorize_Ok (learn (x :: F')) (x :: F')) as (Mx & HM & Hs);
    [done|].
  apply post_lift. rewrite HM. exists (x :: F').
  split_and!; try done. rewrite Hs. f_equal. by eapply traverse_length.
Qed.

Lemma preserves_refl (w : world) : preserves w w.
Proof. by intros l o. Qed.

Lemma preserves_record (ev : event) (w w' : world) :
  preserves w w' -> preserves w (record ev w').
Proof. done. Qed.

Lemma preserves_new (o : object) (w w' : world) :
  preserves w w' -> preserves w (store (fresh (dom (heap w'))) o w').
Proof.
  intros H l o' Hl. cbn. rewrite lookup_insert_ne; [by apply H|].
  apply fresh_ne. rewrite (H _ _ Hl). eauto.
Qed.

Lemma preserves_update (l : nat) (o : object) (w w' : world) :
  heap w !! l = None -> preserves w w' -> preserves w (store l o w').
Proof.
  intros Hl H l' o' Hl'. cbn. rewrite lookup_insert_ne; [by apply H|].
  intros ->. congruence.
Qed.

Lemma fresh_None (h : gmap nat object) : h !! fresh (dom h) = None.
Proof. apply not_elem_of_dom. apply is_fresh. Qed.

Lemma to_dict_records_in (f : frame) (cs : list string) :
  (forall c, c ∈ cs -> c ∈ columns f) ->
  to_dict_records f cs
  = Ok (map (fun r => map (fun c => (c, cell r c)) cs) (rows f)).
Proof.
  intros H. unfold to_dict_records. case_decide as Hd; [done|].
  destruct Hd. by apply Forall_forall.
Qed.

Lemma str_le_total : Total str_le.
Proof. intros a b. apply String.leb_total. Qed.

Lemma learn_names (F : list (list (string * option Q))) (name : string) :
  name ∈ feature_names_ (learn F) <-> name ∈ map fst (concat F).
Proof.
  cbn. rewrite merge_sort_Permutation. apply elem_of_remove_dups.
Qed.

Lemma learn_NoDup (F : list (list (string * option Q))) :
  NoDup (feature_names_ (learn F)).
Proof. cbn. rewrite merge_sort_Permutation. apply NoDup_remove_dups. Qed.

Lemma learn_Sorted (F : list (list (string * option Q))) :
  Sorted str_le (feature_names_ (learn F)).
Proof. cbn. apply (Sorted_merge_sort str_le (Total0 := str_le_total)). Qed.

Lemma learn_vocabulary (F : list (list (string * option Q)))
  (name : string) (i : nat) :
  vocabulary_ (learn F) !! name = Some i
  <-> feature_names_ (learn F) !! i = Some name.
Proof.
  pose proof (learn_NoDup F) as Hnd. cbn in *.
  set (names := merge_sort str_le _) in *.
  rewrite <- elem_of_list_to_map.
  2:{ rewrite fst_zip; [done|]. by rewrite length_seq. }
  rewrite elem_of_lookup_zip_with. split.
  - intros (j & x & y & [= -> ->] & Hx & Hy).
    apply lookup_seq in Hy as [-> _]. done.
  - intros Hi. exists i, name, i. split_and!; try done.
    apply lookup_seq. split; [done|]. by eapply lookup_lt_Some.
Qed.

Lemma Forall2_elem_of_r {A B : Type} (P : A -> B -> Prop) (l : list A)
  (k : list B) (y : B) :
  Forall2 P l k -> y ∈ k -> exists x, x ∈ l /\ P x y.
Proof.
  induction 1 as [|x y' l k Hxy _ IH]; [by intros ?%elem_of_nil|].
  intros [-> | Hy]%elem_of_cons.
  - exists x. split; [by left | done].
  - destruct (IH Hy) as (x' & Hx' & HP). exists x'.
    split; [by right | done].
Qed.

Lemma Forall2_elem_of_l {A B : Type} (P : A -> B -> Prop) (l : list A)
  (k : list B) (x : A) :
  Forall2 P l k -> x ∈ l -> exists y, y ∈ k /\ P x y.
Proof.
  induction 1 as [|x' y l k Hxy _ IH]; [by intros ?%elem_of_nil|].
  intros [-> | Hx]%elem_of_cons.
  - exists y. split; [by left | done].
  - destruct (IH Hx) as (y' & Hy' & HP). exists y'.
    split; [by right | done].
Qed.

Lemma table_features_names (f : frame) (cs : list string)
  (F : list (list (string * option Q))) (name : string) :
  table_features f cs = Ok F ->
  name ∈ map fst (concat F) <->
  exists r c v, r ∈ rows f /\ c ∈ cs /\ feature_of c (cell r c) = Ok (name, v).
Proof.
  unfold table_features. intros H.
  apply result_bind_Ok in H as (X & HX & HF).
  unfold to_dict_records in HX. case_decide; [|done]. injection HX as <-.
  apply traverse_Ok in HF. rewrite Forall2_fmap_l in HF.
  rewrite list_elem_of_In, in_map_iff. split.
  - intros ([name' v] & <- & Hin). apply in_concat in Hin as (x & Hx & Hin).
    apply list_elem_of_In in Hx, Hin.
    destruct (Forall2_elem_of_r _ _ _ _ HF Hx) as (r & Hr & Hfr).
    cbn in Hfr. unfold features_of in Hfr. apply traverse_Ok in Hfr.
    rewrite Forall2_fmap_l in Hfr.
    destruct (Forall2_elem_of_r _ _ _ _ Hfr Hin) as (c & Hc & Hfc).
    cbn in Hfc. exists r, c, v. done.
  - intros (r & c & v & Hr & Hc & Hfc).
    destruct (Forall2_elem_of_l _ _ _ _ HF Hr) as (x & Hx & Hfr).
    cbn in Hfr. unfold features_of in Hfr. apply traverse_Ok in Hfr.
    rewrite Forall2_fmap_l in Hfr.
    destruct (Forall2_elem_of_l _ _ _ _ Hfr Hc) as ([name' v'] & Hin & Hfc').
    cbn in Hfc'. rewrite Hfc in Hfc'. injection Hfc' as <- <-.
    exists (name, v). split; [done|]. apply in_concat. exists x.
    split; by apply list_elem_of_In.
Qed.

Section EstimatorsMore.

Variable lstsq : nat -> list (list (nat * Q)) -> list Q -> list Q * Q.
Variable rmse : list Q -> list Q -> Q.

Lemma fit_spec (lr : nat) (X : matrix) (y : list value) (w : world) :
  post (fit lstsq lr X y) w
    (fun r w' =>
       match r with
       | Ok _ => exists p, w' = store lr (LinearRegression (Some p)) w
       | Raise _ => w' = w
       end).
Proof. unfold fit. wp; try done; cbn; eauto. Qed.

(** What the trainer does to the world. *)
Lemma train_model_spec (df : nat) (categorical : list string) (w : world) :
  post (train_model lstsq rmse df categorical) w
    (fun r w' =>
       preserves w w' /\
       match r with
       | Ok (lr, dv) =>
           heap w !! lr = None /\ heap w !! dv = None /\ lr ≠ dv /\
           exists f F p mse,
             heap w !! df = Some (DataFrame f) /\
             table_features f categorical = Ok F /\
             heap w' !! dv = Some (DictVectorizer (Some (learn F))) /\
             heap w' !! lr = Some (LinearRegression (Some p)) /\
             trace w'
             = trace w
               ++ [Log (ShapeXTrain (length (rows f),
                                     length (feature_names_ (learn F))));
                   Log (FeatureCount (length (feature_names_ (learn F))));
                   Log (MseTraining mse)]
       | Raise _ => True
       end).
Proof.
  unfold train_model.
  wp_step. apply post_get_frame.
  destruct (heap w !! df) as [[f| |]|] eqn:Hdf;
    try (split; [apply preserves_refl | done]).
  wp_step. apply post_lift.
  destruct (to_dict_records f categorical) as [X|] eqn:HX;
    [|split; [apply preserves_refl | done]].
  wp_step. wp_step. set (dv := fresh (dom (heap w))).
  assert (heap w !! dv = None) as Hdv by apply fresh_None.
  set (w1 := store dv (DictVectorizer None) w).
  assert (preserves w w1) as Hw1 by (apply preserves_new, preserves_refl).
  wp_step. eapply post_mono.
  { apply (fit_transform_spec dv X w1 None). apply lookup_insert_eq. }
  cbn beta. intros [Mx|e] w2 H2; [|by subst w2].
  destruct H2 as (F & HF & HFne & -> & Hshape).
  set (w2 := store dv (DictVectorizer (Some (learn F))) w1).
  assert (preserves w w2) as Hw2 by (by apply preserves_update).
  assert (heap w2 !! df = Some (DataFrame f)) as Hdf2 by (by apply Hw2).
  wp_step. apply post_get_frame. rewrite Hdf2.
  wp_step. apply post_lift.
  destruct (get_column AttributeError f "duration") as [y|] eqn:Hy;
    [|done].
  wp_step. wp_step. wp_step. apply post_get_object.
  cbn [heap record]. unfold w2 at 1. cbn [heap store].
  rewrite lookup_insert_eq.
  wp_step. wp_step. wp_step. wp_step.
  set (w3 := record _ (record _ w2)).
  set (lr := fresh (dom (heap w3))).
  assert (heap w !! lr = None) as Hlr.
  { destruct (heap w !! lr) as [o|] eqn:Hlr; [|done].
    apply Hw2 in Hlr. pose proof (fresh_None (heap w3)) as Hfr.
    fold lr in Hfr. cbn in Hfr, Hlr. congruence. }
  assert (lr ≠ dv) as Hne.
  { apply fresh_ne. cbn. rewrite lookup_insert_eq. eauto. }
  set (w4 := store lr (LinearRegression None) w3).
  assert (preserves w w4) as Hw4 by (by apply preserves_update).
  wp_step. eapply post_mono; [apply fit_spec|]. cbn beta.
  intros [[]|e] w5 H5; [|by subst w5].
  destruct H5 as [p ->].
  set (w5 := store lr (LinearRegression (Some p)) w4).
  assert (preserves w w5) as Hw5 by (by apply preserves_update).
  wp_step. eapply post_mono; [apply predict_post|]. cbn beta.
  intros [ypred|e] w6 ->; [|done].
  wp_step. apply post_lift.
  destruct (mean_squared_error rmse y ypred) as [mse|] eqn:Hmse; [|done].
  wp_step. wp_step. wp_step. split; [done|].
  split_and!; try done.
  exists f, F, p, mse. split_and!; try done.
  - unfold table_features. by rewrite HX.
  - cbn. rewrite lookup_insert_ne by done.
    rewrite lookup_insert_ne by done. rewrite insert_insert_eq.
    apply lookup_insert_eq.
  - cbn. apply lookup_insert_eq.
  - cbn. rewrite Hshape, <- !app_assoc. cbn.
    unfold to_dict_records in HX. case_decide; [|done].
    injection HX as <-. by rewrite length_map.
Qed.

(** X13: on a table without rows the trainer raises [ValueError], from
    [fit_transform], and logs nothing. *)
Theorem train_model_empty_table (df : nat) (categorical : list string)
  (w : world) (f : frame) :
  heap w !! df = Some (DataFrame f) ->
  rows f = [] ->
  (forall c, c ∈ categorical -> c ∈ columns f) ->
  fst (train_model lstsq rmse df categorical w) = Raise ValueError /\
  trace (snd (train_model lstsq rmse df categorical w)) = trace w.
Proof.
  intros Hdf Hrows Hcols.
  change (post (train_model lstsq rmse df categorical) w
            (fun r w' => r = Raise ValueError /\ trace w' = trace w)).
  unfold train_model. wp_step. apply post_get_frame. rewrite Hdf.
  wp_step. apply post_lift. rewrite (to_dict_records_in f _ Hcols), Hrows.
  cbn [map]. wp_step. wp_step. wp_step.
  unfold fit_transform. wp_step. apply post_get_object.
  cbn [heap store]. rewrite lookup_insert_eq.
  wp_step. apply post_lift. cbn [traverse]. by wp_step.
Qed.

(** X14: the trainer changes no object of the store: whatever it holds
    before the call, tables included, it holds after it, whether the
    trainer returns or raises. *)
Theorem train_model_frame (df : nat) (categorical : list string)
  (w : world) (l : nat) (o : object) :
  heap w !! l = Some o ->
  heap (snd (train_model lstsq rmse df categorical w)) !! l = Some o.
Proof.
  intros Hl. destruct (train_model_spec df categorical w) as [H _].
  by apply H.
Qed.

(** X15: when the trainer returns, the model and the vectorizer are two
    new objects, both fitted, and it has logged three lines: the shape of
    the training matrix, one row per trip of the table and one column per
    feature of the vectorizer, then the number of features, then the
    training error. *)
Theorem train_model_returns_fitted (df : nat) (categorical : list string)
  (w w' : world) (lr dv : nat) :
  train_model lstsq rmse df categorical w = (Ok (lr, dv), w') ->
  heap w !! lr = None /\ heap w !! dv = None /\ lr ≠ dv /\
  exists f st p mse,
    heap w !! df = Some (DataFrame f) /\
    heap w' !! dv = Some (DictVectorizer (Some st)) /\
    heap w' !! lr = Some (LinearRegression (Some p)) /\
    trace w'
    = trace w
      ++ [Log (ShapeXTrain (length (rows f), length (feature_names_ st)));
          Log (FeatureCount (length (feature_names_ st)));
          Log (MseTraining mse)].
Proof.
  intros Heq. pose proof (train_model_spec df categorical w) as H.
  unfold post in H. rewrite Heq in H. cbn [fst snd] in H.
  destruct H as (_ & Hlr & Hdv & Hne & f & F & p & mse & Hdf & _ & H1 & H2 & H3).
  split_and!; try done. by exists f, (learn F), p, mse.
Qed.

(** X16: the vectorizer the trainer returns lists its features in
    ascending order and without repetition, its vocabulary maps each feature
    to its position in that list, and the features are exactly those of the
    categorical cells of the training table. *)
Theorem train_model_vocabulary (df : nat) (categorical : list string)
  (w w' : world) (lr dv : nat) :
  train_model lstsq rmse df categorical w = (Ok (lr, dv), w') ->
  exists f st,
    heap w !! df = Some (DataFrame f) /\
    heap w' !! dv = Some (DictVectorizer (Some st)) /\
    NoDup (feature_names_ st) /\
    Sorted str_le (feature_names_ st) /\
    (forall name i,
       vocabulary_ st !! name = Some i <-> feature_names_ st !! i = Some name) /\
    (forall name,
       name ∈ feature_names_ st <->
       exists r c v, r ∈ rows f /\ c ∈ categorical /\
                     feature_of c (cell r c) = Ok (name, v)).
Proof.
  intros Heq. pose proof (train_model_spec df categorical w) as H.
  unfold post in H. rewrite Heq in H. cbn [fst snd] in H.
  destruct H as (_ & _ & _ & _ & f & F & p & mse & Hdf & HF & H1 & _).
  exists f, (learn F). split_and!; try done.
  - apply learn_NoDup.
  - apply learn_Sorted.
  - apply learn_vocabulary.
  - intros name. rewrite learn_names. by apply table_features_names.
Qed.

(** X17: on a table without rows the evaluator raises [ValueError], from
    [transform], and leaves the world as it was: no metric is logged. *)
Theorem run_model_empty_table (df : nat) (categorical : list string)
  (dv lr : nat) (w : world) (f : frame) (st : vectorizer) :
  heap w !! df = Some (DataFrame f) ->
  rows f = [] ->
  (forall c, c ∈ categorical -> c ∈ columns f) ->
  heap w !! dv = Some (DictVectorizer (Some st)) ->
  run_model rmse df categorical dv lr w = (Raise ValueError, w).
Proof.
  intros Hdf Hrows Hcols Hdv.
  unfold run_model. rewrite (get_frame_bind _ _ _ _ Hdf), lift_bind.
  rewrite (to_dict_records_in f _ Hcols), Hrows. cbn [map].
  rewrite bind_eq. unfold transform. rewrite bind_eq.
  unfold get_object. by rewrite Hdv.
Qed.

End EstimatorsMore.

(** ** The driver *)

Lemma post_submit {A : Type} (m : M A) (w : world)
  (Q : result (future A) -> world -> Prop) :
  post m w (fun r w' =>
              Q (Ok (match r with
                     | Ok a => Completed a
                     | Raise e => Failed e
                     end)) w') ->
  post (submit m) w Q.
Proof. unfold post, submit. by destruct (m w) as [[a|e] w']. Qed.

Lemma post_submit_after {A B : Type} (fut : future A) (task : A -> M B)
  (w : world) (Q : result (future B) -> world -> Prop) :
  match fut with
  | Completed a => post (submit (task a)) w Q
  | _ => Q (Ok NotReady) w
  end ->
  post (submit_after fut task) w Q.
Proof. by destruct fut. Qed.

Lemma stage_of_phase (train : bool) (ev : event) :
  stage_of ev = phase train ->
  exists mu, ev = Log (if train then MeanDurationTraining mu
                       else MeanDurationValidation mu).
Proof. destruct train, ev as [|[]|]; try done; eauto. Qed.

Lemma terminal_failed (runs : list (option exn)) (w : world) (e : exn) :
  Some e ∈ runs -> exists e', terminal runs w = (Raise e', w).
Proof.
  induction runs as [|[e0|] runs IH]; cbn.
  - by intros ?%elem_of_nil.
  - eauto.
  - intros [? | Hin]%elem_of_cons; [done | by apply IH].
Qed.

Lemma terminal_completed (runs : list (option exn)) (w : world) :
  Forall (fun run => run = None) runs -> terminal runs w = (Ok tt, w).
Proof. induction 1 as [|run runs -> _ IH]; [done | exact IH]. Qed.

(** equal lists of events, up to the nesting of the appends *)
Ltac same_events :=
  repeat first [progress cbn [app] | rewrite <- app_assoc]; reflexivity.

Section Driver.

Variable today : date.
Variable parquet : string -> option frame.
Variable storage : string -> result unit.
Variable not_ready : exn.
Variable int_of_str : string -> result Z.
Variable int_of_wide : Q -> result Z.
Variable lstsq : nat -> list (list (nat * Q)) -> list Q -> list Q * Q.
Variable rmse : list Q -> list Q -> Q.

Lemma read_data_post (path : string) (w : world) :
  post (read_data parquet path) w
    (fun _ w' => trace w' = trace w ++ [ReadParquet path]).
Proof. unfold read_data. wp; done. Qed.

(** A write puts the object behind the reference into the file, or raises
    and leaves the world as it was. *)
Lemma dump_spec (l : nat) (file : string) (w : world) (o : object) :
  heap w !! l = Some o ->
  post (dump storage l file) w
    (fun r w' => match r with
                 | Ok _ => w' = record (Dump o file) w
                 | Raise _ => w' = w
                 end).
Proof.
  intros Ho. unfold dump. wp_step. apply post_get_object. rewrite Ho.
  wp; done.
Qed.

(** The run of a preparation task: when it completes, the run it waited
    for had completed and its one event is the mean-duration line. *)
Lemma prepared_post (fut : future nat) (cs : list string) (train : bool)
  (w : world) :
  post (submit_after fut
          (fun df => prepare_features int_of_str int_of_wide df cs train)) w
    (fun r w' =>
       exists fut' evs,
         r = Ok fut' /\ trace w' = trace w ++ evs /\
         match fut' with
         | Completed _ =>
             completed fut = true /\
             exists mu, evs = [Log (if train then MeanDurationTraining mu
                                    else MeanDurationValidation mu)]
         | _ => exists n, (n <= 1)%nat /\
                          map stage_of evs = take n [phase train]
         end).
Proof.
  apply post_submit_after. destruct fut as [df|e|].
  2,3: exists NotReady, []; split_and!;
       [done | by rewrite app_nil_r
       | exists 0%nat; split; [lia | reflexivity]].
  apply post_submit. eapply post_mono; [apply prepare_features_post|].
  cbn beta. intros [l|e] w' (evs & Ht & H).
  - exists (Completed l), evs. split_and!; try done.
    destruct evs as [|ev [|]]; try done. injection H as H.
    apply stage_of_phase in H as [mu ->]. eauto.
  - exists (Failed e), evs. split_and!; done.
Qed.

(** The run of the training task: when it completes, the preparation it
    waited for had completed, its events are the three training lines, and
    the model and the vectorizer it returns are fitted. *)
Lemma trained_post (fut : future nat) (cs : list string) (w : world) :
  post (submit_after fut (fun df => train_model lstsq rmse df cs)) w
    (fun r w' =>
       exists fut' evs,
         r = Ok fut' /\ trace w' = trace w ++ evs /\
         match fut' with
         | Completed (lr, dv) =>
             completed fut = true /\
             exists sh n mse p st,
               evs = [Log (ShapeXTrain sh); Log (FeatureCount n);
                      Log (MseTraining mse)] /\
               heap w' !! lr = Some (LinearRegression (Some p)) /\
               heap w' !! dv = Some (DictVectorizer (Some st))
         | _ => exists n, (n <= 2)%nat /\
                          map stage_of evs = take n [Train; Train; Train] /\
                          (n ≠ 0%nat -> completed fut = true)
         end).
Proof.
  apply post_submit_after. destruct fut as [df|e|].
  2,3: exists NotReady, []; split_and!;
       [done | by rewrite app_nil_r
       | exists 0%nat; split_and!; [lia | reflexivity | done]].
  apply post_submit.
  pose proof (train_model_spec lstsq rmse df cs w) as Hspec.
  pose proof (train_model_post lstsq rmse df cs w) as Hpost.
  unfold post in *.
  destruct (train_model lstsq rmse df cs w) as [[[lr dv]|e] w'];
    cbn [fst snd] in *.
  - destruct Hspec as (_ & _ & _ & _ & f & F & p & mse & _ & _ & Hdv & Hlr & Ht).
    eexists (Completed (lr, dv)), _. split_and!; [done | exact Ht | done |].
    by eexists _, _, mse, p, (learn F).
  - destruct Hpost as (evs & Ht & n & Hn & Hevs).
    exists (Failed e), evs. split_and!; try done. by exists n.
Qed.

(** The run of the evaluation task: when it completes, the preparation it
    waited for had completed and its one event is the validation metric;
    otherwise it has no event. *)
Lemma evaluated_post (fut : future nat) (cs : list string) (dv lr : nat)
  (w : world) :
  post (submit_after fut (fun df => run_model rmse df cs dv lr)) w
    (fun r w' =>
       exists fut' evs,
         r = Ok fut' /\ trace w' = trace w ++ evs /\ heap w' = heap w /\
         match fut' with
         | Completed _ =>
             completed fut = true /\ exists mse, evs = [Log (MseValidation mse)]
         | _ => evs = []
         end).
Proof.
  apply post_submit_after. destruct fut as [df|e|].
  2,3: exists NotReady, []; split_and!; [done | by rewrite app_nil_r | done..].
  apply post_submit. eapply post_mono; [apply run_model_post|].
  cbn beta. intros [u|e] w' [Hh H].
  - destruct H as (_ & mse & Ht).
    exists (Completed u), [Log (MseValidation mse)].
    split_and!; [done | exact Ht | done | done | by exists mse].
  - exists (Failed e), []. split_and!; try done. by rewrite app_nil_r.
Qed.

(** The stages of a run that stopped with [n2], [n4] and [n5] lines of the
    preparations and of the training, and the artifacts [evsd]. *)
Lemma stopped_stages (train_path val_path d : string)
  (evs2 evs4 evs5 evsd : list event) (n2 n4 n5 ps : nat) :
  map stage_of evs2 = take n2 [PrepareTrain] ->
  map stage_of evs4 = take n4 [PrepareValidation] ->
  map stage_of evs5 = take n5 [Train; Train; Train] ->
  map stage_of evsd
  = take ps [Persist ("model-" +:+ d +:+ ".bin");
             Persist ("dv-" +:+ d +:+ ".b")] ->
  map stage_of (ReadParquet train_path
                :: evs2 ++ [ReadParquet val_path] ++ evs4 ++ evs5 ++ evsd)
  = stages_shown train_path val_path d n2 n4 n5 ps.
Proof.
  intros H2 H4 H5 Hd. unfold stages_shown.
  rewrite map_cons, !map_app, H2, H4, H5, Hd. reflexivity.
Qed.

(** A run of the flow, event by event when it completes and stage by stage
    when it fails. *)
Lemma main_post (date : option string) (w : world) :
  let d := match date with
           | None => strftime today
           | Some d => d
           end in
  post (main today parquet storage not_ready int_of_str int_of_wide lstsq
          rmse date) w
    (fun r w' =>
       exists evs, trace w' = trace w ++ evs /\
         match get_paths d with
         | Raise e => r = Raise e /\ evs = []
         | Ok (train_path, val_path) =>
             match r with
             | Ok _ =>
                 exists mt mv sh n mse p st mse',
                   evs = [ReadParquet train_path;
                          Log (MeanDurationTraining mt);
                          ReadParquet val_path;
                          Log (MeanDurationValidation mv);
                          Log (ShapeXTrain sh); Log (FeatureCount n);
                          Log (MseTraining mse);
                          Dump (LinearRegression (Some p))
                            ("model-" +:+ d +:+ ".bin");
                          Dump (DictVectorizer (Some st))
                            ("dv-" +:+ d +:+ ".b");
                          Log (MseValidation mse')]
             | Raise _ =>
                 exists rest pt pv tr ps,
                   evs = ReadParquet train_path :: rest /\
                   map stage_of evs
                   = stages_shown train_path val_path d pt pv tr ps /\
                   (pt <= 1 /\ pv <= 1 /\ tr <= 3 /\ ps <= 2)%nat /\
                   (tr ≠ 0%nat -> pt = 1%nat) /\
                   (ps ≠ 0%nat -> tr = 3%nat)
             end
         end).
Proof.
  intros d. unfold main. fold d.
  wp_step. apply post_submit, post_lift.
  destruct (get_paths d) as [[train_path val_path]|e]; cbn [get_result].
  2:{ wp_step. apply post_lift. exists []. by rewrite app_nil_r. }
  wp_step. apply post_ret.
  (* the two loads and the two preparations *)
  wp_step. apply post_submit. eapply post_mono; [apply read_data_post|].
  cbn beta. intros r1 w1 Ht1.
  wp_step. eapply post_mono; [apply prepared_post|]. cbn beta.
  intros r2 w2 (fut2 & evs2 & -> & Ht2 & H2).
  wp_step. apply post_submit. eapply post_mono; [apply read_data_post|].
  cbn beta. intros r3 w3 Ht3.
  wp_step. eapply post_mono; [apply prepared_post|]. cbn beta.
  intros r4 w4 (fut4 & evs4 & -> & Ht4 & H4).
  assert (exists n2, (n2 <= 1)%nat /\
            map stage_of evs2 = take n2 [PrepareTrain] /\
            (completed fut2 = true -> n2 = 1%nat)) as (n2 & Hn2 & Hs2 & Hc2).
  { destruct fut2 as [l2|e2|].
    - destruct H2 as (_ & mu & ->). by exists 1%nat.
    - destruct H2 as (n & ? & ?). by exists n.
    - destruct H2 as (n & ? & ?). by exists n. }
  assert (exists n4, (n4 <= 1)%nat /\
            map stage_of evs4 = take n4 [PrepareValidation] /\
            (completed fut4 = true -> n4 = 1%nat)) as (n4 & Hn4 & Hs4 & Hc4).
  { destruct fut4 as [l4|e4|].
    - destruct H4 as (_ & mu & ->). by exists 1%nat.
    - destruct H4 as (n & ? & ?). by exists n.
    - destruct H4 as (n & ? & ?). by exists n. }
  (* the training, asked for its result *)
  wp_step. eapply post_mono; [apply trained_post|]. cbn beta.
  intros r5 w5 (fut5 & evs5 & -> & Ht5 & H5).
  assert (trace w5
          = trace w ++ ReadParquet train_path
                       :: evs2 ++ [ReadParquet val_path] ++ evs4 ++ evs5)
    as Htrace.
  { rewrite Ht5, Ht4, Ht3, Ht2, Ht1. same_events. }
  wp_step.
  destruct fut5 as [[lr dv]|e5|]; cbn [get_result].
  2,3: apply post_lift; destruct H5 as (n5 & Hn5 & Hs5 & Hc5);
       eexists; split; [exact Htrace|];
       exists (evs2 ++ [ReadParquet val_path] ++ evs4 ++ evs5),
         n2, n4, n5, 0%nat;
       split; [reflexivity|]; split;
       [ rewrite <- (app_nil_r evs5); by apply stopped_stages
       | split; [lia|]; split;
         [intros Hne; apply Hc2, Hc5, Hne | intros Hne; by destruct Hne] ].
  destruct H5 as (Hc5 & sh & n & mse & p & st & -> & Hlr & Hdv).
  apply Hc2 in Hc5 as Hn2'. subst n2.
  apply post_ret.
  (* the two writes *)
  wp_step. eapply post_mono; [apply (dump_spec lr _ w5 _ Hlr)|]. cbn beta.
  intros [[]|e6] w6 ->.
  2:{ eexists. split; [exact Htrace|].
      exists (evs2 ++ [ReadParquet val_path] ++ evs4
              ++ [Log (ShapeXTrain sh); Log (FeatureCount n);
                  Log (MseTraining mse)]),
        1%nat, n4, 3%nat, 0%nat.
      split; [reflexivity|]. split.
      { rewrite <- (app_nil_r [Log (ShapeXTrain sh); _; _]).
        by apply stopped_stages. }
      split; [lia|]. split; [done|]. intros Hne. by destruct Hne. }
  wp_step.
  eapply post_mono;
    [apply (dump_spec dv _ _ (DictVectorizer (Some st))); exact Hdv|].
  cbn beta. intros [[]|e7] w7 ->.
  2:{ exists (ReadParquet train_path
              :: evs2 ++ [ReadParquet val_path] ++ evs4
                 ++ [Log (ShapeXTrain sh); Log (FeatureCount n);
                     Log (MseTraining mse)]
                 ++ [Dump (LinearRegression (Some p))
                       ("model-" +:+ d +:+ ".bin")]).
      split.
      { cbn [trace record]. rewrite Htrace. same_events. }
      eexists _, 1%nat, n4, 3%nat, 1%nat.
      split; [reflexivity|]. split.
      { apply (stopped_stages _ _ _ evs2 evs4
                 [Log (ShapeXTrain sh); Log (FeatureCount n);
                  Log (MseTraining mse)]
                 [Dump (LinearRegression (Some p))
                    ("model-" +:+ d +:+ ".bin")]); done. }
      split; [lia|]. split; done. }
  (* the evaluation and the end of the flow *)
  eapply post_bind, post_mono; [apply evaluated_post|]. cbn beta.
  intros r8 w8 (fut6 & evs6 & -> & Ht8 & _ & H6).
  assert (trace w8
          = trace w ++ ReadParquet train_path
                       :: evs2 ++ [ReadParquet val_path] ++ evs4
                          ++ [Log (ShapeXTrain sh); Log (FeatureCount n);
                              Log (MseTraining mse)]
                          ++ [Dump (LinearRegression (Some p))
                                ("model-" +:+ d +:+ ".bin");
                              Dump (DictVectorizer (Some st))
                                ("dv-" +:+ d +:+ ".b")] ++ evs6)
    as Htrace8.
  { rewrite Ht8. cbn [trace record]. rewrite Htrace. same_events. }
  assert (completed (match r1 with
                     | Ok a => Completed a
                     | Raise e => Failed e
                     end) = true) as Hc1.
  { destruct fut2; try done. by destruct H2. }
  destruct r1 as [df_train|]; [|done].
  destruct fut2 as [df_train_processed| |]; try done.
  destruct H2 as (_ & mt & ->).
  assert (match fut6 with
          | Completed _ =>
              exists df_val df_val_processed,
                r3 = Ok df_val /\ fut4 = Completed df_val_processed
          | _ => evs6 = []
          end) as H6'.
  { destruct fut6; try done. destruct H6 as [Hc4' _].
    destruct fut4 as [df_val_processed| |]; try done.
    destruct H4 as [Hc3 _]. destruct r3 as [df_val|]; [|done]. eauto. }
  unfold post.
  destruct fut6 as [u|e8|].
  - destruct H6' as (df_val & df_val_processed & -> & ->).
    destruct H4 as (_ & mv & ->). destruct H6 as (_ & mse' & ->).
    rewrite terminal_completed by (repeat constructor).
    cbn [fst snd]. eexists. split; [exact Htrace8|].
    by exists mt, mv, sh, n, mse, p, st, mse'.
  - subst evs6.
    match goal with
    | |- context [terminal ?runs w8] =>
        destruct (terminal_failed runs w8 e8) as [e ->];
        [do 6 apply list_elem_of_further; apply list_elem_of_here|]
    end.
    cbn [fst snd]. eexists. split; [exact Htrace8|].
    eexists _, 1%nat, n4, 3%nat, 2%nat.
    split; [reflexivity|]. split.
    { rewrite app_nil_r.
      apply (stopped_stages _ _ _ [Log (MeanDurationTraining mt)] evs4
               [Log (ShapeXTrain sh); Log (FeatureCount n);
                Log (MseTraining mse)]
               [Dump (LinearRegression (Some p))
                  ("model-" +:+ d +:+ ".bin");
                Dump (DictVectorizer (Some st))
                  ("dv-" +:+ d +:+ ".b")]); done. }
    split; [lia|]. split; done.
  - subst evs6.
    match goal with
    | |- context [terminal ?runs w8] =>
        destruct (terminal_failed runs w8 not_ready) as [e ->];
        [do 6 apply list_elem_of_further; apply list_elem_of_here|]
    end.
    cbn [fst snd]. eexists. split; [exact Htrace8|].
    eexists _, 1%nat, n4, 3%nat, 2%nat.
    split; [reflexivity|]. split.
    { rewrite app_nil_r.
      apply (stopped_stages _ _ _ [Log (MeanDurationTraining mt)] evs4
               [Log (ShapeXTrain sh); Log (FeatureCount n);
                Log (MseTraining mse)]
               [Dump (LinearRegression (Some p))
                  ("model-" +:+ d +:+ ".bin");
                Dump (DictVectorizer (Some st))
                  ("dv-" +:+ d +:+ ".b")]); done. }
    split; [lia|]. split; done.
Qed.

(** C1, as the code has it: the stages run in the order resolve paths, load
    train, prepare train, load validation, prepare validation, train,
    persist the model, persist the vectorizer, evaluate.  A complete run
    shows all of them, the two artifact writes before the validation
    metric.  A failed run has not logged the validation metric; it shows
    both loads and, in this order, what it reached of the other stages: a
    training line only after the training data were prepared, an artifact
    only after the three training lines, and the vectorizer's file only
    after the model's.  So a failed run may have written no artifact, the
    model alone, or both. *)
Theorem main_stage_order (date : option string) (w : world) :
  let d := match date with
           | None => strftime today
           | Some d => d
           end in
  exists evs,
    trace (snd (main today parquet storage not_ready int_of_str int_of_wide
                  lstsq rmse date w))
    = trace w ++ evs /\
    match get_paths d with
    | Raise e =>
        fst (main today parquet storage not_ready int_of_str int_of_wide
               lstsq rmse date w)
        = Raise e /\ evs = []
    | Ok (train_path, val_path) =>
        match fst (main today parquet storage not_ready int_of_str
                     int_of_wide lstsq rmse date w) with
        | Ok _ => map stage_of evs = run_stages train_path val_path d
        | Raise _ =>
            exists pt pv tr ps,
              map stage_of evs
              = stages_shown train_path val_path d pt pv tr ps /\
              (pt <= 1 /\ pv <= 1 /\ tr <= 3 /\ ps <= 2)%nat /\
              (tr ≠ 0%nat -> pt = 1%nat) /\
              (ps ≠ 0%nat -> tr = 3%nat)
        end
    end.
Proof.
  intros d. destruct (main_post date w) as (evs & Ht & H). fold d in H.
  exists evs. split; [exact Ht|].
  destruct (get_paths d) as [[train_path val_path]|e]; [|exact H].
  destruct (fst (main _ _ _ _ _ _ _ _ _ _)) as [u|e].
  - destruct H as (mt & mv & sh & n & mse & p & st & mse' & ->). reflexivity.
  - destruct H as (rest & pt & pv & tr & ps & _ & H). by exists pt, pv, tr, ps.
Qed.

(** C8, as the code has it: a reference date string is rejected, with the
    [ValueError] of the path resolver and before anything is read or
    written, unless it writes a calendar date with four year digits and,
    after a dash each, the month and the day; and the month and the day are
    accepted with two digits, without the leading zero, and the day also as
    a space and a digit.  A string that writes a date in one of these ways
    is parsed to that date and resolved like its [YYYY-MM-DD] form. *)
Theorem main_rejected_date (D : string) (w : world) :
  (~ date_string D ->
   main today parquet storage not_ready int_of_str int_of_wide lstsq rmse
     (Some D) w
   = (Raise ValueError, w)) /\
  (forall y m d,
     valid_date y m d = true -> spells y m d D ->
     strptime D = Ok (mk_date y m d) /\
     get_paths D = get_paths (strftime (mk_date y m d))).
Proof.
  split.
  - intros Hno.
    assert (get_paths D = Raise ValueError) as Hgp.
    { unfold get_paths. destruct (strptime D) as [dt|e] eqn:HD.
      - exfalso. apply Hno, date_string_strptime. eauto.
      - by rewrite (strptime_Raise _ _ HD). }
    unfold main. rewrite bind_eq. unfold submit, lift. by rewrite Hgp.
  - intros y m d Hv HD.
    pose proof (spells_strptime y m d D Hv HD) as Hparse.
    split; [exact Hparse|].
    rewrite (get_paths_parsed _ _ Hparse).
    by rewrite (get_paths_parsed _ _ (strptime_strftime y m d Hv)).
Qed.

(** X18: when the training dataset of a resolved reference date is not
    there, the flow does not stop at the loader: it goes on to read the
    validation dataset and to prepare it, and fails where the trainer is
    asked for its result (line 103).  Nothing is trained or written. *)
Theorem main_missing_training_file (d : string) (w : world)
  (train_path val_path : string) :
  get_paths d = Ok (train_path, val_path) ->
  parquet train_path = None ->
  fst (main today parquet storage not_ready int_of_str int_of_wide lstsq
         rmse (Some d) w)
  = Raise not_ready /\
  exists evs n,
    trace (snd (main today parquet storage not_ready int_of_str int_of_wide
                  lstsq rmse (Some d) w))
    = trace w ++ ReadParquet train_path :: ReadParquet val_path :: evs /\
    (n <= 1)%nat /\
    map stage_of evs = take n [PrepareValidation].
Proof.
  intros Hd Hfile.
  change (post (main today parquet storage not_ready int_of_str int_of_wide
                  lstsq rmse (Some d)) w
            (fun r w' =>
               r = Raise not_ready /\
               exists evs n,
                 trace w'
                 = trace w
                   ++ ReadParquet train_path :: ReadParquet val_path :: evs /\
                 (n <= 1)%nat /\
                 map stage_of evs = take n [PrepareValidation])).
  unfold main. wp_step. apply post_submit, post_lift. rewrite Hd.
  cbn [get_result]. wp_step. apply post_ret.
  wp_step. apply post_submit. unfold read_data. rewrite Hfile.
  wp_step. wp_step. wp_step.
  wp_step. apply post_submit_after.
  wp_step. apply post_submit. eapply post_mono; [apply read_data_post|].
  cbn beta. intros r3 w3 Ht3.
  wp_step. eapply post_mono; [apply prepared_post|]. cbn beta.
  intros r4 w4 (fut4 & evs4 & -> & Ht4 & H4).
  wp_step. apply post_submit_after.
  wp_step. cbn [get_result]. apply post_lift.
  split; [done|].
  assert (exists n, (n <= 1)%nat /\
            map stage_of evs4 = take n [PrepareValidation]) as (n & Hn & Hs).
  { destruct fut4 as [l4|e4|].
    - destruct H4 as (_ & mu & ->). by exists 1%nat.
    - exact H4.
    - exact H4. }
  exists evs4, n. split; [|done].
  rewrite Ht4, Ht3. cbn [trace record]. same_events.
Qed.

(** X19: a run without a reference date is a run for today: the first
    thing it does is read the dataset of two months before today's month. *)
Theorem main_scheduled_run (w : world) :
  valid_date (year today) (month today) (day today) = true ->
  3 <= 12 * (year today - 1) + month today ->
  exists evs,
    trace (snd (main today parquet storage not_ready int_of_str int_of_wide
                  lstsq rmse None w))
    = trace w
      ++ ReadParquet (dataset_id (months_before 2 (year today) (month today)))
         :: evs.
Proof.
  intros Hv Hlo.
  assert (get_paths (strftime today)
          = Ok (dataset_id (months_before 2 (year today) (month today)),
                dataset_id (months_before 1 (year today) (month today))))
    as Hd.
  { destruct today as [y m dd]. cbn [year month day] in *.
    rewrite (get_paths_parsed _ _ (strptime_strftime y m dd Hv)).
    cbn [year month]. by apply Z.leb_le in Hlo as ->. }
  destruct (main_post None w) as (evs & Ht & H). rewrite Hd in H.
  destruct (fst (main _ _ _ _ _ _ _ _ _ _)) as [u|e].
  - destruct H as (mt & mv & sh & n & mse & p & st & mse' & ->). eauto.
  - destruct H as (rest & pt & pv & tr & ps & -> & _). eauto.
Qed.

(** X20: a run that completes has written exactly two artifacts, the
    fitted model and then the fitted vectorizer, under [model-<date>.bin]
    and [dv-<date>.b] with the reference date as it was given, and logged
    the validation error after them. *)
Theorem main_artifacts (date : option string) (w : world) (u : unit) :
  let d := match date with
           | None => strftime today
           | Some d => d
           end in
  fst (main today parquet storage not_ready int_of_str int_of_wide lstsq
         rmse date w) = Ok u ->
  exists evs p st mse,
    trace (snd (main today parquet storage not_ready int_of_str int_of_wide
                  lstsq rmse date w))
    = trace w ++ evs
      ++ [Dump (LinearRegression (Some p)) ("model-" +:+ d +:+ ".bin");
          Dump (DictVectorizer (Some st)) ("dv-" +:+ d +:+ ".b");
          Log (MseValidation mse)] /\
    Forall (fun ev => forall o file, ev <> Dump o file) evs.
Proof.
  intros d Hok. destruct (main_post date w) as (evs & Ht & H). fold d in H.
  rewrite Hok in H.
  destruct (get_paths d) as [[train_path val_path]|e]; [|by destruct H].
  destruct H as (mt & mv & sh & n & mse & p & st & mse' & ->).
  exists [ReadParquet train_path; Log (MeanDurationTraining mt);
          ReadParquet val_path; Log (MeanDurationValidation mv);
          Log (ShapeXTrain sh); Log (FeatureCount n); Log (MseTraining mse)],
    p, st, mse'.
  split; [exact Ht|].
  repeat apply Forall_cons_2; try apply Forall_nil_2;
    intros o file E; discriminate E.
Qed.

End Driver.

(** * The properties on concrete runs *)

Import Sample.

Example get_paths_2022_01_15 :
  get_paths "2022-01-15"
  = Ok ("./data/fhv_tripdata_2021-11.parquet",
        "./data/fhv_tripdata_2021-12.parquet").
Proof. vm_compute. reflexivity. Qed.

Example get_paths_2021_08_15 :
  get_paths "2021-08-15" = Ok (june_path, july_path).
Proof. vm_compute. reflexivity. Qed.

Example get_paths_slashes : get_paths "15/01/2022" = Raise ValueError.
Proof. vm_compute. reflexivity. Qed.

Example get_paths_february_30 : get_paths "2022-02-30" = Raise ValueError.
Proof. vm_compute. reflexivity. Qed.

(** A complete run, stage by stage. *)
Example full_run_stages :
  fst full_run = Ok tt /\
  map stage_of (trace (snd full_run))
  = run_stages june_path july_path "2021-08-15".
Proof. split; vm_compute; reflexivity. Qed.

(** The duration of a ten-minute trip. *)
Example row_minutes_ten :
  row_minutes (trip 0 (10 * minute) (Float 7) NA)
  = Ok (Float (600000000000 # 60000000000)).
Proof. vm_compute. reflexivity. Qed.

(** Of the four June trips the feature preparer returns the first and the
    last, with their location ids as strings. *)
Example prepared_june :
  exists out,
    heap (snd prepared) !! 1%nat = Some (DataFrame out) /\
    map (fun r => (r !! "PUlocationID", r !! "DOlocationID")) (rows out)
    = [ (Some (Str "7"), Some (Str "-1")); (Some (Str "7"), Some (Str "3")) ].
Proof. eexists. split; vm_compute; reflexivity. Qed.

(** ** C1 *)

(** When no validation trip survives the outlier filter the evaluation
    raises, and by then both artifacts are written: the run has failed and
    left the model and the vectorizer behind. *)
Lemma main_fails_after_persisting :
  fst run_without_validation_rows = Raise ValueError /\
  map stage_of (trace (snd run_without_validation_rows))
  = [ LoadData june_path; PrepareTrain; LoadData july_path;
      PrepareValidation; Train; Train; Train;
      Persist "model-2021-08-15.bin"; Persist "dv-2021-08-15.b" ].
Proof. split; vm_compute; reflexivity. Qed.

(** When the vectorizer's file cannot be written the run fails between the
    two writes: the model's file is there and the vectorizer's is not. *)
Example main_fails_between_the_writes :
  fst run_without_dv_file = Raise FileNotFoundError /\
  map stage_of (trace (snd run_without_dv_file))
  = [ LoadData june_path; PrepareTrain; LoadData july_path;
      PrepareValidation; Train; Train; Train;
      Persist "model-2021-08-15.bin" ].
Proof. split; vm_compute; reflexivity. Qed.

(** When the validation dataset is not there the loader's failure stays in
    its future: the run trains, writes both artifacts and fails at its
    end. *)
Example main_trains_without_validation_data :
  fst run_without_validation_file = Raise FileNotFoundError /\
  map stage_of (trace (snd run_without_validation_file))
  = [ LoadData june_path; PrepareTrain; LoadData july_path;
      Train; Train; Train;
      Persist "model-2021-08-15.bin"; Persist "dv-2021-08-15.b" ].
Proof. split; vm_compute; reflexivity. Qed.

(** ** C2 *)

Lemma get_paths_months_before_witness :
  valid_date 2022 1 15 = true /\
  3 <= 12 * (2022 - 1) + 1 /\
  get_paths (strftime (mk_date 2022 1 15))
  = Ok (dataset_id (months_before 2 2022 1),
        dataset_id (months_before 1 2022 1)).
Proof.
  split; [reflexivity|]. split; [lia|].
  apply (get_paths_months_before 2022 1 15); [reflexivity | lia].
Defined.

(** The fifteenth of January of year 1 is a well-formed reference date, and
    the path resolver raises on it: its training month would be November of
    year 0. *)
Lemma get_paths_year_one :
  well_formed "0001-01-15" /\ get_paths "0001-01-15" = Raise ValueError.
Proof.
  split; [|vm_compute; reflexivity].
  exists 1, 1, 15. split; vm_compute; reflexivity.
Qed.

(** ** C3, C4, C6, C10 *)

Lemma prepare_features_window_witness :
  heap loaded !! 0%nat = Some (DataFrame june) /\
  prepare_features no_int no_wide 0 location_ids true loaded
  = (Ok 1%nat, snd prepared) /\
  exists out,
    heap (snd prepared) !! 1%nat = Some (DataFrame out) /\
    Forall2 (fun r r' =>
               exists q, row_minutes r = Ok (Float q) /\ (1 <= q <= 60)%Q /\
                 forall c, c ∉ location_ids ->
                           r' !! c = <["duration" := Float q]> r !! c)
      (retained june) (rows out).
Proof.
  assert (heap loaded !! 0%nat = Some (DataFrame june)) as H1
    by (vm_compute; reflexivity).
  assert (prepare_features no_int no_wide 0 location_ids true loaded
          = (Ok 1%nat, snd prepared)) as H2 by (vm_compute; reflexivity).
  split; [exact H1|]. split; [exact H2|].
  exact (proj2 (proj2 (prepare_features_window no_int no_wide 0%nat
                         location_ids true loaded (snd prepared) june 1%nat
                         H1 H2))).
Defined.

Lemma prepare_features_categorical_strings_witness :
  heap loaded !! 0%nat = Some (DataFrame june) /\
  prepare_features no_int no_wide 0 location_ids true loaded
  = (Ok 1%nat, snd prepared) /\
  exists out,
    heap (snd prepared) !! 1%nat = Some (DataFrame out) /\
    Forall2 (fun r r' =>
               forall c, c ∈ location_ids ->
                 (exists s, r' !! c = Some (Str s)) /\
                 (c ≠ "duration" -> cell r c = NA ->
                  r' !! c = Some (Str "-1")))
      (retained june) (rows out).
Proof.
  assert (heap loaded !! 0%nat = Some (DataFrame june)) as H1
    by (vm_compute; reflexivity).
  assert (prepare_features no_int no_wide 0 location_ids true loaded
          = (Ok 1%nat, snd prepared)) as H2 by (vm_compute; reflexivity).
  split; [exact H1|]. split; [exact H2|].
  exact (prepare_features_categorical_strings no_int no_wide 0%nat
           location_ids true loaded (snd prepared) june 1%nat H1 H2).
Defined.

Lemma prepare_features_integer_cast_witness :
  heap loaded !! 0%nat = Some (DataFrame june) /\
  prepare_features no_int no_wide 0 location_ids true loaded
  = (Ok 1%nat, snd prepared) /\
  exists out,
    heap (snd prepared) !! 1%nat = Some (DataFrame out) /\
    Forall2 (fun r r' =>
               forall c, c ∈ location_ids -> c ≠ "duration" ->
                 exists z,
                   r' !! c
                   = Some (Str (NilZero.string_of_int (Z.to_int z))) /\
                   (cell r c = NA -> z = -1) /\
                   (forall n, cell r c = Int n -> z = n) /\
                   (forall q, cell r c = Float q ->
                              (inject_Z (- 2 ^ 63) <= q)%Q ->
                              (q < inject_Z (2 ^ 63))%Q ->
                              toward_zero q z /\
                              forall n, q = inject_Z n -> z = n))
      (retained june) (rows out).
Proof.
  assert (heap loaded !! 0%nat = Some (DataFrame june)) as H1
    by (vm_compute; reflexivity).
  assert (prepare_features no_int no_wide 0 location_ids true loaded
          = (Ok 1%nat, snd prepared)) as H2 by (vm_compute; reflexivity).
  split; [exact H1|]. split; [exact H2|].
  exact (prepare_features_integer_cast no_int no_wide 0%nat
           location_ids true loaded (snd prepared) june 1%nat H1 H2).
Defined.

(** The whole float 7.0 is written ["7"], and so is 7.9; a missing id is
    written ["-1"]. *)
Example encode_cell_seven :
  encode_cell no_int no_wide (Float 7) = Ok (Str "7") /\
  encode_cell no_int no_wide (Float (79 # 10)) = Ok (Str "7") /\
  encode_cell no_int no_wide (Float (- 79 # 10)) = Ok (Str "-7") /\
  encode_cell no_int no_wide NA = Ok (Str "-1").
Proof. repeat split; vm_compute; reflexivity. Qed.

Lemma duration_filter_idempotent_witness :
  heap loaded !! 0%nat = Some (DataFrame june) /\
  ("duration" ∉ location_ids) /\
  prepare_features no_int no_wide 0 location_ids true loaded
  = (Ok 1%nat, snd prepared) /\
  exists out,
    heap (snd prepared) !! 1%nat = Some (DataFrame out) /\
    Forall (fun r' => exists q, r' !! "duration" = Some (Float q)
                                /\ (1 <= q <= 60)%Q) (rows out) /\
    duration_filter out = Ok out.
Proof.
  assert (heap loaded !! 0%nat = Some (DataFrame june)) as H1
    by (vm_compute; reflexivity).
  assert ("duration" ∉ location_ids) as H2.
  { unfold location_ids. rewrite !not_elem_of_cons.
    split; [discriminate|]. split; [discriminate|]. apply not_elem_of_nil. }
  assert (prepare_features no_int no_wide 0 location_ids true loaded
          = (Ok 1%nat, snd prepared)) as H3 by (vm_compute; reflexivity).
  split; [exact H1|]. split; [exact H2|]. split; [exact H3|].
  exact (duration_filter_idempotent no_int no_wide 0%nat location_ids true
           loaded (snd prepared) june 1%nat H1 H2 H3).
Defined.

(** ** C5 *)

Lemma prepare_features_input_after_witness :
  heap loaded !! 0%nat = Some (DataFrame june) /\
  exists f',
    heap (snd (prepare_features no_int no_wide 0 location_ids true loaded))
    !! 0%nat = Some (DataFrame f') /\
    unchanged_but "duration" june f' /\
    match fst (prepare_features no_int no_wide 0 location_ids true loaded)
    with
    | Ok l =>
        l ≠ 0%nat /\ "duration" ∈ columns f' /\
        rows f' = map with_minutes (rows june)
    | Raise _ => True
    end.
Proof.
  assert (heap loaded !! 0%nat = Some (DataFrame june)) as H1
    by (vm_compute; reflexivity).
  split; [exact H1|].
  exact (prepare_features_input_after no_int no_wide 0%nat location_ids true
           loaded june H1).
Defined.

(** The June table has no [duration] column when it is handed to the
    feature preparer and has one when the call returns: the caller's table
    is not left as it was. *)
Lemma prepare_features_changes_input :
  heap loaded !! 0%nat = Some (DataFrame june) /\
  columns june = trip_columns /\
  fst prepared = Ok 1%nat /\
  exists f',
    heap (snd prepared) !! 0%nat = Some (DataFrame f') /\
    columns f' = trip_columns ++ ["duration"] /\
    f' ≠ june.
Proof.
  split; [vm_compute; reflexivity|]. split; [reflexivity|].
  split; [vm_compute; reflexivity|].
  eexists. split; [vm_compute; reflexivity|].
  split; [reflexivity|]. intros H. apply (f_equal columns) in H.
  vm_compute in H. discriminate H.
Qed.

(** ** C8 *)

Lemma main_rejected_date_witness :
  (~ date_string "15/01/2022") /\
  main clock files disk unstarted no_int no_wide zero_fit zero_rmse
    (Some "15/01/2022") empty_world
  = (Raise ValueError, empty_world).
Proof.
  assert (~ date_string "15/01/2022") as H.
  { intros [dt Hdt]%date_string_strptime. vm_compute in Hdt.
    discriminate Hdt. }
  split; [exact H|].
  exact (proj1 (main_rejected_date clock files disk unstarted no_int no_wide
                  zero_fit zero_rmse "15/01/2022" empty_world) H).
Defined.

(** The fifth of January 2022 with its day written as a space and a
    digit. *)
Example strptime_space_day :
  spells 2022 1 5 "2022-01- 5" /\
  strptime "2022-01- 5" = Ok (mk_date 2022 1 5) /\
  get_paths "2022-01- 5" = get_paths "2022-01-05".
Proof.
  split; [|split; vm_compute; reflexivity].
  exists "01", " 5". split; [apply list_elem_of_here|]. split; [|done].
  do 2 apply list_elem_of_further. apply list_elem_of_here.
Qed.

Lemma strftime_length (d : date) : String.length (strftime d) = 10%nat.
Proof. reflexivity. Qed.

(** ["2022-1-5"] is not in [YYYY-MM-DD] form, yet the path resolver accepts
    it as the fifth of January 2022 and the run goes on to read the two
    datasets; with no file there it fails where the trainer is asked for
    its result, not in the resolver. *)
Lemma main_accepts_short_date :
  (~ well_formed "2022-1-5") /\
  get_paths "2022-1-5"
  = Ok ("./data/fhv_tripdata_2021-11.parquet",
        "./data/fhv_tripdata_2021-12.parquet") /\
  fst run_short_date = Raise unstarted /\
  trace (snd run_short_date)
  = [ReadParquet "./data/fhv_tripdata_2021-11.parquet";
     ReadParquet "./data/fhv_tripdata_2021-12.parquet"].
Proof.
  split; [|split; [|split]]; try (vm_compute; reflexivity).
  intros (y & m & d & _ & H). apply (f_equal String.length) in H.
  rewrite strftime_length in H. discriminate H.
Qed.

(** * The further properties on concrete runs *)

Ltac among :=
  repeat first [apply list_elem_of_here | apply list_elem_of_further].

Ltac not_among :=
  rewrite !not_elem_of_cons; repeat split;
  first [discriminate | apply not_elem_of_nil].

Ltac all_among :=
  let c := fresh "c" in
  let Hc := fresh "Hc" in
  intros c Hc; rewrite !elem_of_cons, elem_of_nil in Hc;
  destruct Hc as [-> | [-> | []]]; among.

(** ** X2, X3, X4 *)

Lemma get_paths_ignores_day_witness :
  strptime "2021-08-15" = Ok (mk_date 2021 8 15) /\
  strptime "2021-8-1" = Ok (mk_date 2021 8 1) /\
  get_paths "2021-08-15" = get_paths "2021-8-1".
Proof.
  assert (strptime "2021-08-15" = Ok (mk_date 2021 8 15)) as H1
    by (vm_compute; reflexivity).
  assert (strptime "2021-8-1" = Ok (mk_date 2021 8 1)) as H2
    by (vm_compute; reflexivity).
  split; [exact H1|]. split; [exact H2|].
  exact (get_paths_ignores_day "2021-08-15" "2021-8-1" (mk_date 2021 8 15)
           (mk_date 2021 8 1) H1 H2 eq_refl eq_refl).
Defined.

Lemma get_paths_accepts_length_witness :
  get_paths "2021-08-15" = Ok (june_path, july_path) /\
  (8 <= String.length "2021-08-15" <= 10)%nat.
Proof.
  assert (get_paths "2021-08-15" = Ok (june_path, july_path)) as H
    by (vm_compute; reflexivity).
  split; [exact H|].
  exact (get_paths_accepts_length "2021-08-15" june_path july_path H).
Defined.

Lemma strptime_short_fields_witness :
  valid_date 2022 1 5 = true /\
  strptime (four_digits 2022 +:+ "-" +:+ short_digits 1 +:+ "-"
            +:+ two_digits 5)
  = Ok (mk_date 2022 1 5) /\
  get_paths (four_digits 2022 +:+ "-" +:+ short_digits 1 +:+ "-"
             +:+ two_digits 5)
  = get_paths (strftime (mk_date 2022 1 5)).
Proof.
  assert (valid_date 2022 1 5 = true) as H by reflexivity.
  split; [exact H|].
  exact (strptime_short_fields 2022 1 5 (short_digits 1) (two_digits 5) H
           (or_intror eq_refl) (or_introl eq_refl)).
Defined.

(** ** X5 to X12 *)

Lemma prepare_features_missing_timestamps_witness :
  heap (holding no_pickup) !! 0%nat = Some (DataFrame no_pickup) /\
  ("dropOff_datetime" ∉ columns no_pickup
   \/ "pickup_datetime" ∉ columns no_pickup) /\
  prepare_features no_int no_wide 0 location_ids true (holding no_pickup)
  = (Raise AttributeError, holding no_pickup).
Proof.
  assert (heap (holding no_pickup) !! 0%nat = Some (DataFrame no_pickup))
    as H1 by (vm_compute; reflexivity).
  assert ("dropOff_datetime" ∉ columns no_pickup
          \/ "pickup_datetime" ∉ columns no_pickup) as H2
    by (right; unfold no_pickup; cbn [columns]; not_among).
  split; [exact H1|]. split; [exact H2|].
  exact (prepare_features_missing_timestamps no_int no_wide 0%nat
           location_ids true (holding no_pickup) no_pickup H1 H2).
Defined.

Lemma prepare_features_missing_category_witness :
  heap (holding timed) !! 0%nat = Some (DataFrame timed) /\
  Forall (fun r => elapses r = true) (rows timed) /\
  "PUlocationID" ∈ location_ids /\
  ("PUlocationID" ∉ columns timed) /\
  fst (prepare_features no_int no_wide 0 location_ids true (holding timed))
  = Raise KeyError /\
  exists f' mu,
    heap (snd (prepare_features no_int no_wide 0 location_ids true
                 (holding timed)))
    !! 0%nat = Some (DataFrame f') /\
    "duration" ∈ columns f' /\
    rows f' = map with_minutes (rows timed) /\
    trace (snd (prepare_features no_int no_wide 0 location_ids true
                  (holding timed)))
    = trace (holding timed) ++ [Log (MeanDurationTraining mu)].
Proof.
  assert (heap (holding timed) !! 0%nat = Some (DataFrame timed)) as H1
    by (vm_compute; reflexivity).
  assert ("dropOff_datetime" ∈ columns timed) as H2
    by (unfold timed; cbn [columns]; among).
  assert ("pickup_datetime" ∈ columns timed) as H3
    by (unfold timed; cbn [columns]; among).
  assert (Forall (fun r => elapses r = true) (rows timed)) as H4
    by (repeat constructor).
  assert ("PUlocationID" ∈ location_ids) as H5
    by (unfold location_ids; among).
  assert ("PUlocationID" ∉ columns timed) as H6
    by (unfold timed; cbn [columns]; not_among).
  assert ("PUlocationID" ≠ "duration") as H7 by discriminate.
  split; [exact H1|]. split; [exact H4|].
  split; [exact H5|]. split; [exact H6|].
  exact (prepare_features_missing_category no_int no_wide 0%nat location_ids
           true (holding timed) timed "PUlocationID" H1 H2 H3 H4 H5 H6 H7).
Defined.

Lemma june_conforms : conforms location_ids june.
Proof.
  unfold conforms, june, location_ids, trip_columns. cbn [columns rows].
  split; [among|]. split; [among|]. split; [all_among|].
  repeat constructor;
    intros c Hc; rewrite !elem_of_cons, elem_of_nil in Hc;
    destruct Hc as [-> | [-> | []]]; reflexivity.
Qed.

Lemma june_timestamps :
  Forall (fun r => is_time (cell r "dropOff_datetime") = true /\
                   is_time (cell r "pickup_datetime") = true) (rows june).
Proof. repeat constructor. Qed.

Lemma prepare_features_returns_witness :
  heap loaded !! 0%nat = Some (DataFrame june) /\
  conforms location_ids june /\
  ("duration" ∉ location_ids) /\
  exists l out,
    fst (prepare_features no_int no_wide 0 location_ids true loaded) = Ok l /\
    heap loaded !! l = None /\
    heap (snd (prepare_features no_int no_wide 0 location_ids true loaded))
    !! l = Some (DataFrame out) /\
    "duration" ∈ columns out /\
    Forall2 (fun r r' =>
               exists q, row_minutes r = Ok (Float q) /\ (1 <= q <= 60)%Q /\
                         encoded no_int no_wide location_ids
                           (<["duration" := Float q]> r) r')
      (retained june) (rows out).
Proof.
  assert (heap loaded !! 0%nat = Some (DataFrame june)) as H1
    by (vm_compute; reflexivity).
  assert ("duration" ∉ location_ids) as H3
    by (unfold location_ids; not_among).
  split; [exact H1|]. split; [exact june_conforms|]. split; [exact H3|].
  exact (prepare_features_returns no_int no_wide 0%nat location_ids true
           loaded june H1 june_conforms H3).
Defined.

Lemma prepare_features_logs_mean_witness :
  heap loaded !! 0%nat = Some (DataFrame june) /\
  prepare_features no_int no_wide 0 location_ids true loaded
  = (Ok 1%nat, snd prepared) /\
  exists qs,
    Forall2 (fun r q => row_minutes r = Ok (Float q) /\ (1 <= q <= 60)%Q)
      (retained june) qs /\
    trace (snd prepared)
    = trace loaded ++ [Log (MeanDurationTraining (average qs))].
Proof.
  assert (heap loaded !! 0%nat = Some (DataFrame june)) as H1
    by (vm_compute; reflexivity).
  assert (prepare_features no_int no_wide 0 location_ids true loaded
          = (Ok 1%nat, snd prepared)) as H2 by (vm_compute; reflexivity).
  split; [exact H1|]. split; [exact H2|].
  exact (prepare_features_logs_mean no_int no_wide 0%nat location_ids true
           loaded (snd prepared) june 1%nat H1 H2).
Defined.

Lemma prepare_features_nanoseconds_witness :
  heap loaded !! 0%nat = Some (DataFrame june) /\
  prepare_features no_int no_wide 0 location_ids true loaded
  = (Ok 1%nat, snd prepared) /\
  exists out,
    heap (snd prepared) !! 1%nat = Some (DataFrame out) /\
    Forall2 (fun r r' =>
               forall c, c ∉ location_ids -> c ≠ "duration" ->
                         r' !! c = r !! c)
      (List.filter within_ns (rows june)) (rows out).
Proof.
  assert (heap loaded !! 0%nat = Some (DataFrame june)) as H1
    by (vm_compute; reflexivity).
  assert (prepare_features no_int no_wide 0 location_ids true loaded
          = (Ok 1%nat, snd prepared)) as H2 by (vm_compute; reflexivity).
  split; [exact H1|]. split; [exact H2|].
  exact (prepare_features_nanoseconds no_int no_wide 0%nat location_ids true
           loaded (snd prepared) june 1%nat H1 june_timestamps H2).
Defined.

Lemma duration_filter_twice_witness :
  duration_filter durations = Ok short_durations /\
  duration_filter short_durations = Ok short_durations.
Proof.
  assert (duration_filter durations = Ok short_durations) as H
    by (vm_compute; reflexivity).
  split; [exact H|].
  exact (duration_filter_twice durations short_durations H).
Defined.

(** The location ids 7.9 and 7 are written as the same string. *)
Lemma encode_cell_collision_witness :
  encode_cell no_int no_wide (Float (79 # 10)) = Ok (Str "7") /\
  encode_cell no_int no_wide (Int 7) = Ok (Str "7") /\
  (Str "7" = Str "7" <->
   astype_int no_int no_wide (fillna (Float (79 # 10)))
   = astype_int no_int no_wide (fillna (Int 7))).
Proof.
  assert (encode_cell no_int no_wide (Float (79 # 10)) = Ok (Str "7")) as H1
    by (vm_compute; reflexivity).
  assert (encode_cell no_int no_wide (Int 7) = Ok (Str "7")) as H2
    by (vm_compute; reflexivity).
  split; [exact H1|]. split; [exact H2|].
  exact (encode_cell_collision no_int no_wide (Float (79 # 10)) (Int 7)
           (Str "7") (Str "7") H1 H2).
Defined.

Lemma prepare_features_overflow_witness :
  heap (holding far_apart) !! 0%nat = Some (DataFrame far_apart) /\
  Exists (fun r => elapses r = false) (rows far_apart) /\
  prepare_features no_int no_wide 0 location_ids true (holding far_apart)
  = (Raise OverflowError, holding far_apart).
Proof.
  assert (heap (holding far_apart) !! 0%nat = Some (DataFrame far_apart))
    as H1 by (vm_compute; reflexivity).
  assert ("dropOff_datetime" ∈ columns far_apart) as H2
    by (unfold far_apart, trip_columns; cbn [columns]; among).
  assert ("pickup_datetime" ∈ columns far_apart) as H3
    by (unfold far_apart, trip_columns; cbn [columns]; among).
  assert (Forall (fun r => is_time (cell r "dropOff_datetime") = true /\
                           is_time (cell r "pickup_datetime") = true)
            (rows far_apart)) as H4 by (repeat constructor).
  assert (Exists (fun r => elapses r = false) (rows far_apart)) as H5
    by (apply Exists_cons_hd; vm_compute; reflexivity).
  split; [exact H1|]. split; [exact H5|].
  exact (prepare_features_overflow no_int no_wide 0%nat location_ids true
           (holding far_apart) far_apart H1 H2 H3 H4 H5).
Defined.

(** A difference of 2^63 + 1 nanoseconds overflows; one of - 2^63 reads as
    missing. *)
Example sub_value_at_the_bounds :
  sub_value (Timestamp (2 ^ 62)) (Timestamp (- 2 ^ 62 - 1))
  = Raise OverflowError /\
  sub_value (Timestamp (- 2 ^ 62)) (Timestamp (2 ^ 62)) = Ok NA /\
  sub_value (Timestamp (2 ^ 62)) (Timestamp (- 2 ^ 62 + 1))
  = Ok (Timedelta (2 ^ 63 - 1)).
Proof. repeat split; vm_compute; reflexivity. Qed.

(** Preparing the prepared table once more leaves the June table alone. *)
Lemma prepare_features_frame_witness :
  0%nat ≠ 1%nat /\
  is_Some (heap (snd prepared) !! 0%nat) /\
  heap (snd (prepare_features no_int no_wide 1 location_ids false
               (snd prepared))) !! 0%nat
  = heap (snd prepared) !! 0%nat.
Proof.
  assert (0%nat ≠ 1%nat) as H1 by discriminate.
  assert (is_Some (heap (snd prepared) !! 0%nat)) as H2
    by (eexists; vm_compute; reflexivity).
  split; [exact H1|]. split; [exact H2|].
  exact (prepare_features_frame no_int no_wide 1%nat location_ids false
           (snd prepared) 0%nat H1 H2).
Defined.

(** ** X13 to X17 *)

Lemma no_trips_columns (c : string) :
  c ∈ location_ids -> c ∈ columns no_trips.
Proof.
  unfold location_ids, no_trips, trip_columns. cbn [columns app].
  revert c. all_among.
Qed.

Lemma train_model_empty_table_witness :
  heap (holding no_trips) !! 0%nat = Some (DataFrame no_trips) /\
  rows no_trips = [] /\
  fst (train_model zero_fit zero_rmse 0 location_ids (holding no_trips))
  = Raise ValueError /\
  trace (snd (train_model zero_fit zero_rmse 0 location_ids
                (holding no_trips)))
  = trace (holding no_trips).
Proof.
  assert (heap (holding no_trips) !! 0%nat = Some (DataFrame no_trips))
    as H1 by (vm_compute; reflexivity).
  split; [exact H1|]. split; [reflexivity|].
  exact (train_model_empty_table zero_fit zero_rmse 0%nat location_ids
           (holding no_trips) no_trips H1 eq_refl no_trips_columns).
Defined.

(** The trainer leaves the June table as the feature preparer left it. *)
Lemma train_model_frame_witness :
  heap (snd prepared) !! 0%nat = Some (DataFrame june_minutes) /\
  heap (snd trained) !! 0%nat = Some (DataFrame june_minutes).
Proof.
  assert (heap (snd prepared) !! 0%nat = Some (DataFrame june_minutes))
    as H by (vm_compute; reflexivity).
  split; [exact H|].
  exact (train_model_frame zero_fit zero_rmse 1%nat location_ids
           (snd prepared) 0%nat (DataFrame june_minutes) H).
Defined.

Lemma train_model_returns_fitted_witness :
  train_model zero_fit zero_rmse 1 location_ids (snd prepared)
  = (Ok (3%nat, 2%nat), snd trained) /\
  heap (snd prepared) !! 3%nat = None /\
  heap (snd prepared) !! 2%nat = None /\
  3%nat ≠ 2%nat /\
  exists f st p mse,
    heap (snd prepared) !! 1%nat = Some (DataFrame f) /\
    heap (snd trained) !! 2%nat = Some (DictVectorizer (Some st)) /\
    heap (snd trained) !! 3%nat = Some (LinearRegression (Some p)) /\
    trace (snd trained)
    = trace (snd prepared)
      ++ [Log (ShapeXTrain (length (rows f), length (feature_names_ st)));
          Log (FeatureCount (length (feature_names_ st)));
          Log (MseTraining mse)].
Proof.
  assert (train_model zero_fit zero_rmse 1 location_ids (snd prepared)
          = (Ok (3%nat, 2%nat), snd trained)) as H
    by (vm_compute; reflexivity).
  split; [exact H|].
  exact (train_model_returns_fitted zero_fit zero_rmse 1%nat location_ids
           (snd prepared) (snd trained) 3%nat 2%nat H).
Defined.

Lemma train_model_vocabulary_witness :
  train_model zero_fit zero_rmse 1 location_ids (snd prepared)
  = (Ok (3%nat, 2%nat), snd trained) /\
  exists f st,
    heap (snd prepared) !! 1%nat = Some (DataFrame f) /\
    heap (snd trained) !! 2%nat = Some (DictVectorizer (Some st)) /\
    NoDup (feature_names_ st) /\
    Sorted str_le (feature_names_ st) /\
    (forall name i,
       vocabulary_ st !! name = Some i <-> feature_names_ st !! i = Some name) /\
    (forall name,
       name ∈ feature_names_ st <->
       exists r c v, r ∈ rows f /\ c ∈ location_ids /\
                     feature_of c (cell r c) = Ok (name, v)).
Proof.
  assert (train_model zero_fit zero_rmse 1 location_ids (snd prepared)
          = (Ok (3%nat, 2%nat), snd trained)) as H
    by (vm_compute; reflexivity).
  split; [exact H|].
  exact (train_model_vocabulary zero_fit zero_rmse 1%nat location_ids
           (snd prepared) (snd trained) 3%nat 2%nat H).
Defined.

Lemma run_model_empty_table_witness :
  heap fitted_elsewhere !! 0%nat = Some (DataFrame no_trips) /\
  rows no_trips = [] /\
  heap fitted_elsewhere !! 1%nat
  = Some (DictVectorizer (Some (learn [[("PUlocationID=7", Some 1%Q)]]))) /\
  run_model zero_rmse 0 location_ids 1 2 fitted_elsewhere
  = (Raise ValueError, fitted_elsewhere).
Proof.
  assert (heap fitted_elsewhere !! 0%nat = Some (DataFrame no_trips)) as H1
    by (vm_compute; reflexivity).
  assert (heap fitted_elsewhere !! 1%nat
          = Some (DictVectorizer
                    (Some (learn [[("PUlocationID=7", Some 1%Q)]])))) as H2
    by (vm_compute; reflexivity).
  split; [exact H1|]. split; [reflexivity|]. split; [exact H2|].
  exact (run_model_empty_table zero_rmse 0%nat location_ids 1%nat 2%nat
           fitted_elsewhere no_trips
           (learn [[("PUlocationID=7", Some 1%Q)]])
           H1 eq_refl no_trips_columns H2).
Defined.

(** ** X18, X19, X20 *)

Lemma main_missing_training_file_witness :
  get_paths "2022-1-5"
  = Ok ("./data/fhv_tripdata_2021-11.parquet",
        "./data/fhv_tripdata_2021-12.parquet") /\
  no_files "./data/fhv_tripdata_2021-11.parquet" = None /\
  fst (main clock no_files disk unstarted no_int no_wide zero_fit zero_rmse
         (Some "2022-1-5") empty_world)
  = Raise unstarted /\
  exists evs n,
    trace (snd (main clock no_files disk unstarted no_int no_wide zero_fit
                  zero_rmse (Some "2022-1-5") empty_world))
    = trace empty_world
      ++ ReadParquet "./data/fhv_tripdata_2021-11.parquet"
         :: ReadParquet "./data/fhv_tripdata_2021-12.parquet" :: evs /\
    (n <= 1)%nat /\
    map stage_of evs = take n [PrepareValidation].
Proof.
  assert (get_paths "2022-1-5"
          = Ok ("./data/fhv_tripdata_2021-11.parquet",
                "./data/fhv_tripdata_2021-12.parquet")) as H
    by (vm_compute; reflexivity).
  split; [exact H|]. split; [reflexivity|].
  exact (main_missing_training_file clock no_files disk unstarted no_int
           no_wide zero_fit zero_rmse "2022-1-5" empty_world
           "./data/fhv_tripdata_2021-11.parquet"
           "./data/fhv_tripdata_2021-12.parquet" H eq_refl).
Defined.

Lemma main_scheduled_run_witness :
  valid_date (year clock) (month clock) (day clock) = true /\
  3 <= 12 * (year clock - 1) + month clock /\
  exists evs,
    trace (snd (main clock files disk unstarted no_int no_wide zero_fit
                  zero_rmse None empty_world))
    = trace empty_world
      ++ ReadParquet (dataset_id (months_before 2 (year clock) (month clock)))
         :: evs.
Proof.
  assert (valid_date (year clock) (month clock) (day clock) = true) as H1
    by reflexivity.
  assert (3 <= 12 * (year clock - 1) + month clock) as H2
    by (vm_compute; discriminate).
  split; [exact H1|]. split; [exact H2|].
  exact (main_scheduled_run clock files disk unstarted no_int no_wide
           zero_fit zero_rmse empty_world H1 H2).
Defined.

Lemma main_artifacts_witness :
  fst (main clock files disk unstarted no_int no_wide zero_fit zero_rmse
         (Some "2021-08-15") empty_world) = Ok tt /\
  exists evs p st mse,
    trace (snd (main clock files disk unstarted no_int no_wide zero_fit
                  zero_rmse (Some "2021-08-15") empty_world))
    = trace empty_world ++ evs
      ++ [Dump (LinearRegression (Some p)) ("model-" +:+ "2021-08-15" +:+ ".bin");
          Dump (DictVectorizer (Some st)) ("dv-" +:+ "2021-08-15" +:+ ".b");
          Log (MseValidation mse)] /\
    Forall (fun ev => forall o file, ev <> Dump o file) evs.
Proof.
  assert (fst (main clock files disk unstarted no_int no_wide zero_fit
                 zero_rmse (Some "2021-08-15") empty_world) = Ok tt) as H
    by (vm_compute; reflexivity).
  split; [exact H|].
  exact (main_artifacts clock files disk unstarted no_int no_wide zero_fit
           zero_rmse (Some "2021-08-15") empty_world tt H).
Defined.

(** The scheduled run of the fifteenth of August 2021 reads the June
    dataset first and completes. *)
Example scheduled_run_june :
  fst scheduled_run = Ok tt /\
  head (trace (snd scheduled_run)) = Some (ReadParquet june_path).
Proof. split; vm_compute; reflexivity. Qed.
